(** * second-brain: a shallow embedding of the capture / store / query pipeline

    The development follows the Python sources:
    - [ocr.py]          the capture adapter,
    - [vector_db.py]    the knowledge store adapter ([VectorDatabase]),
    - [api_backend.py]  the Flask API (module-level state and handlers),
    - [menubar_app.py]  the menu-bar host ([handle_query] and the menu
                        actions),
    - [web_ui.py]       the in-process chat UI ([WebChatUI]),
    - [main_rag.py]     the command-line script.

    Python code is effectful: it mutates dictionaries, talks to the Qdrant
    service, draws UUIDs, reads the clock and raises exceptions.  All of this
    is threaded explicitly through a state-and-exception monad.  External
    collaborators (embedding model, OCR engine, language model, UUID and clock
    sources, similarity ranking) are the fields of one record [Env]. *)

From Stdlib Require Import ZArith Lia Ascii String.
From stdpp Require Import base option list gmap strings sorting pretty.

Open Scope string_scope.
Open Scope list_scope.
Open Scope nat_scope.

(** ** Python values and strings *)

(** The values that occur in payloads and request bodies. *)
Inductive pyval :=
| VStr (s : string)
| VNum (z : Z)
| VBool (b : bool)
| VNone.

#[global] Instance pyval_eq_dec : EqDecision pyval.
Proof. solve_decision. Defined.

(** [str(e)] of a raised exception. *)
Definition exn := string.

(** *** Characters

    A Python [str] is a sequence of code points.  It is represented by the
    [string] of its UTF-8 encoding, which is also how the literals of this
    file are read.  A character is then a byte that is no continuation byte
    (10xxxxxx), with the continuation bytes that follow it. *)

Definition continuation (c : ascii) : bool :=
  let n := nat_of_ascii c in (128 <=? n) && (n <? 192).

(** Whether [s] begins in the middle of a character. *)
Definition begins_inside (s : string) : bool :=
  match s with
  | String c _ => continuation c
  | "" => false
  end.

(** [list(s)]: the characters of [s] in order, each as the bytes that encode
    it. *)
Fixpoint chars (s : string) : list string :=
  match s with
  | "" => []
  | String c r =>
      match chars r with
      | ch :: rest =>
          if begins_inside r then String c ch :: rest
          else String c "" :: ch :: rest
      | [] => [String c ""]
      end
  end.

(** ["".join(cs)] *)
Definition join (cs : list string) : string := foldr String.append "" cs.

(** [len(s)] *)
Definition len (s : string) : nat := length (chars s).

(** [s[:n]] *)
Definition slice_to (n : nat) (s : string) : string := join (take n (chars s)).

(** The UTF-8 encoding of a code point. *)
Definition utf8 (cp : N) : string :=
  let byte (n : N) := ascii_of_N n in
  let low (n : N) := byte (128 + n mod 64)%N in
  if (cp <? 128)%N then String (byte cp) ""
  else if (cp <? 2048)%N then
    String (byte (192 + cp / 64)%N) (String (low cp) "")
  else if (cp <? 65536)%N then
    String (byte (224 + cp / 4096)%N)
      (String (low (cp / 64)%N) (String (low cp) ""))
  else
    String (byte (240 + cp / 262144)%N)
      (String (low (cp / 4096)%N) (String (low (cp / 64)%N) (String (low cp) ""))).

(** The code points for which [str.isspace] holds: U+0009 to U+000D, U+001C
    to U+0020, U+0085, U+00A0, U+1680, U+2000 to U+200A, U+2028, U+2029,
    U+202F, U+205F and U+3000. *)
Definition whitespace : list N :=
  [9; 10; 11; 12; 13; 28; 29; 30; 31; 32; 133; 160; 5760;
   8192; 8193; 8194; 8195; 8196; 8197; 8198; 8199; 8200; 8201; 8202;
   8232; 8233; 8239; 8287; 12288]%N.

(** [ch.isspace()] for one character. *)
Definition isspace (ch : string) : bool :=
  bool_decide (ch ∈ utf8 <$> whitespace).

(** The characters left once the whitespace in front is dropped. *)
Fixpoint lstrip_chars (cs : list string) : list string :=
  match cs with
  | ch :: rest => if isspace ch then lstrip_chars rest else cs
  | [] => []
  end.

(** The same at both ends. *)
Definition strip_chars (cs : list string) : list string :=
  reverse (lstrip_chars (reverse (lstrip_chars cs))).

(** [s.strip()] *)
Definition strip (s : string) : string := join (strip_chars (chars s)).

(** [s.replace(a, b)] for single characters [a], [b]. *)
Fixpoint replace_char (a b : ascii) (s : string) : string :=
  match s with
  | String c r => String (if decide (c = a) then b else c) (replace_char a b r)
  | "" => ""
  end.

Definition newline : ascii := ascii_of_nat 10.
Definition space : ascii := ascii_of_nat 32.

(** ** The state-and-exception monad

    A computation over a state [St] returns a value or raises, and in either
    case leaves a state behind: what was mutated before a [raise] stays
    mutated, as in Python. *)

Inductive outcome (A : Type) :=
| Returns (a : A)
| Raises (e : exn).
Arguments Returns {A} a.
Arguments Raises {A} e.

Definition M (St A : Type) : Type := St → outcome A * St.

#[global] Instance M_ret St : MRet (M St) := λ A a s, (Returns a, s).
#[global] Instance M_bind St : MBind (M St) := λ A B f m s,
  match m s with
  | (Returns a, s') => f a s'
  | (Raises e, s') => (Raises e, s')
  end.

Definition raise {St A} (e : exn) : M St A := λ s, (Raises e, s).
(** The outcome of a call that leaves the state alone. *)
Definition call_out {St A} (o : outcome A) : M St A := λ s, (o, s).
Definition get {St} : M St St := λ s, (Returns s, s).
Definition gets {St A} (f : St → A) : M St A := λ s, (Returns (f s), s).
Definition modify {St} (f : St → St) : M St unit := λ s, (Returns tt, f s).

(** [try: body  except Exception as e: handler(str(e))] *)
Definition try_except {St A} (body : M St A) (handler : exn → M St A) : M St A :=
  λ s, match body s with
       | (Returns a, s') => (Returns a, s')
       | (Raises e, s') => handler e s'
       end.

(** A computation of the sub-state, run inside a larger state. *)
Definition zoom {St Sub A} (proj : St → Sub) (inj : Sub → St → St)
    (m : M Sub A) : M St A :=
  λ s, let '(r, w) := m (proj s) in (r, inj w s).

(** ** The Qdrant service *)

(** A 64-bit float, as data only: the model never computes with it. *)
Inductive float64 := Float64 (bits : Z).

#[global] Instance float64_eq_dec : EqDecision float64.
Proof. solve_decision. Defined.

Inductive Distance := COSINE | EUCLID | DOT.

#[global] Instance Distance_eq_dec : EqDecision Distance.
Proof. solve_decision. Defined.

Record VectorParams := { size_ : nat; distance : Distance }.

Record PointStruct := {
  id : string;
  vector : list float64;
  payload : gmap string pyval
}.

(** A stored point: its vector and its payload, keyed by id in [points]. *)
Record collection := {
  config : VectorParams;
  points : gmap string (list float64 * gmap string pyval)
}.

Record CollectionInfo := {
  points_count : nat;
  vectors_count : nat;
  status : string
}.

Record ScoredPoint := {
  sp_id : string;
  score : Z;
  sp_payload : gmap string pyval
}.

(** Calls that reach an external service, in the order they are made. *)
Inductive call :=
| CGetCollections
| CCreateCollection (name : string) (cfg : VectorParams)
| CDeleteCollection (name : string)
| CUpsert (name : string) (pts : list PointStruct)
| CSearch (name : string) (limit : nat)
| CGetCollection (name : string)
| CLlm (prompt : string).

(** What lies outside the Python objects of one module: the Qdrant service,
    the heap of Python dictionaries (so that two references to one [dict] see
    each other's writes), how many UUIDs and clock readings have been drawn,
    and the log of external calls (oldest first). *)
Record world := {
  qdrant : gmap string collection;
  heap : gmap nat (gmap string pyval);
  uuid_drawn : nat;
  clock_reads : nat;
  calls : list call
}.

Definition set_qdrant (f : gmap string collection → gmap string collection)
    (w : world) : world :=
  {| qdrant := f (qdrant w); heap := heap w; uuid_drawn := uuid_drawn w;
     clock_reads := clock_reads w; calls := calls w |}.
Definition set_heap (f : gmap nat (gmap string pyval) → gmap nat (gmap string pyval))
    (w : world) : world :=
  {| qdrant := qdrant w; heap := f (heap w); uuid_drawn := uuid_drawn w;
     clock_reads := clock_reads w; calls := calls w |}.
Definition set_uuid_drawn (f : nat → nat) (w : world) : world :=
  {| qdrant := qdrant w; heap := heap w; uuid_drawn := f (uuid_drawn w);
     clock_reads := clock_reads w; calls := calls w |}.
Definition set_clock_reads (f : nat → nat) (w : world) : world :=
  {| qdrant := qdrant w; heap := heap w; uuid_drawn := uuid_drawn w;
     clock_reads := f (clock_reads w); calls := calls w |}.
Definition log_call (c : call) (w : world) : world :=
  {| qdrant := qdrant w; heap := heap w; uuid_drawn := uuid_drawn w;
     clock_reads := clock_reads w; calls := calls w ++ [c] |}.

(** A raster image, as data only. *)
Inductive Image := Raster (width height : nat) (pixels : list Z).

(** ** External collaborators *)

Inductive component :=
| CompQdrantClient | CompSentenceTransformer | CompOllamaLLM
| CompHuggingFaceEmbeddings | CompQdrantStore | CompRetrievalQA.

Record Document := {
  page_content : string;
  metadata : gmap string pyval
}.

Record Env := {
  (** [SentenceTransformer.encode(text).tolist()] *)
  model_encode : string → list float64;
  (** [get_sentence_embedding_dimension()] *)
  sentence_embedding_dimension : nat;
  (** [HuggingFaceEmbeddings.embed_query] *)
  embed_query : string → list float64;
  (** [str(uuid.uuid4())], by draw number *)
  uuid4 : nat → string;
  (** [datetime.now().isoformat()], by reading number *)
  now_isoformat : nat → string;
  (** the key Qdrant ranks by for a query vector: higher is nearer *)
  similarity : list float64 → list float64 → Z;
  (** the language model on a prompt *)
  llm_generate : string → outcome string;
  (** the prompt the chain builds from the retrieved documents and the question *)
  stuff_prompt : list Document → string → string;
  (** [pyautogui.screenshot(region=region)] *)
  screenshot : option (Z * Z * Z * Z) → outcome Image;
  (** [pytesseract.image_to_string(image)] *)
  image_to_string : Image → outcome string;
  (** whether constructing a component (for the Qdrant client: reaching the
      service) raises, and with what message *)
  load_fault : component → option exn
}.

(** ** Python dictionaries on the heap *)

Section Heap.

(** [{...}]: a new dictionary object with the given contents. *)
Definition new_dict (d : gmap string pyval) : M world nat := λ w,
  let l := fresh (dom (heap w)) in
  (Returns l, set_heap (insert l d) w).

(** The contents of the dictionary at [l].  A reference held by a Python
    program is always live; an unallocated address reads as empty. *)
Definition dict_at (l : nat) (w : world) : gmap string pyval :=
  default ∅ (heap w !! l).

(** [k in d] *)
Definition dict_contains (l : nat) (k : string) : M world bool :=
  gets (λ w, bool_decide (is_Some (dict_at l w !! k))).

(** [d.get(k, dflt)] *)
Definition dict_get (l : nat) (k : string) (dflt : pyval) : M world pyval :=
  gets (λ w, default dflt (dict_at l w !! k)).

(** [d[k] = v] *)
Definition dict_set (l : nat) (k : string) (v : pyval) : M world unit :=
  modify (λ w, set_heap (insert l (<[k:=v]> (dict_at l w))) w).

(** The contents at this moment.  [PointStruct(payload=d)] validates its
    payload into a dictionary of its own, so a point holds the contents its
    argument had when the point was built. *)
Definition dict_snapshot (l : nat) : M world (gmap string pyval) :=
  gets (dict_at l).

End Heap.

(** ** The Qdrant client *)

Section QdrantClient.

Definition missing_collection (name : string) : exn :=
  "Not found: Collection `" +:+ name +:+ "` doesn't exist!".

Definition existing_collection (name : string) : exn :=
  "Wrong input: Collection `" +:+ name +:+ "` already exists!".

(** [client.get_collections().collections], as the names. *)
Definition client_get_collections : M world (list string) := λ w,
  (Returns (elements (dom (qdrant w))), log_call CGetCollections w).

(** [client.create_collection(collection_name, vectors_config)] *)
Definition client_create_collection (name : string) (cfg : VectorParams)
    : M world unit := λ w,
  let w := log_call (CCreateCollection name cfg) w in
  match qdrant w !! name with
  | Some _ => (Raises (existing_collection name), w)
  | None =>
      (Returns tt, set_qdrant (insert name {| config := cfg; points := ∅ |}) w)
  end.

(** [client.delete_collection(collection_name)]: whether it was there. *)
Definition client_delete_collection (name : string) : M world bool := λ w,
  let w := log_call (CDeleteCollection name) w in
  (Returns (bool_decide (is_Some (qdrant w !! name))),
   set_qdrant (delete name) w).

(** Points are written in order: a later point replaces an earlier one
    with the same id. *)
Definition store_points (pts : list PointStruct) (c : collection) : collection :=
  {| config := config c;
     points := foldl (λ m p, <[id p := (vector p, payload p)]> m) (points c) pts |}.

(** [client.upsert(collection_name, points)] *)
Definition client_upsert (name : string) (pts : list PointStruct)
    : M world unit := λ w,
  let w := log_call (CUpsert name pts) w in
  match qdrant w !! name with
  | None => (Raises (missing_collection name), w)
  | Some c => (Returns tt, set_qdrant (insert name (store_points pts c)) w)
  end.

(** [client.get_collection(collection_name)] *)
Definition client_get_collection (name : string) : M world CollectionInfo := λ w,
  let w := log_call (CGetCollection name) w in
  match qdrant w !! name with
  | None => (Raises (missing_collection name), w)
  | Some c =>
      (Returns {| points_count := size (points c);
                  vectors_count := size (points c);
                  status := "green" |}, w)
  end.

Definition nearer (a b : ScoredPoint) : Prop := (score b ≤ score a)%Z.

#[global] Instance nearer_dec a b : Decision (nearer a b).
Proof. unfold nearer. apply _. Defined.

Definition scored (sim : list float64 → Z)
    (c : collection) : list ScoredPoint :=
  (λ kv, {| sp_id := kv.1; score := sim kv.2.1; sp_payload := kv.2.2 |})
    <$> map_to_list (points c).

(** [client.search(collection_name, query_vector, limit)]: the [limit]
    nearest points, nearest first. *)
Definition client_search (sim : list float64 → Z) (name : string)
    (limit : nat) : M world (list ScoredPoint) := λ w,
  let w := log_call (CSearch name limit) w in
  match qdrant w !! name with
  | None => (Raises (missing_collection name), w)
  | Some c => (Returns (take limit (merge_sort nearer (scored sim c))), w)
  end.

End QdrantClient.

(** ** vector_db.py *)

(** A [VectorDatabase] object.  Its [client] and [embedding_model] attributes
    are handles to the Qdrant service of the [world] and to the embedding
    model of the [Env]. *)
Record VectorDatabase := {
  collection_name : string;
  embedding_dim : nat
}.

Section vector_db.

Context (env : Env).

(** Constructing an external component, or reaching it for the first time:
    raises when the environment says so. *)
Definition construct {St} (c : component) : M St unit :=
  match load_fault env c with
  | Some e => raise e
  | None => mret tt
  end.

(** [str(uuid.uuid4())] *)
Definition uuid4_str : M world string := λ w,
  (Returns (uuid4 env (uuid_drawn w)), set_uuid_drawn S w).

(** [datetime.now().isoformat()] *)
Definition datetime_now_isoformat : M world string := λ w,
  (Returns (now_isoformat env (clock_reads w)), set_clock_reads S w).

Definition _create_collection_if_not_exists (self : VectorDatabase)
    : M world unit :=
  collection_names ← client_get_collections;
  if decide (collection_name self ∉ collection_names) then
    client_create_collection (collection_name self)
      {| size_ := embedding_dim self; distance := COSINE |}
  else
    mret tt.

(** [VectorDatabase.__init__].  [QdrantClient(host, port)] makes no request:
    a service that cannot be reached shows at the first request, which is
    [get_collections] in [_create_collection_if_not_exists], after the
    embedding model is loaded. *)
Definition VectorDatabase_init (name : string) : M world VectorDatabase :=
  construct CompSentenceTransformer;;
  let self := {| collection_name := name;
                 embedding_dim := sentence_embedding_dimension env |} in
  construct CompQdrantClient;;
  _create_collection_if_not_exists self;;
  mret self.

Definition add_text (self : VectorDatabase) (text : string)
    (metadata : option nat) : M world string :=
  let embedding := model_encode env text in
  point_id ← uuid4_str;
  metadata ← match metadata with
             | None => new_dict ∅
             | Some d => mret d
             end;
  stamped ← dict_contains metadata "timestamp";
  (if negb stamped then
     now ← datetime_now_isoformat;
     dict_set metadata "timestamp" (VStr now)
   else mret tt);;
  dict_set metadata "text" (VStr text);;
  payload ← dict_snapshot metadata;
  client_upsert (collection_name self)
    [ {| id := point_id; vector := embedding; payload := payload |} ];;
  mret point_id.

(** The body of the [for text, embedding, metadata in zip(...)] loop of
    [add_texts_batch], with [points] the list built so far. *)
Fixpoint batch_points (items : list (string * (list float64 * nat)))
    (points : list PointStruct) : M world (list PointStruct) :=
  match items with
  | [] => mret points
  | (text, (embedding, metadata)) :: rest =>
      point_id ← uuid4_str;
      now ← datetime_now_isoformat;
      stamp ← dict_get metadata "timestamp" (VStr now);
      dict_set metadata "timestamp" stamp;;
      dict_set metadata "text" (VStr text);;
      payload ← dict_snapshot metadata;
      batch_points rest
        (points ++ [ {| id := point_id; vector := embedding; payload := payload |} ])
  end.

Definition add_texts_batch (self : VectorDatabase) (texts : list string)
    (metadatas : option (list nat)) : M world (list string) :=
  metadatas ← match metadatas with
              | None =>
                  d ← new_dict ∅;
                  mret (replicate (length texts) d)
              | Some ms => mret ms
              end;
  let embeddings := model_encode env <$> texts in
  points ← batch_points (zip texts (zip embeddings metadatas)) [];
  client_upsert (collection_name self) points;;
  mret (id <$> points).

Definition search (self : VectorDatabase) (query : string) (limit : nat)
    : M world (list ScoredPoint) :=
  let query_embedding := model_encode env query in
  client_search (similarity env query_embedding) (collection_name self) limit.

Definition get_stats (self : VectorDatabase) : M world CollectionInfo :=
  client_get_collection (collection_name self).

Definition delete_collection (self : VectorDatabase) : M world unit :=
  client_delete_collection (collection_name self);;
  mret tt.

End vector_db.

(** ** ocr.py *)

Section ocr.

Context (env : Env).

Definition capture_screenshot {St} (region : option (Z * Z * Z * Z)) : M St Image :=
  call_out (screenshot env region).

Definition extract_text_from_image {St} (image : Image) : M St string :=
  call_out (image_to_string env image).

Definition capture_and_extract {St} (region : option (Z * Z * Z * Z)) : M St string :=
  image ← capture_screenshot region;
  text ← extract_text_from_image image;
  mret text.

End ocr.

(** ** The retrieval chain

    [Qdrant(client, collection_name, embeddings, content_payload_key)],
    [as_retriever(search_kwargs={"k": k})] and
    [RetrievalQA.from_chain_type(llm, retriever, return_source_documents)]
    are library objects.  The record keeps the arguments the sources pass;
    [RetrievalQA_invoke] is the library's contract for the default chain:
    retrieve once, put the retrieved texts and the question into one prompt,
    call the language model on it, return the answer with the documents. *)

Record RetrievalQA := {
  retriever_collection : string;
  content_payload_key : string;
  search_k : nat;
  return_source_documents : bool
}.

Record QAResponse := {
  result : string;
  source_documents : list Document
}.

(** The chain both shells build in [initialize_components]:
    [Qdrant(..., collection_name="book_knowledge", content_payload_key="text")],
    [as_retriever(search_kwargs={"k": 3})],
    [RetrievalQA.from_chain_type(..., return_source_documents=True)]. *)
Definition book_knowledge_chain : RetrievalQA :=
  {| retriever_collection := "book_knowledge";
     content_payload_key := "text";
     search_k := 3;
     return_source_documents := true |}.

(** Python truthiness. *)
Definition truthy (v : pyval) : bool :=
  match v with
  | VStr s => negb (bool_decide (s = ""))
  | VNum z => negb (bool_decide (z = 0%Z))
  | VBool b => b
  | VNone => false
  end.

Section chain.

Context (env : Env).

(** The document of a search hit: its text is the payload entry under the
    content key; its metadata is the payload entry under ["metadata"] (or
    empty) extended with the point id and the collection name.  Payload
    values here are scalars, so a non-empty ["metadata"] entry cannot be
    extended and raises. *)
Definition document_of (qa : RetrievalQA) (hit : ScoredPoint) : outcome Document :=
  match sp_payload hit !! content_payload_key qa with
  | Some (VStr text) =>
      match sp_payload hit !! "metadata" with
      | Some v =>
          if truthy v
          then Raises "object does not support item assignment"
          else Returns {| page_content := text;
                          metadata := {[ "_id" := VStr (sp_id hit);
                                         "_collection_name" := VStr (retriever_collection qa) ]} |}
      | None => Returns {| page_content := text;
                           metadata := {[ "_id" := VStr (sp_id hit);
                                          "_collection_name" := VStr (retriever_collection qa) ]} |}
      end
  | _ => Raises "page_content: Input should be a valid string"
  end.

Fixpoint documents_of (qa : RetrievalQA) (hits : list ScoredPoint)
    : outcome (list Document) :=
  match hits with
  | [] => Returns []
  | hit :: rest =>
      match document_of qa hit with
      | Raises e => Raises e
      | Returns doc =>
          match documents_of qa rest with
          | Raises e => Raises e
          | Returns docs => Returns (doc :: docs)
          end
      end
  end.

(** The retriever: the [search_k] nearest points of the collection. *)
Definition get_relevant_documents (qa : RetrievalQA) (query : string)
    : M world (list Document) :=
  hits ← client_search (similarity env (embed_query env query))
           (retriever_collection qa) (search_k qa);
  call_out (documents_of qa hits).

(** One call of the language model. *)
Definition llm_invoke (prompt : string) : M world string := λ w,
  (llm_generate env prompt, log_call (CLlm prompt) w).

(** [qa_chain.invoke({"query": query})] *)
Definition RetrievalQA_invoke (qa : RetrievalQA) (query : string)
    : M world QAResponse :=
  docs ← get_relevant_documents qa query;
  answer ← llm_invoke (stuff_prompt env docs query);
  mret {| result := answer;
          source_documents := if return_source_documents qa then docs else [] |}.

End chain.

(** ** JSON responses *)

#[local] Set Warnings "-register-all".
Inductive json :=
| JStr (s : string)
| JNum (z : Z)
| JBool (b : bool)
| JNull
| JArr (items : list json)
| JObj (fields : list (string * json)).

Definition json_of_pyval (v : pyval) : json :=
  match v with
  | VStr s => JStr s
  | VNum z => JNum z
  | VBool b => JBool b
  | VNone => JNull
  end.

Definition json_of_dict (d : gmap string pyval) : json :=
  JObj ((λ kv, (kv.1, json_of_pyval kv.2)) <$> map_to_list d).

(** A Flask response: [jsonify(body), code]; the code is 200 when the handler
    gives none. *)
Record response := {
  body : json;
  code : nat
}.

Definition jsonify (fields : list (string * json)) (code : nat) : response :=
  {| body := JObj fields; code := code |}.

(** A chat turn [{'role': ..., 'content': ...}]. *)
Record turn := {
  role : string;
  content : string
}.

Definition json_of_turn (t : turn) : json :=
  JObj [("role", JStr (role t)); ("content", JStr (content t))].

(** A source entry [{'content': ..., 'metadata': ...}]. *)
Record source := {
  src_content : string;
  src_metadata : gmap string pyval
}.

Definition json_of_source (s : source) : json :=
  JObj [("content", JStr (src_content s)); ("metadata", json_of_dict (src_metadata s))].

(** The HTTP errors [request.json] raises: 415 when the request does not
    declare a JSON body, 400 when the body does not parse. *)
Inductive http_error := UnsupportedMediaType | BadRequest.

Definition status_code (e : http_error) : nat :=
  match e with
  | UnsupportedMediaType => 415
  | BadRequest => 400
  end.

(** What [request.json] gives inside a view function: it raises an HTTP
    error, or it is the parsed value, which is an object (a [dict]) or
    something else (a list, a string, a number, [True], [False] or
    [None]). *)
Inductive request_json :=
| json_error (e : http_error)
| json_other
| json_object (fields : gmap string json).

(** The body [{k: v, ...}] whose values are the strings of [data]. *)
Definition form (data : gmap string string) : request_json :=
  json_object (JStr <$> data).

(** Python truthiness of a parsed value. *)
Definition json_truthy (v : json) : bool :=
  match v with
  | JStr s => negb (bool_decide (s = ""))
  | JNum z => negb (bool_decide (z = 0%Z))
  | JBool b => b
  | JNull => false
  | JArr [] => false
  | JArr _ => true
  | JObj [] => false
  | JObj _ => true
  end.

(** ** api_backend.py *)

Module api_backend.

(** [initialization_status]: [{"ready": ..., "message": ...}] *)
Record init_status := {
  ready : bool;
  message : string
}.

#[global] Instance init_status_eq_dec : EqDecision init_status.
Proof. solve_decision. Defined.

(** The module-level state, with the world the module acts on. *)
Record backend := {
  vector_db : option VectorDatabase;
  llm : option string;
  qa_chain : option RetrievalQA;
  embeddings : option string;
  initialization_status : init_status;
  chat_history : list turn;
  outside : world
}.

Definition set_vector_db (v : option VectorDatabase) (s : backend) : backend :=
  {| vector_db := v; llm := llm s; qa_chain := qa_chain s;
     embeddings := embeddings s;
     initialization_status := initialization_status s;
     chat_history := chat_history s; outside := outside s |}.
Definition set_llm (v : option string) (s : backend) : backend :=
  {| vector_db := vector_db s; llm := v; qa_chain := qa_chain s;
     embeddings := embeddings s;
     initialization_status := initialization_status s;
     chat_history := chat_history s; outside := outside s |}.
Definition set_qa_chain (v : option RetrievalQA) (s : backend) : backend :=
  {| vector_db := vector_db s; llm := llm s; qa_chain := v;
     embeddings := embeddings s;
     initialization_status := initialization_status s;
     chat_history := chat_history s; outside := outside s |}.
Definition set_embeddings (v : option string) (s : backend) : backend :=
  {| vector_db := vector_db s; llm := llm s; qa_chain := qa_chain s;
     embeddings := v;
     initialization_status := initialization_status s;
     chat_history := chat_history s; outside := outside s |}.
Definition set_initialization_status (v : init_status) (s : backend) : backend :=
  {| vector_db := vector_db s; llm := llm s; qa_chain := qa_chain s;
     embeddings := embeddings s;
     initialization_status := v;
     chat_history := chat_history s; outside := outside s |}.
Definition set_chat_history (v : list turn) (s : backend) : backend :=
  {| vector_db := vector_db s; llm := llm s; qa_chain := qa_chain s;
     embeddings := embeddings s;
     initialization_status := initialization_status s;
     chat_history := v; outside := outside s |}.
Definition set_outside (w : world) (s : backend) : backend :=
  {| vector_db := vector_db s; llm := llm s; qa_chain := qa_chain s;
     embeddings := embeddings s;
     initialization_status := initialization_status s;
     chat_history := chat_history s; outside := w |}.

(** A computation on the world, run from the module. *)
Definition in_world {A} (m : M world A) : M backend A :=
  zoom outside set_outside m.

(** The module as it is right after import. *)
Definition imported (w : world) : backend :=
  {| vector_db := None; llm := None; qa_chain := None; embeddings := None;
     initialization_status := {| ready := false; message := "Initializing..." |};
     chat_history := []; outside := w |}.

Section handlers.

Context (env : Env).

(** The [try] block of [initialize_components]. *)
Definition initialize_steps : M backend unit :=
  db ← in_world (VectorDatabase_init env "book_knowledge");
  modify (set_vector_db (Some db));;
  construct env CompOllamaLLM;;
  modify (set_llm (Some "llama3.1:8b"));;
  construct env CompHuggingFaceEmbeddings;;
  modify (set_embeddings (Some "all-MiniLM-L6-v2"));;
  construct env CompQdrantStore;;
  construct env CompRetrievalQA;;
  modify (set_qa_chain (Some book_knowledge_chain));;
  modify (set_initialization_status
            {| ready := true; message := "All systems ready! 🎉" |}).

Definition initialize_components : M backend unit :=
  try_except initialize_steps
    (λ e,
     modify (set_initialization_status
               {| ready := false; message := "Error: " +:+ e |})).

Definition health_check : M backend response :=
  st ← gets initialization_status;
  mret (jsonify [("status", JStr "ok");
                 ("initialized", JBool (ready st));
                 ("message", JStr (message st))] 200).

(** [qa_chain.invoke(...)] on the module's chain; on [None] the
    attribute access raises. *)
Definition qa_chain_invoke (user_query : string) : M backend QAResponse :=
  chain ← gets qa_chain;
  match chain with
  | None => raise "'NoneType' object has no attribute 'invoke'"
  | Some qa => in_world (RetrievalQA_invoke env qa user_query)
  end.

(** The [sources] list built from a chain response. *)
Definition sources_of (resp : QAResponse) : list source :=
  if bool_decide (source_documents resp = []) then []
  else (λ doc, {| src_content := slice_to 150 (page_content doc);
                  src_metadata := metadata doc |})
         <$> take 2 (source_documents resp).

(** [qa_chain.invoke({"query": v})] for a [v] that is no [str]: the
    retriever embeds the question before anything else, and
    [HuggingFaceEmbeddings.embed_query] calls [v.replace]. *)
Definition qa_chain_invoke_other {A} : M backend A :=
  chain ← gets qa_chain;
  match chain with
  | None => raise "'NoneType' object has no attribute 'invoke'"
  | Some _ => raise "object has no attribute 'replace'"
  end.

(** [POST /api/query]; [req] is what [request.json] gives.  [request.json]
    and [data.get] stand before the [try]: Flask answers the HTTP error of
    the first with its code (only the code is modelled), and the
    [AttributeError] of the second, on a body that is no object, escapes the
    view function. *)
Definition query (req : request_json) : M backend response :=
  st ← gets initialization_status;
  if negb (ready st) then
    mret (jsonify [("error", JStr "System not ready yet");
                   ("message", JStr (message st))] 503)
  else
    match req with
    | json_error e => mret (jsonify [] (status_code e))
    | json_other => raise "object has no attribute 'get'"
    | json_object data =>
        let user_query := default (JStr "") (data !! "query") in
        if negb (json_truthy user_query) then
          mret (jsonify [("error", JStr "No query provided")] 400)
        else
          try_except
            (match user_query with
             | JStr user_query =>
                 resp ← qa_chain_invoke user_query;
                 let answer := result resp in
                 let sources := sources_of resp in
                 modify (λ s, set_chat_history
                                (chat_history s
                                   ++ [{| role := "user"; content := user_query |}]) s);;
                 modify (λ s, set_chat_history
                                (chat_history s
                                   ++ [{| role := "assistant"; content := answer |}]) s);;
                 mret (jsonify [("response", JStr answer);
                                ("sources", JArr (json_of_source <$> sources));
                                ("success", JBool true)] 200)
             | _ => qa_chain_invoke_other
             end)
            (λ e,
             mret (jsonify [("error", JStr e); ("success", JBool false)] 500))
    end.

(** [POST /api/capture/full] *)
Definition capture_full_screen : M backend response :=
  vdb ← gets vector_db;
  match vdb with
  | None => mret (jsonify [("error", JStr "Vector database not ready")] 503)
  | Some db =>
      try_except
        (text ← capture_and_extract env None;
         if bool_decide (text = "") || (len (strip text) <? 10) then
           mret (jsonify [("success", JBool false);
                          ("message", JStr "No meaningful text found")] 200)
         else
           md ← in_world (new_dict {[ "source" := VStr "screenshot_full" ]});
           in_world (add_text env db text (Some md));;
           mret (jsonify
                   [("success", JBool true);
                    ("message", JStr ("Captured " +:+ pretty (len text)
                                        +:+ " characters"));
                    ("text_length", JNum (Z.of_nat (len text)))] 200))
        (λ e,
         mret (jsonify [("success", JBool false); ("error", JStr e)] 500))
  end.

Definition json_of_stats (info : CollectionInfo) : json :=
  JObj [("total_points", JNum (Z.of_nat (points_count info)));
        ("vectors_count", JNum (Z.of_nat (vectors_count info)));
        ("status", JStr (status info))].

(** [GET /api/stats] *)
Definition get_stats : M backend response :=
  vdb ← gets vector_db;
  match vdb with
  | None => mret (jsonify [("error", JStr "Vector database not ready")] 503)
  | Some db =>
      try_except
        (stats ← in_world (get_stats db);
         mret (jsonify [("success", JBool true);
                        ("stats", json_of_stats stats)] 200))
        (λ e,
         mret (jsonify [("success", JBool false); ("error", JStr e)] 500))
  end.

(** [GET /api/history] *)
Definition get_history : M backend response :=
  h ← gets chat_history;
  mret (jsonify [("history", JArr (json_of_turn <$> h))] 200).

(** [DELETE /api/history] *)
Definition clear_history : M backend response :=
  modify (set_chat_history []);;
  mret (jsonify [("success", JBool true)] 200).

(** [DELETE /api/database] *)
Definition clear_database : M backend response :=
  vdb ← gets vector_db;
  match vdb with
  | None => mret (jsonify [("error", JStr "Vector database not ready")] 503)
  | Some db =>
      try_except
        (in_world (delete_collection db);;
         in_world (_create_collection_if_not_exists db);;
         mret (jsonify [("success", JBool true);
                        ("message", JStr "Database cleared")] 200))
        (λ e,
         mret (jsonify [("success", JBool false); ("error", JStr e)] 500))
  end.

End handlers.

(** *** The running process

    At import the module sets its globals and starts one daemon thread on
    [initialize_components]; after that the process serves requests.  The
    thread writes [initialization_status] once, in the last statement of its
    [try] block or in its [except] clause.  Here its body is taken as one
    step and so is every request: the schedules in which nothing runs beside
    the thread or beside a request.  [advance], further down, lets requests
    in between the statements of the thread. *)

Record process := {
  globals : backend;
  init_thread_pending : bool
}.

Definition launched (w : world) : process :=
  {| globals := imported w; init_thread_pending := true |}.

Inductive event :=
| InitThreadRuns
| Request (method path : string) (req : request_json).

Section process.

Context (env : Env).

(** The Flask routing table of the module.  For an unknown path (404) or a
    method the path does not accept (405) only the code is modelled. *)
Definition route (method path : string) (req : request_json)
    : M backend response :=
  if bool_decide (path = "/api/health") then
    if bool_decide (method = "GET") then health_check
    else mret (jsonify [] 405)
  else if bool_decide (path = "/api/query") then
    if bool_decide (method = "POST") then query env req
    else mret (jsonify [] 405)
  else if bool_decide (path = "/api/capture/full") then
    if bool_decide (method = "POST") then capture_full_screen env
    else mret (jsonify [] 405)
  else if bool_decide (path = "/api/stats") then
    if bool_decide (method = "GET") then get_stats
    else mret (jsonify [] 405)
  else if bool_decide (path = "/api/history") then
    if bool_decide (method = "GET") then get_history
    else if bool_decide (method = "DELETE") then clear_history
    else mret (jsonify [] 405)
  else if bool_decide (path = "/api/database") then
    if bool_decide (method = "DELETE") then clear_database
    else mret (jsonify [] 405)
  else mret (jsonify [] 404).

(** One request through Flask: an exception that escapes the view
    function becomes a 500 response. *)
Definition serve (method path : string) (req : request_json)
    (s : backend) : response * backend :=
  match route method path req s with
  | (Returns r, s') => (r, s')
  | (Raises e, s') => (jsonify [] 500, s')
  end.

(** One step of the process.  The thread is started once, so
    [InitThreadRuns] happens only while it is pending. *)
Definition step (e : event) (p : process) : process :=
  match e with
  | InitThreadRuns =>
      if init_thread_pending p then
        {| globals := (initialize_components env (globals p)).2;
           init_thread_pending := false |}
      else p
  | Request method path req =>
      {| globals := (serve method path req (globals p)).2;
         init_thread_pending := init_thread_pending p |}
  end.

(** The state after a sequence of events. *)
Definition after (es : list event) (p : process) : process :=
  foldl (λ p e, step e p) p es.

(** The states a process goes through, the starting state first. *)
Fixpoint run (es : list event) (p : process) : list process :=
  match es with
  | [] => [p]
  | e :: es' => p :: run es' (step e p)
  end.

(** *** The thread beside the requests

    A request can be served between any two statements of the thread.
    [assignments] are the statements of the [try] block of
    [initialize_components], each with the constructor calls before it;
    while [vector_db] is [None] no handler reaches Qdrant, so the requests
    the [VectorDatabase] constructor makes stay together.  A statement that
    raises leaves the [except] clause to run. *)
Definition assignments : list (M backend unit) :=
  [ db ← in_world (VectorDatabase_init env "book_knowledge");
    modify (set_vector_db (Some db));
    construct env CompOllamaLLM;;
    modify (set_llm (Some "llama3.1:8b"));
    construct env CompHuggingFaceEmbeddings;;
    modify (set_embeddings (Some "all-MiniLM-L6-v2"));
    construct env CompQdrantStore;;
    construct env CompRetrievalQA;;
    modify (set_qa_chain (Some book_knowledge_chain));
    modify (set_initialization_status
              {| ready := true; message := "All systems ready! 🎉" |}) ].

Definition except_clause (e : exn) : M backend unit :=
  modify (set_initialization_status
            {| ready := false; message := "Error: " +:+ e |}).

(** The module's globals and what the thread has left to run. *)
Record threaded := {
  shared : backend;
  thread : list (M backend unit)
}.

Definition started (w : world) : threaded :=
  {| shared := imported w; thread := assignments |}.

Inductive tick :=
| ThreadStep
| Served (method path : string) (req : request_json).

Definition advance (t : tick) (p : threaded) : threaded :=
  match t with
  | ThreadStep =>
      match thread p with
      | [] => p
      | statement :: rest =>
          match statement (shared p) with
          | (Returns _, s) => {| shared := s; thread := rest |}
          | (Raises e, s) => {| shared := s; thread := [except_clause e] |}
          end
      end
  | Served method path req =>
      {| shared := (serve method path req (shared p)).2; thread := thread p |}
  end.

Definition interleaved (ts : list tick) (p : threaded) : threaded :=
  foldl (λ p t, advance t p) p ts.

End process.

(** The number of places where a list changes value. *)
Fixpoint changes {A} `{EqDecision A} (l : list A) : nat :=
  match l with
  | a :: (b :: _) as rest => (if decide (a = b) then 0 else 1) + changes rest
  | _ => 0
  end.

End api_backend.

(** ** menubar_app.py *)

Module menubar_app.

(** The attributes of [SecondBrainApp] that [handle_query] reads, with the
    world the application acts on. *)
Record SecondBrainApp := {
  vector_db : option VectorDatabase;
  qa_chain : option RetrievalQA;
  outside : world
}.

Definition set_outside (w : world) (s : SecondBrainApp) : SecondBrainApp :=
  {| vector_db := vector_db s; qa_chain := qa_chain s; outside := w |}.

Definition in_world {A} (m : M world A) : M SecondBrainApp A :=
  zoom outside set_outside m.

Definition nl : string := String newline "".

Section handlers.

Context (env : Env).

(** The loop [for i, doc in enumerate(docs, i): answer += ...] *)
Fixpoint append_sources (i : nat) (docs : list Document) (answer : string)
    : string :=
  match docs with
  | [] => answer
  | doc :: rest =>
      let snippet := replace_char newline space (slice_to 150 (page_content doc)) in
      append_sources (S i) rest
        (answer +:+ nl +:+ pretty i +:+ ". " +:+ snippet +:+ "...")
  end.

Definition handle_query (query : string) : M SecondBrainApp string :=
  try_except
    (chain ← gets qa_chain;
     match chain with
     | None => mret "❌ RAG system is not initialized yet. Please wait..."
     | Some qa =>
         resp ← in_world (RetrievalQA_invoke env qa query);
         let answer := result resp in
         let answer :=
           if bool_decide (source_documents resp = []) then answer
           else append_sources 1 (take 2 (source_documents resp))
                  (answer +:+ nl +:+ nl +:+ "📚 Sources:" +:+ nl) in
         mret answer
     end)
    (λ e, mret ("❌ Error processing query: " +:+ e)).

End handlers.

End menubar_app.

(** ** web_ui.py *)

Module web_ui.

Record WebChatUI := {
  port : nat;
  is_running : bool;
  chat_history : list turn
}.

Definition set_chat_history (h : list turn) (self : WebChatUI) : WebChatUI :=
  {| port := port self; is_running := is_running self; chat_history := h |}.

(** [GET /api/history] *)
Definition get_history : M WebChatUI response :=
  h ← gets chat_history;
  mret (jsonify [("history", JArr (json_of_turn <$> h))] 200).

(** [POST /api/clear] *)
Definition clear_history : M WebChatUI response :=
  modify (set_chat_history []);;
  mret (jsonify [("success", JBool true)] 200).

Definition add_system_message (message : string) : M WebChatUI unit :=
  modify (λ self, set_chat_history
                    (chat_history self ++ [{| role := "system"; content := message |}])
                    self).

Definition set_is_running (b : bool) (self : WebChatUI) : WebChatUI :=
  {| port := port self; is_running := b; chat_history := chat_history self |}.

(** A computation on the UI object, run beside the state [St] of the query
    callback, and one on the callback's state. *)
Definition in_ui {St A} (m : M WebChatUI A) : M (WebChatUI * St) A :=
  zoom fst (λ ui s, (ui, s.2)) m.
Definition in_callback {St A} (m : M St A) : M (WebChatUI * St) A :=
  zoom snd (λ st s, (s.1, st)) m.

(** [POST /api/query].  [on_query_callback] is the attribute of that name,
    a function acting on a state [St] of its own. *)
Definition query {St} (on_query_callback : option (string → M St string))
    (data : gmap string string) : M (WebChatUI * St) response :=
  let user_query := default "" (data !! "query") in
  if bool_decide (user_query = "") then
    mret (jsonify [("error", JStr "No query provided")] 400)
  else
    in_ui (modify (λ self, set_chat_history
                              (chat_history self
                                 ++ [{| role := "user"; content := user_query |}])
                              self));;
    try_except
      (response ← match on_query_callback with
                  | Some callback => in_callback (callback user_query)
                  | None => mret "No query callback configured."
                  end;
       in_ui (modify (λ self, set_chat_history
                                 (chat_history self
                                    ++ [{| role := "assistant"; content := response |}])
                                 self));;
       mret (jsonify [("response", JStr response); ("success", JBool true)] 200))
      (λ e,
       let error_msg := "Error: " +:+ e in
       in_ui (modify (λ self, set_chat_history
                                 (chat_history self
                                    ++ [{| role := "system"; content := error_msg |}])
                                 self));;
       mret (jsonify [("response", JStr error_msg); ("success", JBool false)] 500)).

(** [POST /api/system-message] *)
Definition add_system_message_route (data : gmap string string)
    : M WebChatUI response :=
  let message := default "" (data !! "message") in
  (if bool_decide (message = "") then mret tt
   else modify (λ self, set_chat_history
                          (chat_history self
                             ++ [{| role := "system"; content := message |}])
                          self));;
  mret (jsonify [("success", JBool true)] 200).

(** What the UI object does outside itself. *)
Inductive effect :=
| ServerThreadStarted (port : nat)
| BrowserOpened (url : string).

#[global] Instance effect_eq_dec : EqDecision effect.
Proof. solve_decision. Defined.

Definition do_effect (e : effect) : M (WebChatUI * list effect) unit :=
  modify (λ s : WebChatUI * list effect, (s.1, s.2 ++ [e])).

Definition start_server : M (WebChatUI * list effect) unit :=
  running ← gets (λ s : WebChatUI * list effect, is_running s.1);
  if (running : bool) then mret tt
  else
    p ← gets (λ s : WebChatUI * list effect, port s.1);
    do_effect (ServerThreadStarted p);;
    modify (λ s : WebChatUI * list effect, (set_is_running true s.1, s.2)).

Definition open_browser : M (WebChatUI * list effect) unit :=
  running ← gets (λ s : WebChatUI * list effect, is_running s.1);
  (if negb running then start_server else mret tt);;
  p ← gets (λ s : WebChatUI * list effect, port s.1);
  let url := "http://127.0.0.1:" +:+ pretty p in
  do_effect (BrowserOpened url).

(** Calls made on the UI object by its owner. *)
Inductive ui_call := CallStartServer | CallOpenBrowser.

#[global] Instance ui_call_eq_dec : EqDecision ui_call.
Proof. solve_decision. Defined.

Definition do_call (c : ui_call) : M (WebChatUI * list effect) unit :=
  match c with
  | CallStartServer => start_server
  | CallOpenBrowser => open_browser
  end.

Fixpoint do_calls (cs : list ui_call) (s : WebChatUI * list effect)
    : WebChatUI * list effect :=
  match cs with
  | [] => s
  | c :: cs' => do_calls cs' (do_call c s).2
  end.

End web_ui.

(** ** menubar_app.py: the menu actions *)

Module menubar_menu.

(** What [rumps] puts on the screen. *)
Inductive shown :=
| notification (title subtitle message : string)
| alert (title message ok : string) (cancel : option string).

(** The application object behind the menu: the attributes [handle_query]
    reads ([core]), the chat UI with what it did outside itself, the
    [auto_store] setting, what was shown so far (oldest first) and whether
    [rumps.quit_application] was called. *)
Record MenuBar := {
  core : menubar_app.SecondBrainApp;
  web_ui : option web_ui.WebChatUI;
  ui_effects : list web_ui.effect;
  auto_store : bool;
  screen : list shown;
  quit_called : bool
}.

Definition set_core (c : menubar_app.SecondBrainApp) (m : MenuBar) : MenuBar :=
  {| core := c; web_ui := web_ui m; ui_effects := ui_effects m;
     auto_store := auto_store m; screen := screen m; quit_called := quit_called m |}.
Definition set_web_ui (u : option web_ui.WebChatUI) (m : MenuBar) : MenuBar :=
  {| core := core m; web_ui := u; ui_effects := ui_effects m;
     auto_store := auto_store m; screen := screen m; quit_called := quit_called m |}.
Definition set_ui_effects (l : list web_ui.effect) (m : MenuBar) : MenuBar :=
  {| core := core m; web_ui := web_ui m; ui_effects := l;
     auto_store := auto_store m; screen := screen m; quit_called := quit_called m |}.
Definition set_auto_store (b : bool) (m : MenuBar) : MenuBar :=
  {| core := core m; web_ui := web_ui m; ui_effects := ui_effects m;
     auto_store := b; screen := screen m; quit_called := quit_called m |}.
Definition set_screen (l : list shown) (m : MenuBar) : MenuBar :=
  {| core := core m; web_ui := web_ui m; ui_effects := ui_effects m;
     auto_store := auto_store m; screen := l; quit_called := quit_called m |}.
Definition set_quit_called (b : bool) (m : MenuBar) : MenuBar :=
  {| core := core m; web_ui := web_ui m; ui_effects := ui_effects m;
     auto_store := auto_store m; screen := screen m; quit_called := b |}.

Definition show (x : shown) : M MenuBar unit :=
  modify (λ m, set_screen (screen m ++ [x]) m).

(** A computation on the world of the application. *)
Definition in_world {A} (m : M world A) : M MenuBar A :=
  zoom (λ mb, menubar_app.outside (core mb))
       (λ w mb, set_core (menubar_app.set_outside w (core mb)) mb) m.

(** A method of the chat UI object [ui], run from the application. *)
Definition on_ui {A} (ui : web_ui.WebChatUI)
    (m : M (web_ui.WebChatUI * list web_ui.effect) A) : M MenuBar A :=
  λ mb, let '(r, (ui', effects)) := m (ui, ui_effects mb) in
        (r, set_ui_effects effects (set_web_ui (Some ui') mb)).

Definition not_ready_alert : shown :=
  alert "Not Ready" "Vector database is still initializing." "OK" None.

Section actions.

Context (env : Env).

(** [open_chat] *)
Definition open_chat : M MenuBar unit :=
  ui ← gets web_ui;
  match ui with
  | None =>
      show (alert "Not Ready" "System is still initializing. Please wait a moment."
              "OK" None)
  | Some ui => on_ui ui web_ui.open_browser
  end.

(** The body of the thread [capture_full_screen] starts. *)
Definition capture_and_store (db : VectorDatabase) : M MenuBar unit :=
  try_except
    (text ← capture_and_extract env None;
     if bool_decide (text = "") || (len (strip text) <? 10) then
       show (notification "Second Brain" "No Text Found"
               "Could not extract meaningful text from the screenshot.")
     else
       md ← in_world (new_dict {[ "source" := VStr "screenshot_full" ]});
       in_world (add_text env db text (Some md));;
       show (notification "Second Brain" "Text Captured! ✅"
               ("Stored " +:+ pretty (len text)
                  +:+ " characters in knowledge base."));;
       ui ← gets web_ui;
       match ui with
       | Some ui =>
           modify (set_web_ui
                     (Some (web_ui.add_system_message
                              ("Captured and stored " +:+ pretty (len text)
                                 +:+ " characters from screenshot") ui).2))
       | None => mret tt
       end)
    (λ e,
     show (notification "Second Brain" "Capture Failed" ("Error: " +:+ e))).

(** [capture_full_screen]; the thread it starts is run to its end. *)
Definition capture_full_screen : M MenuBar unit :=
  vdb ← gets (λ m, menubar_app.vector_db (core m));
  match vdb with
  | None => show not_ready_alert
  | Some db =>
      show (notification "Second Brain" "Capturing Screenshot"
              "Extracting text from screen...");;
      capture_and_store db
  end.

(** [capture_region] *)
Definition capture_region : M MenuBar unit :=
  show (alert "Capture Region"
          "Region selection coming soon! For now, use 'Capture Full Screen'."
          "OK" None).

(** [show_settings]; [response] is what [rumps.alert] returns, 1 for the
    [ok] button. *)
Definition show_settings (response : Z) : M MenuBar unit :=
  show (alert "Settings" "Auto-store captured text in database?" "Yes" (Some "No"));;
  if bool_decide (response = 1%Z) then
    modify (set_auto_store true);;
    show (notification "Settings Updated" "Auto-store enabled"
            "Captured text will be automatically stored.")
  else
    modify (set_auto_store false);;
    show (notification "Settings Updated" "Auto-store disabled"
            "You'll be prompted before storing text.").

(** [clear_database] *)
Definition clear_database (response : Z) : M MenuBar unit :=
  vdb ← gets (λ m, menubar_app.vector_db (core m));
  match vdb with
  | None => show not_ready_alert
  | Some db =>
      show (alert "Clear Database"
              "Are you sure you want to delete all stored knowledge? This cannot be undone!"
              "Delete All" (Some "Cancel"));;
      if bool_decide (response = 1%Z) then
        try_except
          (in_world (delete_collection db);;
           in_world (_create_collection_if_not_exists db);;
           show (notification "Second Brain" "Database Cleared"
                   "All knowledge has been removed."))
          (λ e,
           show (alert "Error" ("Could not clear database: " +:+ e) "OK" None))
      else mret tt
  end.

(** [quit_app] *)
Definition quit_app (response : Z) : M MenuBar unit :=
  show (alert "Quit Second Brain" "Are you sure you want to quit?" "Quit"
          (Some "Cancel"));;
  if bool_decide (response = 1%Z) then modify (set_quit_called true)
  else mret tt.

End actions.

End menubar_menu.

(** ** main_rag.py *)

Section main_rag.

Context (env : Env).

(** The script, on the line [typed] at its prompt.  It returns what it
    prints last: the answer and one line per source document. *)
Definition main_rag (typed : string) : M world (string * list string) :=
  db ← VectorDatabase_init env "book_knowledge";
  construct env CompOllamaLLM;;
  construct env CompHuggingFaceEmbeddings;;
  text ← capture_and_extract env None;
  md ← new_dict {[ "source" := VStr "screenshot" ]};
  add_text env db text (Some md);;
  construct env CompQdrantStore;;
  construct env CompRetrievalQA;;
  let qa_chain := book_knowledge_chain in
  let query := typed in
  response ← RetrievalQA_invoke env qa_chain query;
  mret (result response,
        imap (λ i doc, String newline "" +:+ pretty (S i) +:+ ". "
                         +:+ slice_to 200 (page_content doc) +:+ "...")
          (source_documents response)).

End main_rag.

(** ** Vocabulary of the statements *)

(** The UUID source never yields the same identifier twice. *)
Definition uuids_distinct (env : Env) : Prop :=
  ∀ i j, uuid4 env i = uuid4 env j → i = j.

(** Every id stored in the collection was drawn from the UUID source. *)
Definition ids_were_drawn (env : Env) (name : string) (w : world) : Prop :=
  ∀ c i, qdrant w !! name = Some c → is_Some (points c !! i) →
    ∃ k, k < uuid_drawn w ∧ i = uuid4 env k.



(** The three values [initialization_status] takes. *)
Definition initializing : api_backend.init_status :=
  {| api_backend.ready := false; api_backend.message := "Initializing..." |}.
Definition all_ready : api_backend.init_status :=
  {| api_backend.ready := true; api_backend.message := "All systems ready! 🎉" |}.
Definition init_error (e : exn) : api_backend.init_status :=
  {| api_backend.ready := false; api_backend.message := "Error: " +:+ e |}.

(** A handler that leaves the initialization globals alone. *)
Definition quiet {A} (m : M api_backend.backend A) : Prop :=
  ∀ s, api_backend.initialization_status (m s).2 = api_backend.initialization_status s
       ∧ api_backend.qa_chain (m s).2 = api_backend.qa_chain s.

(** What holds of the initialization globals in every state of a process. *)
Definition init_inv (p : api_backend.process) : Prop :=
  (api_backend.init_thread_pending p = true
   ∧ api_backend.initialization_status (api_backend.globals p) = initializing
   ∧ api_backend.qa_chain (api_backend.globals p) = None)
  ∨ (api_backend.init_thread_pending p = false
     ∧ api_backend.initialization_status (api_backend.globals p) = all_ready
     ∧ api_backend.qa_chain (api_backend.globals p) = Some book_knowledge_chain)
  ∨ (api_backend.init_thread_pending p = false
     ∧ (∃ e, api_backend.initialization_status (api_backend.globals p) = init_error e)
     ∧ api_backend.qa_chain (api_backend.globals p) = None).

(** [snippet] is [text[:n]]: it holds the first [n] characters of [text], or
    all of them when there are fewer. *)
Definition first_chars (n : nat) (text snippet : string) : Prop :=
  chars snippet = take n (chars text).

(** [core] is what [text.strip()] holds: the characters of [text] without
    the whitespace in front and at the end. *)
Definition stripped (text : string) (core : list string) : Prop :=
  ∃ lead trail,
    chars text = lead ++ core ++ trail
    ∧ Forall (λ ch, isspace ch = true) lead
    ∧ Forall (λ ch, isspace ch = true) trail
    ∧ (∀ ch, head core = Some ch → isspace ch = false)
    ∧ (∀ ch, last core = Some ch → isspace ch = false).

(** A list of characters as [chars] gives it: every element is a byte with
    continuation bytes after it, and all but the first begin with a byte
    that is no continuation byte. *)
Fixpoint all_continuation (s : string) : bool :=
  match s with
  | "" => true
  | String c r => continuation c && all_continuation r
  end.

Definition is_chunk (ch : string) : Prop :=
  match ch with
  | String _ r => all_continuation r = true
  | "" => False
  end.

Definition is_char (ch : string) : Prop :=
  match ch with
  | String c r => continuation c = false ∧ all_continuation r = true
  | "" => False
  end.

Definition chunked (cs : list string) : Prop :=
  Forall is_chunk cs ∧ Forall is_char (tail cs).

(** The source entry [query] builds for a retrieved document. *)
Definition source_of (doc : Document) : source :=
  {| src_content := slice_to 150 (page_content doc);
     src_metadata := metadata doc |}.

(** The line [handle_query] adds as the [i]-th, for the snippet of a
    retrieved document. *)
Definition source_line (i : nat) (snippet : string) : string :=
  menubar_app.nl +:+ pretty i +:+ ". "
    +:+ replace_char newline space snippet +:+ "...".

(** The text [handle_query] puts after the answer, for the snippets of the
    documents it cites. *)
Definition sources_text (snippets : list string) : string :=
  match snippets with
  | [] => ""
  | _ => menubar_app.nl +:+ menubar_app.nl +:+ "📚 Sources:" +:+ menubar_app.nl
         +:+ join (imap (λ i, source_line (S i)) snippets)
  end.

(** What a source entry must hold for a retrieved document: its metadata and
    the first 150 characters of its text. *)
Definition cites (src : source) (doc : Document) : Prop :=
  src_metadata src = metadata doc
  ∧ first_chars 150 (page_content doc) (src_content src).

(** The payload [add_text] builds from the caller's metadata [md], when the
    clock reads [now]. *)
Definition add_text_payload (text now : string) (md : gmap string pyval)
    : gmap string pyval :=
  <["text" := VStr text]>
    (if bool_decide (is_Some (md !! "timestamp")) then md
     else <["timestamp" := VStr now]> md).

(** ** Vocabulary of the further statements *)

(** The same for a computation on the world. *)
Definition wgrows {A} (m : M world A) : Prop :=
  ∀ w n, is_Some (qdrant w !! n) → is_Some (qdrant (m w).2 !! n).


(** The address the chat UI is served at. *)
Definition ui_url (ui : web_ui.WebChatUI) : string :=
  "http://127.0.0.1:" +:+ pretty (web_ui.port ui).

Section api_vocabulary.

Import api_backend.

(** A handler that leaves the component [f] of the module state alone. *)
Definition keeps {A B} (f : backend → B) (m : M backend A) : Prop :=
  ∀ s, f (m s).2 = f s.

(** The database object [initialize_components] builds. *)
Definition built_db (env : Env) : VectorDatabase :=
  {| collection_name := "book_knowledge";
     embedding_dim := sentence_embedding_dimension env |}.

(** What holds of the components in every state of a process. *)
Definition components_inv (env : Env) (p : process) : Prop :=
  (init_thread_pending p = true → vector_db (globals p) = None)
  ∧ (∀ db, vector_db (globals p) = Some db →
       db = built_db env
       ∧ is_Some (qdrant (outside (globals p)) !! "book_knowledge"))
  ∧ (ready (initialization_status (globals p)) = true →
       vector_db (globals p) = Some (built_db env)
       ∧ llm (globals p) = Some "llama3.1:8b"
       ∧ embeddings (globals p) = Some "all-MiniLM-L6-v2"
       ∧ qa_chain (globals p) = Some book_knowledge_chain).

(** The components the first [k] statements of the thread have assigned. *)
Definition built_upto (env : Env) (k : nat) (s : backend) : Prop :=
  (1 ≤ k → vector_db s = Some (built_db env))
  ∧ (2 ≤ k → llm s = Some "llama3.1:8b")
  ∧ (3 ≤ k → embeddings s = Some "all-MiniLM-L6-v2")
  ∧ (4 ≤ k → qa_chain s = Some book_knowledge_chain).

(** What holds whatever is served between the statements of the thread:
    the thread is [k] statements into its [try] block, or it has raised, or
    it has written the ready status. *)
Definition thread_inv (env : Env) (p : threaded) : Prop :=
  (∃ k, k ≤ 4 ∧ thread p = drop k (assignments env)
        ∧ ready (initialization_status (shared p)) = false
        ∧ built_upto env k (shared p))
  ∨ (ready (initialization_status (shared p)) = false
     ∧ (thread p = [] ∨ ∃ e, thread p = [except_clause e]))
  ∨ (thread p = [] ∧ built_upto env 4 (shared p)).

(** A handler that removes no collection from the store. *)
Definition grows {A} (m : M backend A) : Prop :=
  ∀ s n, is_Some (qdrant (outside s) !! n) →
         is_Some (qdrant (outside (m s).2) !! n).

End api_vocabulary.

Section menu_vocabulary.

Import menubar_menu.

(** The world of a menu-bar application. *)
Definition world_of (mb : MenuBar) : world := menubar_app.outside (core mb).

(** The point a full-screen capture of [text] stores from world [w]. *)
Definition captured_point (env : Env) (w : world) (text : string) : PointStruct :=
  {| id := uuid4 env (uuid_drawn w);
     vector := model_encode env text;
     payload := add_text_payload text (now_isoformat env (clock_reads w))
                  {[ "source" := VStr "screenshot_full" ]} |}.

Definition capturing : shown :=
  notification "Second Brain" "Capturing Screenshot" "Extracting text from screen...".

Definition confirm_clear : shown :=
  alert "Clear Database"
    "Are you sure you want to delete all stored knowledge? This cannot be undone!"
    "Delete All" (Some "Cancel").

End menu_vocabulary.

(** ** A concrete environment

    Used to run the definitions on explicit inputs. *)

Definition demo_env : Env := {|
  model_encode := λ s, [Float64 (Z.of_nat (String.length s))];
  sentence_embedding_dimension := 1;
  embed_query := λ s, [Float64 (Z.of_nat (String.length s))];
  uuid4 := λ n, pretty n;
  now_isoformat := λ n, "T" +:+ pretty n;
  similarity := λ q v,
    match q, v with
    | [Float64 a], [Float64 b] => (- Z.abs (a - b))%Z
    | _, _ => 0%Z
    end;
  llm_generate := λ prompt, Returns ("Answer: " +:+ prompt);
  stuff_prompt := λ docs question,
    foldr (λ doc acc, page_content doc +:+ " | " +:+ acc) question docs;
  screenshot := λ _, Returns (Raster 0 0 []);
  image_to_string := λ _, Returns "The mitochondria is the powerhouse of the cell.";
  load_fault := λ _, None
|}.

Definition empty_world : world :=
  {| qdrant := ∅; heap := ∅; uuid_drawn := 0; clock_reads := 0; calls := [] |}.

Definition demo_db : VectorDatabase :=
  {| collection_name := "book_knowledge"; embedding_dim := 1 |}.

(** The world after [VectorDatabase("book_knowledge")] on an empty service. *)
Definition demo_world : world :=
  (VectorDatabase_init demo_env "book_knowledge" empty_world).2.

(** The same environment with another OCR result. *)
Definition with_ocr (text : outcome string) (env : Env) : Env :=
  {| model_encode := model_encode env;
     sentence_embedding_dimension := sentence_embedding_dimension env;
     embed_query := embed_query env;
     uuid4 := uuid4 env;
     now_isoformat := now_isoformat env;
     similarity := similarity env;
     llm_generate := llm_generate env;
     stuff_prompt := stuff_prompt env;
     screenshot := screenshot env;
     image_to_string := λ _, text;
     load_fault := load_fault env |}.

(** The same environment with another language model. *)
Definition with_llm (f : string → outcome string) (env : Env) : Env :=
  {| model_encode := model_encode env;
     sentence_embedding_dimension := sentence_embedding_dimension env;
     embed_query := embed_query env;
     uuid4 := uuid4 env;
     now_isoformat := now_isoformat env;
     similarity := similarity env;
     llm_generate := f;
     stuff_prompt := stuff_prompt env;
     screenshot := screenshot env;
     image_to_string := image_to_string env;
     load_fault := load_fault env |}.

(** The API module after its initialization thread ran on an empty service. *)
Definition demo_ready : api_backend.backend :=
  api_backend.globals
    (api_backend.after demo_env [api_backend.InitThreadRuns]
       (api_backend.launched empty_world)).

(** The events up to and including one screen capture. *)
Definition demo_events : list api_backend.event :=
  [api_backend.InitThreadRuns;
   api_backend.Request "POST" "/api/capture/full" (form ∅)].

(** A menu-bar application whose chain is built, on a store holding one
    capture. *)
Definition demo_app : menubar_app.SecondBrainApp :=
  {| menubar_app.vector_db := Some demo_db;
     menubar_app.qa_chain := Some book_knowledge_chain;
     menubar_app.outside :=
       api_backend.outside
         (api_backend.globals
            (api_backend.after demo_env demo_events
               (api_backend.launched empty_world))) |}.

(** The same application after the database was cleared and the screen
    captured again: the store holds the same text under the next id. *)
Definition demo_app_again : menubar_app.SecondBrainApp :=
  {| menubar_app.vector_db := Some demo_db;
     menubar_app.qa_chain := Some book_knowledge_chain;
     menubar_app.outside :=
       api_backend.outside
         (api_backend.globals
            (api_backend.after demo_env
               (demo_events
                  ++ [api_backend.Request "DELETE" "/api/database" (form ∅);
                      api_backend.Request "POST" "/api/capture/full" (form ∅)])
               (api_backend.launched empty_world))) |}.

(** [n] dashes, of three bytes each. *)
Definition dashes (n : nat) : string := join (replicate n "—").

(** A page of two lines, 167 characters in all. *)
Definition demo_page : string :=
  "Notes — “cells”" +:+ String newline "" +:+ dashes 151.

Definition demo_page_env : Env := with_ocr (Returns demo_page) demo_env.

(** A menu-bar application whose chain is built, on a store holding
    [demo_page]. *)
Definition demo_app_page : menubar_app.SecondBrainApp :=
  {| menubar_app.vector_db := Some demo_db;
     menubar_app.qa_chain := Some book_knowledge_chain;
     menubar_app.outside :=
       api_backend.outside
         (api_backend.globals
            (api_backend.after demo_page_env demo_events
               (api_backend.launched empty_world))) |}.

(** The payload stored under [pid] in collection [name]. *)
Definition stored_payload (w : world) (name pid : string)
    : option (gmap string pyval) :=
  match qdrant w !! name with
  | Some c => snd <$> points c !! pid
  | None => None
  end.

(** The same environment with another screenshot result. *)
Definition with_screenshot (shot : outcome Image) (env : Env) : Env :=
  {| model_encode := model_encode env;
     sentence_embedding_dimension := sentence_embedding_dimension env;
     embed_query := embed_query env;
     uuid4 := uuid4 env;
     now_isoformat := now_isoformat env;
     similarity := similarity env;
     llm_generate := llm_generate env;
     stuff_prompt := stuff_prompt env;
     screenshot := λ _, shot;
     image_to_string := image_to_string env;
     load_fault := load_fault env |}.

(** The same environment with other faults at construction. *)
Definition with_faults (faults : component → option exn) (env : Env) : Env :=
  {| model_encode := model_encode env;
     sentence_embedding_dimension := sentence_embedding_dimension env;
     embed_query := embed_query env;
     uuid4 := uuid4 env;
     now_isoformat := now_isoformat env;
     similarity := similarity env;
     llm_generate := llm_generate env;
     stuff_prompt := stuff_prompt env;
     screenshot := screenshot env;
     image_to_string := image_to_string env;
     load_fault := faults |}.

(** Neither the embedding model nor the Qdrant service is there. *)
Definition no_model_no_qdrant (c : component) : option exn :=
  match c with
  | CompSentenceTransformer => Some "model not found"
  | CompQdrantClient => Some "connection refused"
  | _ => None
  end.

(** The Qdrant service cannot be reached. *)
Definition no_qdrant (c : component) : option exn :=
  match c with CompQdrantClient => Some "connection refused" | _ => None end.

(** The embedding model cannot be loaded. *)
Definition no_model (c : component) : option exn :=
  match c with CompSentenceTransformer => Some "model not found" | _ => None end.

(** Ollama cannot be reached. *)
Definition no_llm (c : component) : option exn :=
  match c with CompOllamaLLM => Some "ollama is not running" | _ => None end.

(** [demo_world] holding three texts, added as one batch. *)
Definition demo_store : world :=
  (add_texts_batch demo_env demo_db ["a"; "bbb"; "cc"] None demo_world).2.

(** [demo_world] with two dictionaries of the caller, at 0 and 1. *)
Definition demo_dicts : world :=
  ((new_dict {[ "source" := VStr "notes" ]};;
   new_dict {[ "source" := VStr "book" ]}) demo_world).2.

#[local] Set Warnings "-abstract-large-number".

(** A chat UI that is not served yet. *)
Definition demo_ui : web_ui.WebChatUI :=
  {| web_ui.port := 5555; web_ui.is_running := false; web_ui.chat_history := [] |}.

(** The menu-bar application over the database [vdb] and the world [w]. *)
Definition menu_over (vdb : option VectorDatabase) (w : world)
    : menubar_menu.MenuBar :=
  {| menubar_menu.core :=
       {| menubar_app.vector_db := vdb;
          menubar_app.qa_chain := const book_knowledge_chain <$> vdb;
          menubar_app.outside := w |};
     menubar_menu.web_ui := Some demo_ui;
     menubar_menu.ui_effects := [];
     menubar_menu.auto_store := true;
     menubar_menu.screen := [];
     menubar_menu.quit_called := false |}.

Definition demo_menu : menubar_menu.MenuBar := menu_over (Some demo_db) demo_world.

(** * Properties *)

(** Unfolds the monad and the world accessors, nothing else. *)
Ltac mred :=
  repeat (progress (
    unfold mbind, mret, M_bind, M_ret, raise, call_out, get, gets, modify,
      try_except, zoom;
    cbn [fst snd qdrant heap uuid_drawn clock_reads calls
         set_qdrant set_heap set_uuid_drawn set_clock_reads log_call])).

(** ** Strings *)

Lemma append_assoc (a b c : string) : (a +:+ b) +:+ c = a +:+ (b +:+ c).
Proof.
  induction a as [|x a IH]; [done|].
  change (String x ((a +:+ b) +:+ c) = String x (a +:+ (b +:+ c))). by rewrite IH.
Qed.

Lemma append_nil_r (a : string) : a +:+ "" = a.
Proof.
  induction a as [|x a IH]; [done|].
  change (String x (a +:+ "") = String x a). by rewrite IH.
Qed.

Lemma join_app (a b : list string) : join (a ++ b) = join a +:+ join b.
Proof.
  induction a as [|ch a IH]; [done|].
  cbn [app join foldr]. fold (join (a ++ b)) (join a). by rewrite IH, append_assoc.
Qed.

Lemma chars_unfold c r :
  chars (String c r)
  = match chars r with
    | ch :: rest =>
        if begins_inside r then String c ch :: rest else String c "" :: ch :: rest
    | [] => [String c ""]
    end.
Proof. reflexivity. Qed.

Lemma chars_head c r : ∃ x rest, chars (String c r) = String c x :: rest.
Proof.
  rewrite chars_unfold. destruct (chars r); [|destruct (begins_inside r)]; eauto.
Qed.

Lemma chars_nil s : chars s = [] → s = "".
Proof.
  destruct s as [|c r]; [done|]. destruct (chars_head c r) as (x & rest & ->). done.
Qed.

(** No byte is lost or added by splitting a string into characters. *)
Lemma join_chars s : join (chars s) = s.
Proof.
  induction s as [|c r IH]; [done|]. rewrite chars_unfold.
  destruct (chars r) as [|ch rest] eqn:E.
  - apply chars_nil in E as ->. reflexivity.
  - destruct (begins_inside r); cbn [join foldr] in *; fold (join rest) in *.
    + change (String c (ch +:+ join rest) = String c r). by rewrite IH.
    + change (String c (ch +:+ join rest) = String c r). by rewrite IH.
Qed.

Lemma chars_chunk c r0 t :
  all_continuation r0 = true → begins_inside t = false →
  chars (String c (r0 +:+ t)) = String c r0 :: chars t.
Proof.
  revert c. induction r0 as [|d r0 IH]; intros c Hr0 Ht.
  - change ("" +:+ t) with t. rewrite chars_unfold.
    destruct (chars t) as [|ch rest]; [done|]. by rewrite Ht.
  - cbn [all_continuation] in Hr0. apply andb_true_iff in Hr0 as [Hd Hr0].
    change (String d r0 +:+ t) with (String d (r0 +:+ t)).
    rewrite chars_unfold, IH by done. cbn [begins_inside]. by rewrite Hd.
Qed.

Lemma is_char_chunk ch : is_char ch → is_chunk ch.
Proof. destruct ch; [done|]. by intros [_ ?]. Qed.

Lemma chunked_tail ch cs : chunked (ch :: cs) → chunked cs.
Proof.
  intros [Hk Hc]. apply Forall_cons in Hk as [_ Hk]. split; [done|].
  cbn [tail] in Hc. destruct cs; [done|]. by apply Forall_cons in Hc as [_ ?].
Qed.

(** Splitting the concatenation of characters gives the characters back. *)
Lemma chars_join cs : chunked cs → chars (join cs) = cs.
Proof.
  induction cs as [|ch cs IH]; intros Hcs; [done|].
  pose proof (chunked_tail _ _ Hcs) as Htl. destruct Hcs as [Hk Hc].
  apply Forall_cons in Hk as [Hch _]. destruct ch as [|c r0]; [done|].
  cbn [join foldr]. fold (join cs).
  change (String c r0 +:+ join cs) with (String c (r0 +:+ join cs)).
  rewrite chars_chunk, IH; try done.
  cbn [tail] in Hc. destruct cs as [|ch' cs']; [done|].
  apply Forall_cons in Hc as [Hch' _]. destruct ch' as [|c' r']; [done|].
  by destruct Hch'.
Qed.

Lemma chars_chunked s : chunked (chars s).
Proof.
  induction s as [|c r IH]; [by split|]. rewrite chars_unfold.
  destruct (chars r) as [|ch rest] eqn:E; [by split; repeat constructor|].
  destruct r as [|c' r']; [done|].
  destruct (chars_head c' r') as (x & rest' & E'). rewrite E' in E.
  injection E as <- <-. destruct IH as [Hk Hc].
  apply Forall_cons in Hk as [Hx Hk]. cbn [tail is_chunk] in *.
  cbn [begins_inside]. destruct (continuation c') eqn:Hc'.
  - split; [|done]. constructor; [|done]. cbn. by rewrite Hc', Hx.
  - split; [by repeat constructor|]. cbn [tail]. by constructor.
Qed.

Lemma chunked_take n cs : chunked cs → chunked (take n cs).
Proof.
  intros [Hk Hc]. split; [by apply Forall_take|].
  destruct n as [|n], cs as [|ch cs]; try done. cbn [take tail] in *.
  by apply Forall_take.
Qed.

Lemma chunked_app cs1 cs2 : chunked (cs1 ++ cs2) → chunked cs1 ∧ chunked cs2.
Proof.
  induction cs1 as [|ch cs1 IH]; intros Hcs; [by split|].
  destruct (IH (chunked_tail _ _ Hcs)) as [H1 H2]. split; [|done].
  destruct Hcs as [Hk Hc]. cbn [app tail] in *.
  apply Forall_cons in Hk as [Hch Hk]. apply Forall_app in Hk as [Hk _].
  apply Forall_app in Hc as [Hc _]. split; [by constructor|done].
Qed.

(** [s[:n]] holds the first [n] characters of [s]. *)
Lemma slice_to_first_chars n s : first_chars n s (slice_to n s).
Proof. apply chars_join, chunked_take, chars_chunked. Qed.

Lemma first_chars_slice_to n s snippet :
  first_chars n s snippet → snippet = slice_to n s.
Proof. unfold first_chars, slice_to. intros <-. by rewrite join_chars. Qed.

Lemma slice_to_len n s : len (slice_to n s) = n `min` len s.
Proof. unfold len. by rewrite slice_to_first_chars, length_take. Qed.

Lemma slice_to_prefix n s : ∃ rest, s = slice_to n s +:+ rest.
Proof.
  exists (join (drop n (chars s))). unfold slice_to.
  by rewrite <- join_app, take_drop, join_chars.
Qed.

Lemma replace_char_length a b s :
  String.length (replace_char a b s) = String.length s.
Proof. induction s as [|c r IH]; cbn; by rewrite ?IH. Qed.

Lemma lstrip_chars_suffix cs :
  ∃ l, cs = l ++ lstrip_chars cs ∧ Forall (λ ch, isspace ch = true) l.
Proof.
  induction cs as [|ch cs (l & Hl & Hsp)]; [by exists []|].
  cbn [lstrip_chars]. destruct (isspace ch) eqn:Hch.
  - exists (ch :: l). split; [by rewrite Hl at 1|by constructor].
  - by exists [].
Qed.

Lemma lstrip_chars_head cs ch :
  head (lstrip_chars cs) = Some ch → isspace ch = false.
Proof.
  induction cs as [|ch' cs IH]; [done|]. cbn [lstrip_chars].
  destruct (isspace ch') eqn:Hch; [done|]. by intros [= <-].
Qed.

Lemma lstrip_chars_spaces l cs :
  Forall (λ ch, isspace ch = true) l → lstrip_chars (l ++ cs) = lstrip_chars cs.
Proof.
  induction 1 as [|ch l Hch _ IH]; [done|]. cbn [app lstrip_chars]. by rewrite Hch.
Qed.

Lemma lstrip_chars_solid cs :
  (∀ ch, head cs = Some ch → isspace ch = false) → lstrip_chars cs = cs.
Proof. destruct cs as [|ch cs]; [done|]. intros H. cbn. by rewrite (H ch). Qed.

Lemma strip_chars_middle cs :
  ∃ l r, cs = l ++ strip_chars cs ++ r
    ∧ Forall (λ ch, isspace ch = true) l ∧ Forall (λ ch, isspace ch = true) r.
Proof.
  destruct (lstrip_chars_suffix cs) as (l & Hl & Hsl).
  destruct (lstrip_chars_suffix (reverse (lstrip_chars cs))) as (r & Hr & Hsr).
  exists l, (reverse r). split; [|split; [done|by apply Forall_reverse]].
  rewrite Hl at 1. f_equal. unfold strip_chars.
  rewrite <- reverse_app, <- Hr. by rewrite reverse_involutive.
Qed.

(** [strip] works on whole characters. *)
Lemma chars_strip s : chars (strip s) = strip_chars (chars s).
Proof.
  apply chars_join. destruct (strip_chars_middle (chars s)) as (l & r & Hs & _).
  pose proof (chars_chunked s) as Hc. rewrite Hs in Hc.
  apply chunked_app in Hc as [_ Hc]. by apply chunked_app in Hc as [Hc _].
Qed.

(** What [strip] leaves is what [stripped] describes, and nothing else is. *)
Lemma strip_stripped text : stripped text (chars (strip text)).
Proof.
  rewrite chars_strip. destruct (strip_chars_middle (chars text)) as (l & r & Hs & Hl & Hr).
  exists l, r. split; [done|]. split; [done|]. split; [done|]. split.
  - intros ch Hch. apply (lstrip_chars_head (chars text)).
    destruct (lstrip_chars_suffix (reverse (lstrip_chars (chars text)))) as (r' & Hr' & _).
    apply (f_equal reverse) in Hr'. rewrite reverse_involutive, reverse_app in Hr'.
    fold (strip_chars (chars text)) in Hr'. rewrite Hr'.
    destruct (strip_chars (chars text)); [done|]. exact Hch.
  - intros ch Hch. unfold strip_chars in Hch. rewrite last_reverse in Hch.
    by apply lstrip_chars_head in Hch.
Qed.

Lemma stripped_strip_chars text core :
  stripped text core → strip_chars (chars text) = core.
Proof.
  intros (lead & trail & -> & Hl & Ht & Hh & Hla). unfold strip_chars.
  rewrite lstrip_chars_spaces by done.
  destruct core as [|ch core].
  - cbn [app]. rewrite <- (app_nil_r trail), lstrip_chars_spaces by done. done.
  - rewrite (lstrip_chars_solid ((ch :: core) ++ trail)) by (intros ch'; apply Hh).
    rewrite reverse_app, lstrip_chars_spaces by (by apply Forall_reverse).
    rewrite lstrip_chars_solid; [apply reverse_involutive|].
    intros ch'. rewrite head_reverse. apply Hla.
Qed.

Lemma stripped_len text core : stripped text core → len (strip text) = length core.
Proof. intros H. unfold len. by rewrite chars_strip, (stripped_strip_chars text core). Qed.

Lemma stripped_nil core : stripped "" core → core = [].
Proof. intros H. by rewrite <- (stripped_strip_chars _ _ H). Qed.

Example len_counts_characters : len "“It’s”—ok" = 9 ∧ String.length "“It’s”—ok" = 17.
Proof. split; reflexivity. Qed.

Example strip_inner_space : strip "  a b  " = "a b".
Proof. vm_compute; reflexivity. Qed.

Example strip_newlines :
  strip (String newline (String space (String newline ""))) = "".
Proof. vm_compute; reflexivity. Qed.

Example strip_no_break_space : strip (utf8 160 +:+ "à la carte" +:+ utf8 8232) = "à la carte".
Proof. vm_compute; reflexivity. Qed.

Example stripped_quote :
  stripped "  “It’s”—ok  " ["“"; "I"; "t"; "’"; "s"; "”"; "—"; "o"; "k"].
Proof.
  exists [" "; " "], [" "; " "]. split; [vm_compute; reflexivity|].
  split; [repeat (constructor; [vm_compute; reflexivity|]); constructor|].
  split; [repeat (constructor; [vm_compute; reflexivity|]); constructor|].
  split; intros ch [= <-]; vm_compute; reflexivity.
Qed.

Example stripped_longer_quote :
  stripped " “It’s”—okay" ["“"; "I"; "t"; "’"; "s"; "”"; "—"; "o"; "k"; "a"; "y"].
Proof.
  exists [" "], []. split; [vm_compute; reflexivity|].
  split; [repeat (constructor; [vm_compute; reflexivity|]); constructor|].
  split; [constructor|].
  split; intros ch [= <-]; vm_compute; reflexivity.
Qed.

Example slice_to_dashes :
  slice_to 150 (dashes 80) = dashes 80
  ∧ String.length (dashes 80) = 240
  ∧ slice_to 150 (dashes 151) = dashes 150.
Proof. repeat split; vm_compute; reflexivity. Qed.

Example slice_to_short : slice_to 150 "abc" = "abc".
Proof. vm_compute; reflexivity. Qed.

Example slice_to_long : slice_to 3 "a—bcdef" = "a—b".
Proof. vm_compute; reflexivity. Qed.

Example replace_newline :
  replace_char newline space (String "a" (String newline "b")) = "a b".
Proof. reflexivity. Qed.

(** ** The collection life cycle *)

Section collection_props.

Context (env : Env).

Lemma create_if_absent self w :
  qdrant w !! collection_name self = None →
  _create_collection_if_not_exists self w =
    (Returns tt,
     set_qdrant (insert (collection_name self)
                   {| config := {| size_ := embedding_dim self; distance := COSINE |};
                      points := ∅ |})
       (log_call (CCreateCollection (collection_name self)
                    {| size_ := embedding_dim self; distance := COSINE |})
          (log_call CGetCollections w))).
Proof.
  intros Hno. unfold _create_collection_if_not_exists, client_get_collections.
  mred. case_decide as Hin.
  - unfold client_create_collection. mred. by rewrite Hno.
  - rewrite elem_of_elements, elem_of_dom, Hno in Hin. by destruct Hin.
Qed.

Lemma create_if_present self w c :
  qdrant w !! collection_name self = Some c →
  _create_collection_if_not_exists self w = (Returns tt, log_call CGetCollections w).
Proof.
  intros Hc. unfold _create_collection_if_not_exists, client_get_collections.
  mred. case_decide as Hin; [|done].
  exfalso. apply Hin. rewrite elem_of_elements, elem_of_dom, Hc. by eexists.
Qed.

Lemma delete_collection_run self w :
  delete_collection self w =
    (Returns tt,
     set_qdrant (delete (collection_name self))
       (log_call (CDeleteCollection (collection_name self)) w)).
Proof. reflexivity. Qed.

(** The constructor fixes the dimensionality to that of the embedding
    model. *)
Lemma VectorDatabase_init_dim name w self w' :
  VectorDatabase_init env name w = (Returns self, w') →
  collection_name self = name ∧
  embedding_dim self = sentence_embedding_dimension env ∧
  is_Some (qdrant w' !! name).
Proof.
  unfold VectorDatabase_init, construct.
  destruct (load_fault env CompSentenceTransformer); mred; [done|].
  destruct (load_fault env CompQdrantClient); mred; [done|].
  set (self0 := {| collection_name := name;
                   embedding_dim := sentence_embedding_dimension env |}).
  destruct (qdrant w !! name) as [c|] eqn:Hc.
  - rewrite (create_if_present self0 w c Hc). mred.
    intros [= <- <-]. cbn. by rewrite Hc.
  - rewrite (create_if_absent self0 w Hc). mred.
    intros [= <- <-]. cbn. rewrite lookup_insert_eq. eauto.
Qed.

End collection_props.

Section collection_claims.

Context (env : Env).

(** C6. From any store state, [delete_collection] followed by
    [_create_collection_if_not_exists] returns and leaves a collection with
    no points, configured with the object's embedding dimensionality and
    cosine distance; every other collection is as before.  On a state where
    the collection is present, [_create_collection_if_not_exists] returns
    after listing the collections only: it creates nothing and the store is
    unchanged.  [DELETE /api/database] runs the first sequence and answers
    'Database cleared'.  The object's dimensionality is the one its
    constructor read from the embedding model. *)
Theorem delete_then_ensure_collection (self : VectorDatabase) (w : world) :
  (∃ w',
      (delete_collection self;; _create_collection_if_not_exists self) w
        = (Returns tt, w')
      ∧ qdrant w' !! collection_name self
        = Some {| config := {| size_ := embedding_dim self; distance := COSINE |};
                  points := ∅ |}
      ∧ (get_stats self w').1
        = Returns {| points_count := 0; vectors_count := 0; status := "green" |}
      ∧ ∀ other, other ≠ collection_name self →
          qdrant w' !! other = qdrant w !! other)
  ∧ (∀ c, qdrant w !! collection_name self = Some c →
      ∃ w',
        _create_collection_if_not_exists self w = (Returns tt, w')
        ∧ qdrant w' = qdrant w
        ∧ calls w' = calls w ++ [CGetCollections])
  ∧ (∀ data s, api_backend.vector_db s = Some self →
      let served := api_backend.serve env "DELETE" "/api/database" data s in
      served.1 = jsonify [("success", JBool true);
                          ("message", JStr "Database cleared")] 200
      ∧ qdrant (api_backend.outside served.2) !! collection_name self
        = Some {| config := {| size_ := embedding_dim self; distance := COSINE |};
                  points := ∅ |})
  ∧ (∀ name w0 w1, VectorDatabase_init env name w0 = (Returns self, w1) →
      embedding_dim self = sentence_embedding_dimension env).
Proof.
  split; [|split; [|split]].
  - eexists. split.
    + unfold mbind, M_bind at 1. rewrite delete_collection_run.
      rewrite create_if_absent; [done|]. mred. apply lookup_delete_eq.
    + mred. rewrite lookup_insert_eq. split; [done|]. split.
      * unfold get_stats, client_get_collection. mred.
        rewrite lookup_insert_eq. cbn. by rewrite map_size_empty.
      * intros other Hne. by rewrite lookup_insert_ne, lookup_delete_ne.
  - intros c Hc. eexists. split; [by apply (create_if_present self w c)|].
    by mred.
  - intros data s Hdb served. subst served.
    change (api_backend.serve env "DELETE" "/api/database" data s)
      with (match api_backend.clear_database s with
            | (Returns r, s') => (r, s')
            | (Raises e, s') => (jsonify [] 500, s')
            end).
    unfold api_backend.clear_database, api_backend.in_world. mred. rewrite Hdb.
    rewrite delete_collection_run. mred. cbn [api_backend.outside api_backend.set_outside].
    rewrite create_if_absent by (mred; apply lookup_delete_eq).
    mred. cbn [api_backend.outside api_backend.set_outside].
    split; [done|]. mred. apply lookup_insert_eq.
  - intros name w0 w1 Hinit. by apply VectorDatabase_init_dim in Hinit as (_ & ? & _).
Qed.

(** C8. [DELETE /api/history] answers 200 with [{success: true}] from every
    state and leaves an empty history, touching nothing else; a second clear
    gives the same response and the same state.  The chat UI's own
    [clear_history] behaves the same on its history. *)
Theorem clear_history_idempotent (data : request_json)
    (s : api_backend.backend) (ui : web_ui.WebChatUI) :
  let cleared := api_backend.serve env "DELETE" "/api/history" data s in
  cleared = (jsonify [("success", JBool true)] 200,
             api_backend.set_chat_history [] s)
  ∧ api_backend.chat_history cleared.2 = []
  ∧ api_backend.serve env "DELETE" "/api/history" data cleared.2 = cleared
  ∧ web_ui.clear_history ui
    = (Returns (jsonify [("success", JBool true)] 200),
       web_ui.set_chat_history [] ui)
  ∧ web_ui.chat_history (web_ui.clear_history ui).2 = []
  ∧ web_ui.clear_history (web_ui.clear_history ui).2 = web_ui.clear_history ui.
Proof. done. Qed.

End collection_claims.

Lemma delete_then_ensure_collection_witness :
  qdrant demo_world !! "book_knowledge"
    = Some {| config := {| size_ := 1; distance := COSINE |}; points := ∅ |}
  ∧ (∃ w',
      _create_collection_if_not_exists demo_db demo_world = (Returns tt, w')
      ∧ qdrant w' = qdrant demo_world
      ∧ calls w' = calls demo_world ++ [CGetCollections])
  ∧ (api_backend.serve demo_env "DELETE" "/api/database" (form ∅) demo_ready).1
    = jsonify [("success", JBool true); ("message", JStr "Database cleared")] 200
  ∧ embedding_dim demo_db = sentence_embedding_dimension demo_env.
Proof.
  assert (qdrant demo_world !! "book_knowledge"
    = Some {| config := {| size_ := 1; distance := COSINE |}; points := ∅ |})
    as Hc by (vm_compute; reflexivity).
  destruct (delete_then_ensure_collection demo_env demo_db demo_world)
    as (_ & Hpresent & Hclear & Hdim).
  split; [exact Hc|]. split; [exact (Hpresent _ Hc)|]. split.
  - apply (Hclear (form ∅) demo_ready). vm_compute; reflexivity.
  - apply (Hdim "book_knowledge" empty_world demo_world). vm_compute; reflexivity.
Defined.

(** ** Storing texts *)

Section store_claims.

Context (env : Env).

Lemma dict_at_insert l d w : dict_at l (set_heap (insert l d) w) = d.
Proof. unfold dict_at. cbn. by rewrite lookup_insert_eq. Qed.

Lemma add_text_run self text metadata w c :
  qdrant w !! collection_name self = Some c →
  let md := match metadata with Some d => dict_at d w | None => ∅ end in
  let payload := add_text_payload text (now_isoformat env (clock_reads w)) md in
  let pt := {| id := uuid4 env (uuid_drawn w); vector := model_encode env text;
               payload := payload |} in
  ∃ w',
    add_text env self text metadata w = (Returns (id pt), w')
    ∧ qdrant w' = <[collection_name self := store_points [pt] c]> (qdrant w)
    ∧ uuid_drawn w' = S (uuid_drawn w)
    ∧ calls w' = calls w ++ [CUpsert (collection_name self) [pt]].
Proof.
  intros Hc md payload pt. subst pt payload md. unfold add_text_payload.
  unfold add_text, uuid4_str. mred.
  destruct metadata as [d|]; unfold new_dict, dict_contains, dict_set, dict_snapshot,
    datetime_now_isoformat, client_upsert, dict_at; mred.
  - destruct (bool_decide (is_Some (default ∅ (heap w !! d) !! "timestamp"))); cbn [negb]; mred;
      rewrite Hc; mred; rewrite ?lookup_insert_eq; cbn [default from_option Datatypes.id];
      (eexists; split; [reflexivity|]); mred; rewrite ?insert_insert_eq; done.
  - rewrite !lookup_insert_eq. cbn [default from_option Datatypes.id]. rewrite lookup_empty.
    rewrite bool_decide_eq_false_2 by (by intros [??]). cbn [negb]. mred.
    rewrite !lookup_insert_eq, Hc. cbn [default from_option Datatypes.id]. mred.
    eexists; split; [reflexivity|]. done.
Qed.

Lemma batch_points_run items pts w :
  ∃ new w',
    batch_points env items pts w = (Returns (pts ++ new), w')
    ∧ id <$> new = uuid4 env <$> seq (uuid_drawn w) (length items)
    ∧ qdrant w' = qdrant w
    ∧ uuid_drawn w' = uuid_drawn w + length items
    ∧ clock_reads w' = clock_reads w + length items
    ∧ calls w' = calls w.
Proof.
  revert pts w. induction items as [|[text [embedding md]] rest IH]; intros pts w.
  - exists [], w. cbn. rewrite app_nil_r. repeat split; lia.
  - cbn [batch_points]. unfold uuid4_str, datetime_now_isoformat, dict_get, dict_set,
      dict_snapshot. mred.
    match goal with |- context [batch_points env rest ?p ?w1] =>
      destruct (IH p w1) as (new & w' & Hrun & Hids & Hq & Hu & Hc & Hl) end.
    rewrite Hrun. eexists (_ :: new), w'. rewrite <- app_assoc. split; [done|].
    revert Hids Hq Hu Hc Hl. mred. intros Hids Hq Hu Hc Hl.
    cbn [length seq fmap list_fmap id]. rewrite Hids. repeat split; try done; lia.
Qed.

Lemma store_points_size pts c :
  NoDup (id <$> pts) →
  (∀ p, p ∈ pts → points c !! id p = None) →
  size (points (store_points pts c)) = size (points c) + length pts.
Proof.
  unfold store_points. cbn [points]. generalize (points c). clear c.
  induction pts as [|p pts IH]; intros m Hnd Hfresh; cbn [foldl length].
  - lia.
  - apply NoDup_cons in Hnd as [Hp Hnd].
    rewrite IH; [|done|].
    + rewrite map_size_insert_None; [lia|]. apply Hfresh. left.
    + intros q Hq. rewrite lookup_insert_ne.
      * apply Hfresh. by right.
      * intros Heq. apply Hp. rewrite Heq. by apply list_elem_of_fmap_2.
Qed.

Lemma add_texts_batch_run self texts metadatas w c :
  qdrant w !! collection_name self = Some c →
  (∀ ms, metadatas = Some ms → length ms = length texts) →
  ∃ pts w',
    add_texts_batch env self texts metadatas w = (Returns (id <$> pts), w')
    ∧ id <$> pts = uuid4 env <$> seq (uuid_drawn w) (length texts)
    ∧ qdrant w' = <[collection_name self := store_points pts c]> (qdrant w)
    ∧ uuid_drawn w' = uuid_drawn w + length texts
    ∧ calls w' = calls w ++ [CUpsert (collection_name self) pts].
Proof.
  intros Hc Hlen. unfold add_texts_batch.
  assert (∀ ms w0, length ms = length texts → qdrant w0 = qdrant w →
     uuid_drawn w0 = uuid_drawn w → calls w0 = calls w →
     ∃ pts w',
      (points ← batch_points env (zip texts (zip (model_encode env <$> texts) ms)) [];
       client_upsert (collection_name self) points;; mret (id <$> points)) w0
        = (Returns (id <$> pts), w')
      ∧ id <$> pts = uuid4 env <$> seq (uuid_drawn w) (length texts)
      ∧ qdrant w' = <[collection_name self := store_points pts c]> (qdrant w)
      ∧ uuid_drawn w' = uuid_drawn w + length texts
      ∧ calls w' = calls w ++ [CUpsert (collection_name self) pts]) as Hloop.
  { intros ms w0 Hms Hq0 Hu0 Hl0.
    destruct (batch_points_run (zip texts (zip (model_encode env <$> texts) ms)) [] w0)
      as (pts & w1 & Hrun & Hids & Hq & Hu & _ & Hl).
    assert (length (zip texts (zip (model_encode env <$> texts) ms)) = length texts) as Hz.
    { rewrite !length_zip_with, length_fmap. lia. }
    rewrite Hz in *. exists pts.
    unfold mbind, M_bind at 1. rewrite Hrun. cbn [app].
    unfold client_upsert. mred. rewrite Hq, Hq0, Hc. eexists. split; [done|].
    mred. rewrite Hids, Hq, Hq0, Hu, Hu0, Hl, Hl0. done. }
  destruct metadatas as [ms|].
  - mred. apply Hloop; auto.
  - unfold new_dict. mred. apply Hloop; try done. by rewrite length_replicate.
Qed.

Lemma drawn_fresh name w c k :
  uuids_distinct env → ids_were_drawn env name w →
  qdrant w !! name = Some c → uuid_drawn w ≤ k →
  points c !! uuid4 env k = None.
Proof.
  intros Hinj Hdrawn Hc Hk.
  destruct (points c !! uuid4 env k) eqn:Hp; [|done].
  destruct (Hdrawn c (uuid4 env k) Hc) as (j & Hj & Heq); [by eexists|].
  apply Hinj in Heq. lia.
Qed.

(** C3. On a store that holds the collection, [add_text(text, metadata)]
    returns an id that is not yet in the collection and differs from every
    other draw of the UUID source, earlier or later; it makes one [upsert]
    call with one point; the point's payload has ['text'] equal to the text,
    ['timestamp'] equal to the caller's value when the caller gave one and to
    the clock reading of the call otherwise, and every other key exactly as
    the caller gave it; the collection gains that one point. *)
Theorem add_text_stores_one_point self text metadata w c :
  uuids_distinct env →
  ids_were_drawn env (collection_name self) w →
  qdrant w !! collection_name self = Some c →
  let given := match metadata with Some d => dict_at d w | None => ∅ end in
  ∃ pid payload w',
    add_text env self text metadata w = (Returns pid, w')
    ∧ points c !! pid = None
    ∧ (∀ k, k ≠ uuid_drawn w → uuid4 env k ≠ pid)
    ∧ ids_were_drawn env (collection_name self) w'
    ∧ payload !! "text" = Some (VStr text)
    ∧ payload !! "timestamp"
      = Some (default (VStr (now_isoformat env (clock_reads w))) (given !! "timestamp"))
    ∧ (∀ k, k ≠ "text" → k ≠ "timestamp" → payload !! k = given !! k)
    ∧ calls w' = calls w ++
        [CUpsert (collection_name self)
           [ {| id := pid; vector := model_encode env text; payload := payload |} ]]
    ∧ qdrant w' !! collection_name self
      = Some {| config := config c;
                points := <[pid := (model_encode env text, payload)]> (points c) |}
    ∧ size (<[pid := (model_encode env text, payload)]> (points c)) = S (size (points c)).
Proof.
  intros Hinj Hdrawn Hc given.
  destruct (add_text_run self text metadata w c Hc) as (w' & Hrun & Hq & Hu & Hl).
  cbn [id] in Hrun.
  assert (points c !! uuid4 env (uuid_drawn w) = None) as Hfresh
    by (by eapply drawn_fresh).
  exists (uuid4 env (uuid_drawn w)),
    (add_text_payload text (now_isoformat env (clock_reads w)) given), w'.
  split; [exact Hrun|].
  split; [done|]. split; [intros k Hk Heq; by apply Hinj in Heq|].
  split.
  { intros c' i Hc' Hi. rewrite Hq, lookup_insert_eq in Hc'.
    injection Hc' as <-. cbn in Hi. rewrite Hu.
    destruct (decide (i = uuid4 env (uuid_drawn w))) as [->|Hne].
    - exists (uuid_drawn w). split; [lia|done].
    - rewrite lookup_insert_ne in Hi by done.
      destruct (Hdrawn c i Hc Hi) as (k & Hk & ->). exists k. split; [lia|done]. }
  unfold add_text_payload.
  split; [apply lookup_insert_eq|].
  split.
  { rewrite lookup_insert_ne by done. case_bool_decide as Hts.
    - destruct Hts as [v Hv]. by rewrite Hv.
    - rewrite lookup_insert_eq. destruct (given !! "timestamp"); [|done].
      exfalso. apply Hts. by eexists. }
  split.
  { intros k Hk1 Hk2. rewrite lookup_insert_ne by done.
    case_bool_decide; [done|]. by rewrite lookup_insert_ne. }
  split; [exact Hl|].
  split; [by rewrite Hq, lookup_insert_eq|].
  by apply map_size_insert_None.
Qed.

(** C5. For [n] texts, with [metadatas] absent or of length [n],
    [add_texts_batch] returns [n] pairwise distinct ids and
    [get_stats()]'s [total_points] (the collection's point count) after the
    call is its value before the call plus [n]. *)
Theorem add_texts_batch_ids_and_count self texts metadatas w c :
  uuids_distinct env →
  ids_were_drawn env (collection_name self) w →
  qdrant w !! collection_name self = Some c →
  (∀ ms, metadatas = Some ms → length ms = length texts) →
  ∃ ids w' before after,
    add_texts_batch env self texts metadatas w = (Returns ids, w')
    ∧ length ids = length texts
    ∧ NoDup ids
    ∧ (get_stats self w).1 = Returns before
    ∧ (get_stats self w').1 = Returns after
    ∧ points_count after = points_count before + length texts.
Proof.
  intros Hinj Hdrawn Hc Hlen.
  destruct (add_texts_batch_run self texts metadatas w c Hc Hlen)
    as (pts & w' & Hrun & Hids & Hq & Hu & Hl).
  assert (NoDup (id <$> pts)) as Hnd.
  { rewrite Hids. apply NoDup_fmap_2; [exact Hinj|apply NoDup_seq]. }
  eexists _, w', _, _. split; [exact Hrun|].
  split; [by rewrite Hids, length_fmap, length_seq|].
  split; [done|].
  unfold get_stats, client_get_collection. mred. rewrite Hc, Hq, lookup_insert_eq.
  cbn [fst]. split; [done|]. split; [done|]. cbn [points_count].
  rewrite store_points_size; [|done|].
  - f_equal. by rewrite <- (length_fmap id), Hids, length_fmap, length_seq.
  - intros p Hp.
    assert (id p ∈ id <$> pts) as Hin by (by apply list_elem_of_fmap_2).
    rewrite Hids in Hin. apply list_elem_of_fmap in Hin as (k & -> & Hk).
    apply elem_of_seq in Hk. eapply drawn_fresh; eauto. lia.
Qed.
(** A batch whose items all refer to the dictionary [d]: every point gets
    the stamp [d] already has, or the first clock reading when it has none. *)
Lemma batch_points_shared d items pts w :
  Forall (λ it : string * (list float64 * nat), it.2.2 = d) items →
  ∃ new w',
    batch_points env items pts w = (Returns (pts ++ new), w')
    ∧ Forall2 (λ p it, payload p !! "text" = Some (VStr it.1)) new items
    ∧ Forall (λ p, payload p !! "timestamp"
                   = Some (default (VStr (now_isoformat env (clock_reads w)))
                             (dict_at d w !! "timestamp"))) new.
Proof.
  revert pts w. induction items as [|[text [embedding md]] rest IH]; intros pts w Hd.
  - exists [], w. cbn. rewrite app_nil_r. by repeat split.
  - apply Forall_cons in Hd as [Hmd Hd]. cbn in Hmd. subst md.
    cbn [batch_points]. unfold uuid4_str, datetime_now_isoformat, dict_get, dict_set,
      dict_snapshot. mred.
    match goal with |- context [batch_points env rest ?p ?w1] =>
      destruct (IH p w1 Hd) as (new & w' & Hrun & Htext & Hstamp);
      assert (dict_at d w1 !! "timestamp"
              = Some (default (VStr (now_isoformat env (clock_reads w)))
                        (dict_at d w !! "timestamp"))) as Hkeep
    end.
    { unfold dict_at. cbn [heap set_heap set_clock_reads set_uuid_drawn].
      rewrite !lookup_insert_eq. cbn [default from_option Datatypes.id].
      rewrite lookup_insert_ne by done. by rewrite lookup_insert_eq. }
    rewrite Hkeep in Hstamp. cbn [default from_option Datatypes.id] in Hstamp.
    rewrite Hrun. eexists (_ :: new), w'. rewrite <- app_assoc. split; [done|].
    split.
    + constructor; [|done]. cbn [payload fst].
      unfold dict_at. cbn [heap set_heap set_clock_reads set_uuid_drawn].
      rewrite !lookup_insert_eq. cbn [default from_option Datatypes.id].
      by rewrite lookup_insert_eq.
    + constructor; [|done]. cbn [payload]. exact Hkeep.
Qed.

(** Without metadatas, every point of the batch carries the first clock
    reading of the call. *)
Lemma add_texts_batch_default_metadata self texts w c :
  qdrant w !! collection_name self = Some c →
  ∃ pts w',
    add_texts_batch env self texts None w = (Returns (id <$> pts), w')
    ∧ calls w' = calls w ++ [CUpsert (collection_name self) pts]
    ∧ Forall2 (λ p text, payload p !! "text" = Some (VStr text)) pts texts
    ∧ Forall (λ p, payload p !! "timestamp"
                   = Some (VStr (now_isoformat env (clock_reads w)))) pts.
Proof.
  intros Hc. unfold add_texts_batch, new_dict. mred.
  set (d := fresh (dom (heap w))).
  set (w1 := set_heap (insert d ∅) w).
  set (items := zip texts (zip (model_encode env <$> texts) (replicate (length texts) d))).
  assert (Forall (λ it : string * (list float64 * nat), it.2.2 = d) items) as Hd.
  { apply Forall_forall. intros [t [e m]] Hin. cbn.
    apply elem_of_zip_r, elem_of_zip_r in Hin. by apply elem_of_replicate in Hin as [-> _]. }
  destruct (batch_points_shared d items [] w1 Hd) as (pts & w' & Hrun & Htext & Hstamp).
  destruct (batch_points_run items [] w1) as (pts' & w'' & Hrun' & _ & Hq & _ & _ & Hl).
  rewrite Hrun in Hrun'. injection Hrun' as <- <-.
  rewrite Hrun. cbn [app]. unfold client_upsert. mred. rewrite Hq. cbn [qdrant w1 set_heap].
  rewrite Hc. exists pts. eexists. split; [done|]. mred. split; [by rewrite Hl|].
  split.
  - assert (items.*1 = texts) as Hfst.
    { unfold items. rewrite fst_zip; [done|].
      rewrite length_zip_with, length_fmap, length_replicate. lia. }
    rewrite <- Hfst. clear -Htext. induction Htext; constructor; auto.
  - assert (dict_at d w1 !! "timestamp" = None) as Hnone.
    { unfold dict_at, w1. cbn [heap set_heap]. by rewrite lookup_insert_eq. }
    rewrite Hnone in Hstamp. exact Hstamp.
Qed.

End store_claims.

Lemma demo_uuids_distinct : uuids_distinct demo_env.
Proof. intros i j H. exact (pretty_nat_inj _ _ H). Qed.

Lemma demo_world_collection :
  qdrant demo_world !! "book_knowledge"
    = Some {| config := {| size_ := 1; distance := COSINE |}; points := ∅ |}.
Proof. vm_compute. reflexivity. Qed.

Lemma demo_ids_were_drawn : ids_were_drawn demo_env "book_knowledge" demo_world.
Proof.
  intros c i Hc [v Hv]. rewrite demo_world_collection in Hc.
  injection Hc as <-. cbn [points] in Hv. by rewrite lookup_empty in Hv.
Qed.

Lemma add_text_stores_one_point_witness :
  ∃ pid payload w',
    add_text demo_env demo_db "Python is a high-level programming language."
      None demo_world = (Returns pid, w')
    ∧ payload !! "text"
      = Some (VStr "Python is a high-level programming language.")
    ∧ qdrant w' !! "book_knowledge"
      = Some {| config := {| size_ := 1; distance := COSINE |};
                points := {[ pid := (model_encode demo_env
                                       "Python is a high-level programming language.",
                                     payload) ]} |}.
Proof.
  destruct (add_text_stores_one_point demo_env demo_db
              "Python is a high-level programming language." None demo_world _
              demo_uuids_distinct demo_ids_were_drawn demo_world_collection)
    as (pid & payload & w' & Hrun & _ & _ & _ & Htext & _ & _ & _ & Hq & _).
  exists pid, payload, w'. split; [exact Hrun|]. split; [exact Htext|]. exact Hq.
Defined.

Lemma add_texts_batch_ids_and_count_witness :
  ∃ ids w' before after,
    add_texts_batch demo_env demo_db
      ["Python is a high-level programming language.";
       "Machine learning is a subset of artificial intelligence.";
       "Vector databases enable fast similarity search."] None demo_world
      = (Returns ids, w')
    ∧ length ids = 3
    ∧ NoDup ids
    ∧ (get_stats demo_db demo_world).1 = Returns before
    ∧ (get_stats demo_db w').1 = Returns after
    ∧ points_count after = points_count before + 3.
Proof.
  refine (add_texts_batch_ids_and_count demo_env demo_db
            ["Python is a high-level programming language.";
             "Machine learning is a subset of artificial intelligence.";
             "Vector databases enable fast similarity search."] None demo_world _
            demo_uuids_distinct demo_ids_were_drawn demo_world_collection _).
  intros ms Hms. discriminate Hms.
Defined.

(** ** The API: queries *)

Section api_lemmas.

Import api_backend.

Context (env : Env).

(** What one run of the chain does. *)
Lemma RetrievalQA_invoke_returns qa question w resp w' :
  RetrievalQA_invoke env qa question w = (Returns resp, w') →
  ∃ c docs,
    qdrant w !! retriever_collection qa = Some c
    ∧ documents_of qa
        (take (search_k qa)
           (merge_sort nearer
              (scored (similarity env (embed_query env question)) c)))
      = Returns docs
    ∧ llm_generate env (stuff_prompt env docs question) = Returns (result resp)
    ∧ source_documents resp = (if return_source_documents qa then docs else [])
    ∧ w' = log_call (CLlm (stuff_prompt env docs question))
             (log_call (CSearch (retriever_collection qa) (search_k qa)) w).
Proof.
  unfold RetrievalQA_invoke, get_relevant_documents, client_search, llm_invoke.
  mred. destruct (qdrant w !! retriever_collection qa) as [c|]; [|done].
  destruct (documents_of qa _) as [docs|] eqn:Hdocs; [|done].
  destruct (llm_generate env _) as [answer|] eqn:Hllm; [|done].
  intros [= <- <-]. exists c, docs. done.
Qed.

Lemma RetrievalQA_invoke_store qa question w :
  qdrant (RetrievalQA_invoke env qa question w).2 = qdrant w.
Proof.
  unfold RetrievalQA_invoke, get_relevant_documents, client_search, llm_invoke.
  mred. destruct (qdrant w !! retriever_collection qa) as [c|]; [|done].
  destruct (documents_of qa _) as [docs|]; [|done].
  by destruct (llm_generate env _).
Qed.

Lemma serve_query req s : serve env "POST" "/api/query" req s =
  match query env req s with (Returns r, s') => (r, s') | (Raises e, s') => (jsonify [] 500, s') end.
Proof. reflexivity. Qed.

Lemma query_not_ready req s :
  ready (initialization_status s) = false →
  query env req s =
    (Returns (jsonify [("error", JStr "System not ready yet");
                       ("message", JStr (message (initialization_status s)))] 503), s).
Proof. intros H. unfold query. mred. by rewrite H. Qed.

Lemma query_unreadable e s :
  ready (initialization_status s) = true →
  query env (json_error e) s = (Returns (jsonify [] (status_code e)), s).
Proof. intros H. unfold query. mred. by rewrite H. Qed.

Lemma query_not_object s :
  ready (initialization_status s) = true →
  query env json_other s = (Raises "object has no attribute 'get'", s).
Proof. intros H. unfold query. mred. by rewrite H. Qed.

Lemma query_falsy fields s :
  ready (initialization_status s) = true →
  json_truthy (default (JStr "") (fields !! "query")) = false →
  query env (json_object fields) s
  = (Returns (jsonify [("error", JStr "No query provided")] 400), s).
Proof. intros H Hq. unfold query. mred. by rewrite H, Hq. Qed.

Lemma query_not_str fields v s :
  ready (initialization_status s) = true →
  default (JStr "") (fields !! "query") = v →
  json_truthy v = true →
  (∀ q, v ≠ JStr q) →
  ∃ e, query env (json_object fields) s
       = (Returns (jsonify [("error", JStr e); ("success", JBool false)] 500), s).
Proof.
  intros H Hv Ht Hstr. unfold query, qa_chain_invoke_other. mred.
  rewrite H, Hv, Ht. cbn [negb].
  destruct v as [q| | | | |]; [by destruct (Hstr q)|..];
    destruct (qa_chain s); eauto.
Qed.

Lemma query_raises_str fields q s e s1 :
  ready (initialization_status s) = true →
  default (JStr "") (fields !! "query") = JStr q →
  q ≠ "" →
  qa_chain_invoke env q s = (Raises e, s1) →
  query env (json_object fields) s =
    (Returns (jsonify [("error", JStr e); ("success", JBool false)] 500), s1).
Proof.
  intros H Hv Hq Hr. unfold query. mred. rewrite H, Hv. cbn [negb json_truthy].
  rewrite bool_decide_eq_false_2 by done. cbn [negb]. by rewrite Hr.
Qed.

Lemma query_returns_str fields q s resp s1 :
  ready (initialization_status s) = true →
  default (JStr "") (fields !! "query") = JStr q →
  q ≠ "" →
  qa_chain_invoke env q s = (Returns resp, s1) →
  query env (json_object fields) s =
    (Returns (jsonify [("response", JStr (result resp));
                       ("sources", JArr (json_of_source <$> sources_of resp));
                       ("success", JBool true)] 200),
     set_chat_history
       (chat_history s1 ++ [ {| role := "user"; content := q |};
                             {| role := "assistant"; content := result resp |} ]) s1).
Proof.
  intros H Hv Hq Hr. unfold query. mred. rewrite H, Hv. cbn [negb json_truthy].
  rewrite bool_decide_eq_false_2 by done. cbn [negb]. rewrite Hr. cbn.
  by rewrite <- app_assoc.
Qed.






(** ** The API: initialization *)

Lemma quiet_ret {A} (a : A) : quiet (mret a).
Proof. by intros s. Qed.

Lemma quiet_bind {A B} (m : M backend A) (f : A → M backend B) :
  quiet m → (∀ a, quiet (f a)) → quiet (m ≫= f).
Proof.
  intros Hm Hf s. specialize (Hm s). unfold mbind, M_bind.
  destruct (m s) as [[a|e] s1]; cbn in *; [|done].
  destruct (Hf a s1) as [-> ->]. done.
Qed.

Lemma quiet_try {A} (m : M backend A) (h : exn → M backend A) :
  quiet m → (∀ e, quiet (h e)) → quiet (try_except m h).
Proof.
  intros Hm Hh s. specialize (Hm s). unfold try_except.
  destruct (m s) as [[a|e] s1]; cbn in *; [done|].
  destruct (Hh e s1) as [-> ->]. done.
Qed.

Lemma quiet_in_world {A} (m : M world A) : quiet (in_world m).
Proof. intros s. unfold in_world, zoom. by destruct (m (outside s)). Qed.

Lemma quiet_gets {A} (f : backend → A) : quiet (gets f).
Proof. by intros s. Qed.

Lemma quiet_history (f : backend → list turn) :
  quiet (modify (λ s, set_chat_history (f s) s)).
Proof. by intros s. Qed.

Lemma quiet_capture {A} (m : outcome A): quiet (call_out m).
Proof. by intros s. Qed.

Lemma quiet_raise {A} (e : exn) : quiet (raise (A := A) e).
Proof. by intros s. Qed.

Lemma quiet_if {A} (b : bool) (m1 m2 : M backend A) :
  quiet m1 → quiet m2 → quiet (if b then m1 else m2).
Proof. by destruct b. Qed.

Ltac quiet :=
  repeat first
    [ apply quiet_ret | apply quiet_raise | apply quiet_in_world | apply quiet_gets
    | apply quiet_history | apply (quiet_history (λ _, [])) | apply quiet_capture
    | apply quiet_bind; [|intros ?] | apply quiet_try; [|intros ?]
    | apply quiet_if
    | match goal with |- quiet (match ?x with _ => _ end) => destruct x end ].

Lemma route_quiet method path req : quiet (route env method path req).
Proof.
  unfold route, health_check, query, capture_full_screen, get_stats, get_history,
    clear_history, clear_database, qa_chain_invoke, qa_chain_invoke_other,
    capture_and_extract,
    capture_screenshot, extract_text_from_image.
  quiet.
Qed.

Lemma serve_quiet method path data s :
  initialization_status (serve env method path data s).2 = initialization_status s
  ∧ qa_chain (serve env method path data s).2 = qa_chain s.
Proof.
  unfold serve. pose proof (route_quiet method path data s) as H.
  by destruct (route env method path data s) as [[r|e] s'].
Qed.

Lemma initialize_components_outcome s :
  match (initialize_steps env s).1 with
  | Returns _ =>
      initialization_status (initialize_components env s).2 = all_ready
      ∧ qa_chain (initialize_components env s).2 = Some book_knowledge_chain
  | Raises e =>
      initialization_status (initialize_components env s).2 = init_error e
      ∧ qa_chain (initialize_components env s).2 = qa_chain s
  end.
Proof.
  unfold initialize_components, initialize_steps, in_world, construct. mred.
  destruct (VectorDatabase_init env "book_knowledge" (outside s)) as [[db|e] w1];
    mred; [|done].
  destruct (load_fault env CompOllamaLLM); mred; [done|].
  destruct (load_fault env CompHuggingFaceEmbeddings); mred; [done|].
  destruct (load_fault env CompQdrantStore); mred; [done|].
  destruct (load_fault env CompRetrievalQA); mred; done.
Qed.

Lemma launched_inv w : init_inv (launched w).
Proof. by left. Qed.

Lemma step_request_status method path data p :
  initialization_status (globals (step env (Request method path data) p))
    = initialization_status (globals p)
  ∧ qa_chain (globals (step env (Request method path data) p)) = qa_chain (globals p)
  ∧ init_thread_pending (step env (Request method path data) p)
    = init_thread_pending p.
Proof.
  cbn [step globals init_thread_pending].
  destruct (serve_quiet method path data (globals p)) as [-> ->]. done.
Qed.

Lemma step_inv e p : init_inv p → init_inv (step env e p).
Proof.
  intros Hinv. destruct e as [|method path data].
  - cbn [step]. destruct (init_thread_pending p) eqn:Hp; [|done].
    destruct Hinv as [(_ & Hst & Hqa)|[(Hf & _)|(Hf & _)]]; try congruence.
    pose proof (initialize_components_outcome (globals p)) as Hout.
    destruct ((initialize_steps env (globals p)).1) as [[]|e].
    + right; left. by cbn.
    + right; right. cbn. destruct Hout as [Hs Hq]. rewrite Hq, Hqa. eauto.
  - destruct (step_request_status method path data p) as (Hs & Hq & Hp).
    unfold init_inv. by rewrite Hs, Hq, Hp.
Qed.

Lemma after_inv es p : init_inv p → init_inv (after env es p).
Proof.
  revert p. induction es as [|e es IH]; intros p Hp; [done|].
  cbn. apply IH. by apply step_inv.
Qed.

Lemma step_settled e p :
  init_thread_pending p = false →
  init_thread_pending (step env e p) = false
  ∧ initialization_status (globals (step env e p)) = initialization_status (globals p).
Proof.
  intros Hp. destruct e as [|method path data].
  - cbn [step]. by rewrite Hp.
  - destruct (step_request_status method path data p) as (-> & _ & ->). done.
Qed.

Lemma after_settled es p :
  init_thread_pending p = false →
  initialization_status (globals (after env es p)) = initialization_status (globals p).
Proof.
  revert p. induction es as [|e es IH]; intros p Hp; [done|].
  cbn. destruct (step_settled e p Hp) as [Hp' <-]. by apply IH.
Qed.

Lemma after_app es1 es2 p : after env (es1 ++ es2) p = after env es2 (after env es1 p).
Proof. unfold after. apply foldl_app. Qed.

Lemma run_cons es p : ∃ rest, run env es p = p :: rest.
Proof. destruct es; by eexists. Qed.

Lemma changes_cons {A} `{EqDecision A} (a b : A) l :
  changes (a :: b :: l) = (if decide (a = b) then 0 else 1) + changes (b :: l).
Proof. reflexivity. Qed.

Lemma run_settled_changes es p :
  init_thread_pending p = false →
  changes ((initialization_status ∘ globals) <$> run env es p) = 0.
Proof.
  revert p. induction es as [|e es IH]; intros p Hp; [done|].
  cbn [run]. destruct (run_cons es (step env e p)) as [rest Hrest].
  destruct (step_settled e p Hp) as [Hp' Hs].
  specialize (IH _ Hp'). rewrite Hrest in *. rewrite !fmap_cons.
  rewrite !fmap_cons in IH. rewrite changes_cons, IH. cbn [compose].
  rewrite Hs. by rewrite decide_True.
Qed.

Lemma run_changes es p :
  changes ((initialization_status ∘ globals) <$> run env es p) ≤ 1.
Proof.
  revert p. induction es as [|e es IH]; intros p; [cbn; lia|].
  cbn [run]. destruct (run_cons es (step env e p)) as [rest Hrest].
  destruct (init_thread_pending p) eqn:Hp.
  - destruct e as [|method path data].
    + assert (init_thread_pending (step env InitThreadRuns p) = false) as Hp'
        by (cbn [step]; by rewrite Hp).
      pose proof (run_settled_changes es _ Hp') as H0.
      rewrite Hrest in *. rewrite !fmap_cons in *. rewrite changes_cons, H0.
      case_decide; lia.
    + specialize (IH (step env (Request method path data) p)).
      destruct (step_request_status method path data p) as (Hs & _ & _).
      rewrite Hrest in *. rewrite !fmap_cons in *. rewrite changes_cons.
      cbn [compose] in *. rewrite Hs in IH. rewrite Hs, decide_True by done. lia.
  - change (p :: run env es (step env e p)) with (run env (e :: es) p).
    rewrite run_settled_changes by done. lia.
Qed.

Lemma run_last es p : last (run env es p) = Some (after env es p).
Proof.
  revert p. induction es as [|e es IH]; intros p; [done|].
  cbn [run]. destruct (run_cons es (step env e p)) as [rest Hrest].
  specialize (IH (step env e p)). rewrite Hrest in *. by rewrite last_cons_cons.
Qed.

Lemma run_states es p q :
  q ∈ run env es p → ∃ pre post, es = pre ++ post ∧ q = after env pre p.
Proof.
  revert p. induction es as [|e es IH]; intros p Hq; cbn [run] in Hq.
  - apply list_elem_of_singleton in Hq as ->. by exists [], [].
  - apply elem_of_cons in Hq as [->|Hq]; [by exists [], (e :: es)|].
    destruct (IH _ Hq) as (pre & post & -> & ->). by exists (e :: pre), post.
Qed.

Lemma initializing_not_final :
  all_ready ≠ initializing ∧ ∀ e, init_error e ≠ initializing.
Proof. split; [done|]. intros e. unfold init_error, initializing. intros [=]. Qed.

(** C7. Along every run of the process from its launch, the initialization
    status changes value at most once; every state shows the initial status,
    the ready status with the success message, or a not-ready status with an
    error message; the initialization step sets the ready status when its
    [try] block completes and the error status when it raises; a step that
    changes the status is the one run of the initialization thread; and once
    the status has left the initial value it is the same after any further
    events. *)
Theorem initialization_status_transitions_once (w : world) (es : list event) :
  let status_of p := initialization_status (globals p) in
  changes (status_of <$> run env es (launched w)) ≤ 1
  ∧ Forall (λ p, status_of p = initializing ∨ status_of p = all_ready
                 ∨ ∃ e, status_of p = init_error e)
      (run env es (launched w))
  ∧ (∀ s,
      match (initialize_steps env s).1 with
      | Returns _ => initialization_status (initialize_components env s).2 = all_ready
      | Raises e => initialization_status (initialize_components env s).2 = init_error e
      end)
  ∧ (∀ e p, status_of (step env e p) ≠ status_of p →
      e = InitThreadRuns ∧ init_thread_pending p = true
      ∧ init_thread_pending (step env e p) = false)
  ∧ (∀ es1 es2, es = es1 ++ es2 →
      status_of (after env es1 (launched w)) ≠ initializing →
      status_of (after env es (launched w)) = status_of (after env es1 (launched w))).
Proof.
  intros status_of. split; [apply run_changes|]. split; [|split; [|split]].
  - apply Forall_forall. intros q Hq.
    destruct (run_states _ _ _ Hq) as (pre & post & _ & ->).
    destruct (after_inv pre _ (launched_inv w)) as [(_ & H & _)|[(_ & H & _)|(_ & H & _)]];
      unfold status_of; auto.
  - intros s. pose proof (initialize_components_outcome s) as H.
    destruct ((initialize_steps env s).1); tauto.
  - intros e p Hne. destruct e as [|method path data].
    + split; [done|]. destruct (init_thread_pending p) eqn:Hp.
      * split; [done|]. cbn [step]. by rewrite Hp.
      * exfalso. apply Hne. unfold status_of. cbn [step]. by rewrite Hp.
    + exfalso. apply Hne. unfold status_of.
      by destruct (step_request_status method path data p) as (-> & _).
  - intros es1 es2 -> Hne. unfold status_of in *. rewrite after_app.
    apply after_settled.
    destruct (after_inv es1 _ (launched_inv w)) as [(_ & H & _)|[(H & _)|(H & _)]];
      done.
Qed.

(** ** The API: the query pipeline *)

#[global] Instance nearer_trans : Transitive nearer.
Proof. unfold nearer. intros a b c. lia. Qed.

#[global] Instance nearer_total : Total nearer.
Proof. unfold nearer. intros a b. lia. Qed.

(** The paths through [query]. *)
Lemma query_cases req s :
  (ready (initialization_status s) = false
   ∧ query env req s =
       (Returns (jsonify [("error", JStr "System not ready yet");
                          ("message", JStr (message (initialization_status s)))] 503), s))
  ∨ (∃ e, ready (initialization_status s) = true ∧ req = json_error e
      ∧ query env req s = (Returns (jsonify [] (status_code e)), s))
  ∨ (∃ e, ready (initialization_status s) = true ∧ req = json_other
      ∧ query env req s = (Raises e, s))
  ∨ (∃ fields, ready (initialization_status s) = true ∧ req = json_object fields
      ∧ json_truthy (default (JStr "") (fields !! "query")) = false
      ∧ query env req s = (Returns (jsonify [("error", JStr "No query provided")] 400), s))
  ∨ (∃ fields e, ready (initialization_status s) = true ∧ req = json_object fields
      ∧ json_truthy (default (JStr "") (fields !! "query")) = true
      ∧ (∀ q, default (JStr "") (fields !! "query") ≠ JStr q)
      ∧ query env req s =
          (Returns (jsonify [("error", JStr e); ("success", JBool false)] 500), s))
  ∨ (∃ fields q e s1,
      ready (initialization_status s) = true ∧ req = json_object fields
      ∧ default (JStr "") (fields !! "query") = JStr q ∧ q ≠ ""
      ∧ qa_chain_invoke env q s = (Raises e, s1)
      ∧ query env req s =
          (Returns (jsonify [("error", JStr e); ("success", JBool false)] 500), s1))
  ∨ (∃ fields q resp s1,
      ready (initialization_status s) = true ∧ req = json_object fields
      ∧ default (JStr "") (fields !! "query") = JStr q ∧ q ≠ ""
      ∧ qa_chain_invoke env q s = (Returns resp, s1)
      ∧ query env req s =
          (Returns (jsonify [("response", JStr (result resp));
                             ("sources", JArr (json_of_source <$> sources_of resp));
                             ("success", JBool true)] 200),
           set_chat_history
             (chat_history s1 ++ [ {| role := "user"; content := q |};
                                   {| role := "assistant"; content := result resp |} ])
             s1)).
Proof.
  destruct (ready (initialization_status s)) eqn:Hr;
    [|left; eauto using query_not_ready].
  right. destruct req as [e| |fields].
  - left. exists e. eauto using query_unreadable.
  - right; left. eexists. eauto using query_not_object.
  - do 2 right.
    destruct (json_truthy (default (JStr "") (fields !! "query"))) eqn:Ht;
      [|left; exists fields; eauto using query_falsy].
    right. destruct (default (JStr "") (fields !! "query")) as [q| | | | |] eqn:Hv.
    2-6: left; destruct (query_not_str fields _ s Hr Hv Ht) as [e He]; [done|];
         exists fields, e; rewrite Hv; eauto.
    right. assert (q ≠ "") as Hq by (intros ->; done).
    destruct (qa_chain_invoke env q s) as [[resp|e] s1] eqn:Hinv.
    + right. exists fields, q, resp, s1. eauto 10 using query_returns_str.
    + left. exists fields, q, e, s1. eauto 10 using query_raises_str.
Qed.




Lemma documents_of_length qa hits docs :
  documents_of qa hits = Returns docs → length docs = length hits.
Proof.
  revert docs. induction hits as [|hit hits IH]; intros docs; cbn.
  - by intros [= <-].
  - destruct (document_of qa hit); [|done].
    destruct (documents_of qa hits) as [docs'|]; [|done].
    intros [= <-]. cbn. by rewrite (IH docs').
Qed.

Lemma sources_of_docs resp :
  sources_of resp = source_of <$> take 2 (source_documents resp).
Proof.
  unfold sources_of. case_bool_decide as H; [by rewrite H|done].
Qed.

Lemma sources_faithful docs : Forall2 cites (source_of <$> docs) docs.
Proof.
  induction docs as [|doc docs IH]; constructor; [|done].
  split; [done|]. apply slice_to_first_chars.
Qed.

Lemma append_sources_lines i docs answer :
  menubar_app.append_sources i docs answer
  = answer
      +:+ join (imap (λ k, source_line (i + k))
                  ((λ doc, slice_to 150 (page_content doc)) <$> docs)).
Proof.
  revert i answer. induction docs as [|doc docs IH]; intros i answer.
  - cbn. by rewrite append_nil_r.
  - cbn [menubar_app.append_sources fmap list_fmap imap join foldr]. rewrite IH.
    rewrite Nat.add_0_r. unfold source_line at 2.
    rewrite !append_assoc. do 7 f_equal.
    apply imap_ext. intros k d _. cbn. f_equal. lia.
Qed.

(** C1. In every state the API process can reach, a [POST /api/query]
    answered with 200 carried a JSON object whose [query] is a string, made
    one search on the collection with limit 3, whose hits are the first
    three of the stored points ranked nearest first, and then one call of
    the language model; the response carries at most two sources, the i-th
    holding the metadata of the i-th retrieved document and exactly the first
    150 characters of its text (all of it when it is shorter).  In the
    menu-bar host, a question the same chain answers made the same two calls,
    and the returned text is the answer followed by one numbered line for
    each of the first two retrieved documents, made of the first 150
    characters of its text with every newline replaced by a space; the text
    holds no metadata. *)
Theorem rag_query_pipeline (w : world) (es : list event) (req : request_json)
    (app : menubar_app.SecondBrainApp) (question : string) :
  (let s := globals (after env es (launched w)) in
   let served := serve env "POST" "/api/query" req s in
   code served.1 = 200 →
   ∃ fields q c ranking docs answer srcs,
     req = json_object fields
     ∧ fields !! "query" = Some (JStr q)
     ∧ qdrant (outside s) !! "book_knowledge" = Some c
     ∧ ranking ≡ₚ scored (similarity env (embed_query env q)) c
     ∧ StronglySorted nearer ranking
     ∧ documents_of book_knowledge_chain (take 3 ranking) = Returns docs
     ∧ llm_generate env (stuff_prompt env docs q) = Returns answer
     ∧ calls (outside served.2)
       = calls (outside s)
           ++ [CSearch "book_knowledge" 3; CLlm (stuff_prompt env docs q)]
     ∧ body served.1
       = JObj [("response", JStr answer);
               ("sources", JArr (json_of_source <$> srcs));
               ("success", JBool true)]
     ∧ length srcs = 2 `min` length docs
     ∧ Forall2 cites srcs (take 2 docs))
  ∧ (menubar_app.qa_chain app = Some book_knowledge_chain →
     ∀ resp w',
       RetrievalQA_invoke env book_knowledge_chain question (menubar_app.outside app)
         = (Returns resp, w') →
       ∃ c ranking docs snippets,
         qdrant (menubar_app.outside app) !! "book_knowledge" = Some c
         ∧ ranking ≡ₚ scored (similarity env (embed_query env question)) c
         ∧ StronglySorted nearer ranking
         ∧ documents_of book_knowledge_chain (take 3 ranking) = Returns docs
         ∧ llm_generate env (stuff_prompt env docs question) = Returns (result resp)
         ∧ calls w'
           = calls (menubar_app.outside app)
               ++ [CSearch "book_knowledge" 3; CLlm (stuff_prompt env docs question)]
         ∧ Forall2 (λ snippet doc, first_chars 150 (page_content doc) snippet)
             snippets (take 2 docs)
         ∧ menubar_app.handle_query env question app
           = (Returns (result resp +:+ sources_text snippets),
              menubar_app.set_outside w' app)).
Proof.
  split.
  - intros s served Hcode. subst served. rewrite serve_query in *.
    pose proof (after_inv es _ (launched_inv w)) as Hinv. fold s in Hinv.
    destruct (query_cases req s)
      as [(Hr & Hq)|[(e & Hr & -> & Hq)|[(e & Hr & -> & Hq)|[(fields & Hr & -> & Ht & Hq)
         |[(fields & e & Hr & -> & Ht & Hstr & Hq)|[(fields & q & e & s1 & Hr & -> & Hv & Hne & Hi & Hq)
         |(fields & q & resp & s1 & Hr & -> & Hv & Hne & Hi & Hq)]]]]]];
      rewrite Hq in *; cbn [fst snd code body jsonify] in *; try done;
      [by destruct e|].
    unfold qa_chain_invoke, in_world in Hi. revert Hi. mred.
    destruct Hinv as [(_ & _ & Hqa)|[(_ & _ & Hqa)|(_ & _ & Hqa)]];
      change (qa_chain (globals (after env es (launched w)))) with (qa_chain s) in Hqa;
      rewrite Hqa; try done.
    destruct (RetrievalQA_invoke env book_knowledge_chain q (outside s))
      as [r w1] eqn:Hrun.
    intros [= -> <-].
    apply RetrievalQA_invoke_returns in Hrun
      as (c & docs & Hc & Hdocs & Hllm & Hsrc & ->).
    cbn [retriever_collection search_k return_source_documents book_knowledge_chain] in *.
    exists fields, q, c,
      (merge_sort nearer (scored (similarity env (embed_query env q)) c)),
      docs, (result resp), (source_of <$> take 2 docs).
    rewrite sources_of_docs, Hsrc.
    split; [done|]. split.
    { destruct (fields !! "query") as [v|]; cbn in Hv; [by subst v|].
      injection Hv as <-. done. }
    split; [done|]. split; [apply merge_sort_Permutation|].
    split; [apply StronglySorted_merge_sort; apply _|].
    split; [done|]. split; [done|].
    split; [cbn [outside set_chat_history set_outside calls log_call]; by rewrite <- app_assoc|].
    split; [done|]. split; [by rewrite length_fmap, length_take|].
    apply sources_faithful.
  - intros Hqa resp w' Hrun.
    pose proof Hrun as Hrun'.
    apply RetrievalQA_invoke_returns in Hrun'
      as (c & docs & Hc & Hdocs & Hllm & Hsrc & ->).
    cbn [retriever_collection search_k return_source_documents book_knowledge_chain] in *.
    exists c, (merge_sort nearer (scored (similarity env (embed_query env question)) c)),
      docs, ((λ doc, slice_to 150 (page_content doc)) <$> take 2 docs).
    split; [done|]. split; [apply merge_sort_Permutation|].
    split; [apply StronglySorted_merge_sort; apply _|].
    split; [done|]. split; [done|].
    split; [cbn [calls log_call]; by rewrite <- app_assoc|].
    split.
    { apply Forall2_fmap_l, Forall_Forall2_diag, Forall_forall.
      intros doc _. apply slice_to_first_chars. }
    unfold menubar_app.handle_query, menubar_app.in_world. mred.
    rewrite Hqa, Hrun. mred. rewrite Hsrc. f_equal. f_equal.
    unfold sources_text. destruct docs as [|d docs].
    + rewrite bool_decide_eq_true_2 by done. by rewrite append_nil_r.
    + rewrite bool_decide_eq_false_2 by done.
      rewrite append_sources_lines. rewrite !append_assoc. done.
Qed.

(** ** The API: captures *)

Lemma serve_capture req s : serve env "POST" "/api/capture/full" req s =
  match capture_full_screen env s with
  | (Returns r, s') => (r, s')
  | (Raises e, s') => (jsonify [] 500, s')
  end.
Proof. reflexivity. Qed.

(** The threshold of the capture handlers, on the characters [strip]
    leaves. *)
Lemma too_short text core :
  stripped text core →
  bool_decide (text = "") || (len (strip text) <? 10)
  = bool_decide (length core < 10).
Proof.
  intros Hcore. rewrite (stripped_len text core Hcore).
  case_bool_decide as Htext.
  - subst text. apply stripped_nil in Hcore as ->. done.
  - cbn [orb]. destruct (Nat.ltb_spec (length core) 10);
      [by rewrite bool_decide_eq_true_2|by rewrite bool_decide_eq_false_2 by lia].
Qed.

(** C10. [POST /api/capture/full] with the database object present and the
    OCR returning [text], where [core] are the characters of [text] without
    the whitespace at both ends: when [core] has fewer than 10 characters the
    response is [{success: false, message: 'No meaningful text found'}] and
    the whole state, store included, is as before; otherwise, on a store
    that holds the collection, the response is success with [text_length]
    the number of characters of [text], and the collection gains exactly one
    point, under an id it did not hold, whose payload has ['text'] equal to
    [text]. *)
Theorem capture_full_screen_threshold (data : request_json) (s : backend)
    (db : VectorDatabase) (image : Image) (text : string) (core : list string) :
  vector_db s = Some db →
  screenshot env None = Returns image →
  image_to_string env image = Returns text →
  stripped text core →
  let served := serve env "POST" "/api/capture/full" data s in
  (length core < 10 →
     served.1 = jsonify [("success", JBool false);
                         ("message", JStr "No meaningful text found")] 200
     ∧ served.2 = s)
  ∧ (10 ≤ length core →
     ∀ c, qdrant (outside s) !! collection_name db = Some c →
       uuids_distinct env →
       ids_were_drawn env (collection_name db) (outside s) →
       ∃ pid payload,
         served.1 = jsonify [("success", JBool true);
                             ("message", JStr ("Captured "
                                                 +:+ pretty (length (chars text))
                                                 +:+ " characters"));
                             ("text_length",
                              JNum (Z.of_nat (length (chars text))))] 200
         ∧ points c !! pid = None
         ∧ payload !! "text" = Some (VStr text)
         ∧ payload !! "source" = Some (VStr "screenshot_full")
         ∧ qdrant (outside served.2)
           = <[collection_name db :=
                 {| config := config c;
                    points := <[pid := (model_encode env text, payload)]> (points c) |}]>
               (qdrant (outside s))
         ∧ size (<[pid := (model_encode env text, payload)]> (points c))
           = S (size (points c))).
Proof.
  intros Hdb Himg Htxt Hcore served. subst served. rewrite serve_capture.
  unfold capture_full_screen, capture_and_extract, capture_screenshot,
    extract_text_from_image. mred. rewrite Hdb, Himg, Htxt.
  rewrite (too_short text core Hcore).
  split.
  - intros Hshort. by rewrite bool_decide_eq_true_2.
  - intros Hlong c Hc Hinj Hdrawn. rewrite bool_decide_eq_false_2 by lia.
    unfold in_world, new_dict. mred.
    match goal with |- context [add_text env db text (Some ?l) ?w1] =>
      destruct (add_text_run env db text (Some l) w1 c) as (w' & Hrun & Hq & Hu & Hl);
        [done|];
      assert (dict_at l w1 = {[ "source" := VStr "screenshot_full" ]}) as Hmd
        by (unfold dict_at; cbn [heap outside set_outside set_heap]; by rewrite lookup_insert_eq)
    end.
    rewrite Hmd in *. cbn [id qdrant] in *. rewrite Hrun. mred.
    cbn [outside set_outside]. rewrite Hq.
    assert (points c !! uuid4 env (uuid_drawn (outside s)) = None) as Hfresh
      by (eapply drawn_fresh; eauto).
    exists (uuid4 env (uuid_drawn (outside s))),
      (add_text_payload text (now_isoformat env (clock_reads (outside s)))
         {[ "source" := VStr "screenshot_full" ]}).
    split; [done|]. split; [exact Hfresh|].
    unfold add_text_payload.
    split; [apply lookup_insert_eq|].
    split.
    { rewrite lookup_insert_ne by done. case_bool_decide.
      - apply lookup_singleton_eq.
      - rewrite lookup_insert_ne by done. apply lookup_singleton_eq. }
    split; [done|]. by apply map_size_insert_None.
Qed.

End api_lemmas.

(** ** Runs on the concrete environment *)

(** C4. [add_texts_batch(["a", "b"])] without metadatas allocates one
    dictionary and uses it for both texts: the second point carries the
    timestamp stamped for the first (the clock is read a second time and the
    reading dropped), and the one dictionary ends up holding the last text.
    Two [add_text] calls stamp the second point with its own reading. *)
Theorem add_texts_batch_shares_default_metadata :
  (∃ w',
      add_texts_batch demo_env demo_db ["a"; "b"] None demo_world
        = (Returns ["0"; "1"], w')
      ∧ stored_payload w' "book_knowledge" "0"
        = Some {[ "text" := VStr "a"; "timestamp" := VStr "T0" ]}
      ∧ stored_payload w' "book_knowledge" "1"
        = Some {[ "text" := VStr "b"; "timestamp" := VStr "T0" ]}
      ∧ heap w' = {[ 0 := {[ "text" := VStr "b"; "timestamp" := VStr "T0" ]} ]}
      ∧ clock_reads w' = 2)
  ∧ (∃ w2,
      (add_text demo_env demo_db "a" None;; add_text demo_env demo_db "b" None)
        demo_world = (Returns "1", w2)
      ∧ stored_payload w2 "book_knowledge" "0"
        = Some {[ "text" := VStr "a"; "timestamp" := VStr "T0" ]}
      ∧ stored_payload w2 "book_knowledge" "1"
        = Some {[ "text" := VStr "b"; "timestamp" := VStr "T1" ]}).
Proof.
  split; eexists; (split; [vm_compute; reflexivity|]); vm_compute; done.
Qed.




Lemma initialization_status_transitions_once_witness :
  let es := [api_backend.Request "GET" "/api/health" (form ∅);
             api_backend.InitThreadRuns;
             api_backend.Request "POST" "/api/capture/full" (form ∅);
             api_backend.InitThreadRuns] in
  api_backend.changes
    ((λ p, api_backend.initialization_status (api_backend.globals p))
       <$> api_backend.run demo_env es (api_backend.launched empty_world)) ≤ 1
  ∧ api_backend.initialization_status
      (api_backend.globals (api_backend.after demo_env es (api_backend.launched empty_world)))
    = all_ready
  ∧ api_backend.init_thread_pending
      (api_backend.step demo_env api_backend.InitThreadRuns
         (api_backend.launched empty_world)) = false.
Proof.
  intros es.
  pose proof (initialization_status_transitions_once demo_env empty_world es)
    as (Hchanges & _ & _ & Hstep & Hstable).
  split; [exact Hchanges|]. split.
  - rewrite (Hstable [api_backend.Request "GET" "/api/health" (form ∅);
                      api_backend.InitThreadRuns]
               [api_backend.Request "POST" "/api/capture/full" (form ∅);
                api_backend.InitThreadRuns]).
    + vm_compute; reflexivity.
    + reflexivity.
    + vm_compute; discriminate.
  - apply (Hstep api_backend.InitThreadRuns (api_backend.launched empty_world)).
    vm_compute; discriminate.
Defined.

Lemma capture_full_screen_threshold_witness :
  (api_backend.serve (with_ocr (Returns "  “It’s”—ok  ") demo_env)
     "POST" "/api/capture/full" (form ∅) demo_ready).1
    = jsonify [("success", JBool false);
               ("message", JStr "No meaningful text found")] 200
  ∧ ∃ pid payload,
      (api_backend.serve (with_ocr (Returns " “It’s”—okay") demo_env)
         "POST" "/api/capture/full" (form ∅) demo_ready).1
        = jsonify [("success", JBool true);
                   ("message", JStr "Captured 12 characters");
                   ("text_length", JNum 12)] 200
      ∧ payload !! "text" = Some (VStr " “It’s”—okay")
      ∧ qdrant (api_backend.outside
                  (api_backend.serve (with_ocr (Returns " “It’s”—okay") demo_env)
                     "POST" "/api/capture/full" (form ∅) demo_ready).2)
          !! "book_knowledge"
        = Some {| config := {| size_ := 1; distance := COSINE |};
                  points := {[ pid := (model_encode demo_env " “It’s”—okay",
                                       payload) ]} |}.
Proof.
  assert (qdrant (api_backend.outside demo_ready) !! "book_knowledge"
    = Some {| config := {| size_ := 1; distance := COSINE |}; points := ∅ |})
    as Hc by (vm_compute; reflexivity).
  split.
  - apply (proj1 (capture_full_screen_threshold
                    (with_ocr (Returns "  “It’s”—ok  ") demo_env) (form ∅) demo_ready
                    demo_db (Raster 0 0 []) "  “It’s”—ok  " _
                    eq_refl eq_refl eq_refl stripped_quote)).
    vm_compute; lia.
  - destruct (proj2 (capture_full_screen_threshold
                       (with_ocr (Returns " “It’s”—okay") demo_env) (form ∅) demo_ready
                       demo_db (Raster 0 0 []) " “It’s”—okay" _
                       eq_refl eq_refl eq_refl stripped_longer_quote))
      with (c := {| config := {| size_ := 1; distance := COSINE |}; points := ∅ |})
      as (pid & payload & Hresp & _ & Htext & _ & Hq & _).
    + vm_compute; lia.
    + exact Hc.
    + exact demo_uuids_distinct.
    + intros c i Hci [v Hv].
      change (collection_name demo_db) with "book_knowledge" in Hci.
      rewrite Hc in Hci. injection Hci as <-.
      cbn [points] in Hv. by rewrite lookup_empty in Hv.
    + exists pid, payload. split; [|split; [exact Htext|]].
      * etrans; [exact Hresp|]. vm_compute; reflexivity.
      * rewrite Hq. apply lookup_insert_eq.
Defined.

Lemma rag_query_pipeline_witness :
  let question := "What is the powerhouse of the cell?" in
  let s := api_backend.globals
             (api_backend.after demo_page_env demo_events
                (api_backend.launched empty_world)) in
  let served := api_backend.serve demo_page_env "POST" "/api/query"
                  (form {[ "query" := question ]}) s in
  let answer := "Answer: " +:+ demo_page +:+ " | " +:+ question in
  (∃ docs srcs,
      body served.1
      = JObj [("response", JStr answer);
              ("sources", JArr (json_of_source <$> srcs));
              ("success", JBool true)]
      ∧ length srcs = 2 `min` length docs
      ∧ Forall2 cites srcs (take 2 docs))
  ∧ body served.1
    = JObj [("response", JStr answer);
            ("sources",
             JArr [json_of_source
                     {| src_content := "Notes — “cells”" +:+ String newline ""
                                         +:+ dashes 134;
                        src_metadata := {[ "_id" := VStr "0";
                                           "_collection_name" := VStr "book_knowledge" ]} |}]);
            ("success", JBool true)]
  ∧ (∃ docs snippets w',
      Forall2 (λ snippet doc, first_chars 150 (page_content doc) snippet)
        snippets (take 2 docs)
      ∧ menubar_app.handle_query demo_page_env question demo_app_page
        = (Returns (answer +:+ sources_text snippets),
           menubar_app.set_outside w' demo_app_page))
  ∧ (menubar_app.handle_query demo_page_env question demo_app_page).1
    = Returns (answer +:+ menubar_app.nl +:+ menubar_app.nl +:+ "📚 Sources:"
                 +:+ menubar_app.nl +:+ menubar_app.nl
                 +:+ "1. Notes — “cells” " +:+ dashes 134 +:+ "...").
Proof.
  intros question s served answer.
  pose proof (rag_query_pipeline demo_page_env empty_world demo_events
                (form {[ "query" := question ]}) demo_app_page question)
    as [Hapi Hmenu].
  split; [|split; [|split]].
  - destruct Hapi
      as (fields & q & c & ranking & docs & answer' & srcs
          & _ & _ & _ & _ & _ & _ & Hllm & _ & Hbody & Hlen & Hcites);
      [vm_compute; reflexivity|].
    exists docs, srcs. split; [|split; [exact Hlen|exact Hcites]].
    etrans; [exact Hbody|].
    assert (body served.1
            = JObj [("response", JStr answer);
                    ("sources",
                     JArr [json_of_source
                             {| src_content := slice_to 150 demo_page;
                                src_metadata := {[ "_id" := VStr "0";
                                                   "_collection_name"
                                                     := VStr "book_knowledge" ]} |}]);
                    ("success", JBool true)]) as Hrun
      by (vm_compute; reflexivity).
    pose proof (eq_trans (eq_sym Hrun) Hbody) as Heq.
    injection Heq as Hanswer _. by rewrite Hanswer.
  - vm_compute; reflexivity.
  - assert (∃ resp w',
        RetrievalQA_invoke demo_page_env book_knowledge_chain question
          (menubar_app.outside demo_app_page)
        = (Returns resp, w') ∧ result resp = answer) as (resp & w' & Hrun & Hres)
      by (vm_compute; eexists _, _; split; reflexivity).
    destruct (Hmenu eq_refl resp w' Hrun)
      as (c & ranking & docs & snippets & _ & _ & _ & _ & _ & _ & Hsnip & Hq).
    exists docs, snippets, w'. split; [exact Hsnip|]. by rewrite <- Hres.
  - vm_compute; reflexivity.
Defined.

(** C1, as the claim has it for the menu-bar host: the result carries, for
    each cited document, its metadata beside the snippet.  The text
    [handle_query] returns is the same for two stores that hold the same
    text under different ids, while the metadata of the retrieved documents
    differ: no reading of the text gives the metadata back. *)
Lemma rag_query_pipeline_counterexample :
  ¬ (∃ entries : string → list source,
       ∀ (app : menubar_app.SecondBrainApp) (resp : QAResponse) (w' : world)
         (text : string),
         menubar_app.qa_chain app = Some book_knowledge_chain →
         RetrievalQA_invoke demo_env book_knowledge_chain
           "What is the powerhouse of the cell?" (menubar_app.outside app)
           = (Returns resp, w') →
         (menubar_app.handle_query demo_env "What is the powerhouse of the cell?" app).1
           = Returns text →
         Forall2 cites (entries text) (take 2 (source_documents resp))).
Proof.
  intros [entries H].
  set (question := "What is the powerhouse of the cell?") in *.
  set (answer := "Answer: The mitochondria is the powerhouse of the cell. | "
                   +:+ question).
  set (doc := λ pid,
         {| page_content := "The mitochondria is the powerhouse of the cell.";
            metadata := {[ "_id" := VStr pid;
                           "_collection_name" := VStr "book_knowledge" ]} |}).
  set (text := (menubar_app.handle_query demo_env question demo_app).1).
  assert (∃ t, text = Returns t) as [t Ht] by (vm_compute; by eexists).
  pose proof (H demo_app {| result := answer; source_documents := [doc "0"] |}
                (RetrievalQA_invoke demo_env book_knowledge_chain question
                   (menubar_app.outside demo_app)).2 t eq_refl) as H0.
  pose proof (H demo_app_again {| result := answer; source_documents := [doc "1"] |}
                (RetrievalQA_invoke demo_env book_knowledge_chain question
                   (menubar_app.outside demo_app_again)).2 t eq_refl) as H1.
  assert (Forall2 cites (entries t) [doc "0"]) as Hc0.
  { apply H0; [vm_compute; reflexivity|exact Ht]. }
  assert (Forall2 cites (entries t) [doc "1"]) as Hc1.
  { apply H1; [vm_compute; reflexivity|].
    rewrite <- Ht. vm_compute; reflexivity. }
  destruct (entries t) as [|src rest]; [inversion Hc0|].
  apply Forall2_cons in Hc0 as [[Hm0 _] _].
  apply Forall2_cons in Hc1 as [[Hm1 _] _].
  rewrite Hm0 in Hm1. apply (f_equal (.!! "_id")) in Hm1.
  vm_compute in Hm1. discriminate Hm1.
Qed.

(** * Further properties *)

(** ** Search *)

Section search_props.
Context (env : Env).

Lemma scored_stored sim c h :
  h ∈ scored sim c →
  ∃ v, points c !! sp_id h = Some (v, sp_payload h) ∧ score h = sim v.
Proof.
  unfold scored. intros Hin. apply list_elem_of_fmap in Hin as ([i [v pl]] & -> & Hin).
  apply elem_of_map_to_list in Hin. exists v. done.
Qed.

Lemma scored_length sim c : length (scored sim c) = size (points c).
Proof. unfold scored. by rewrite length_fmap, length_map_to_list. Qed.

(** X3. On an existing collection, search returns min(limit, number of stored
    points) hits, ordered by decreasing score; every hit is a stored point
    with its payload and the score of its vector against the encoded query,
    and no stored point that was left out scores higher than a returned one. *)
Theorem search_top_k self query limit w c :
  qdrant w !! collection_name self = Some c →
  let sim := similarity env (model_encode env query) in
  ∃ hits,
    search env self query limit w
      = (Returns hits, log_call (CSearch (collection_name self) limit) w)
    ∧ length hits = limit `min` size (points c)
    ∧ StronglySorted nearer hits
    ∧ (∀ h, h ∈ hits →
         ∃ v, points c !! sp_id h = Some (v, sp_payload h) ∧ score h = sim v)
    ∧ (∀ x, x ∈ scored sim c → x ∉ hits → ∀ h, h ∈ hits → (score x ≤ score h)%Z).
Proof.
  intros Hc sim. unfold search, client_search. mred. rewrite Hc.
  fold sim. set (sorted := merge_sort nearer (scored sim c)).
  assert (StronglySorted nearer sorted) as Hs
    by (apply StronglySorted_merge_sort; apply _).
  assert (sorted ≡ₚ scored sim c) as Hp by apply merge_sort_Permutation.
  exists (take limit sorted). split; [done|]. split.
  { rewrite length_take, Hp, scored_length. lia. }
  rewrite <- (take_drop limit sorted) in Hs.
  split; [by apply StronglySorted_app_1_l in Hs|].
  split.
  - intros h Hh. apply scored_stored. rewrite <- Hp.
    rewrite <- (take_drop limit sorted). apply elem_of_app. by left.
  - intros x Hx Hnot h Hh. rewrite <- Hp, <- (take_drop limit sorted) in Hx.
    apply elem_of_app in Hx as [Hx|Hx]; [done|].
    by apply (StronglySorted_app_1_elem_of _ _ _ h x) in Hs.
Qed.

(** X2. When the collection does not exist in Qdrant (for instance after it was
    deleted from outside), search, get_stats, add_text and add_texts_batch all
    raise the service's not-found error and none of them creates the
    collection or changes any other. *)
Theorem store_operations_need_collection self w :
  qdrant w !! collection_name self = None →
  let gone := missing_collection (collection_name self) in
  (∀ query limit,
      (search env self query limit w).1 = Raises gone
      ∧ qdrant (search env self query limit w).2 = qdrant w)
  ∧ ((get_stats self w).1 = Raises gone ∧ qdrant (get_stats self w).2 = qdrant w)
  ∧ (∀ text metadata,
      (add_text env self text metadata w).1 = Raises gone
      ∧ qdrant (add_text env self text metadata w).2 = qdrant w)
  ∧ (∀ texts metadatas,
      (add_texts_batch env self texts metadatas w).1 = Raises gone
      ∧ qdrant (add_texts_batch env self texts metadatas w).2 = qdrant w).
Proof.
  intros Hc gone. split; [|split; [|split]].
  - intros query limit. unfold search, client_search. mred. by rewrite Hc.
  - unfold get_stats, client_get_collection. mred. by rewrite Hc.
  - intros text metadata. unfold add_text, uuid4_str, new_dict, dict_contains,
      dict_set, dict_snapshot, datetime_now_isoformat, client_upsert. mred.
    destruct metadata as [d|]; mred;
      match goal with |- context [negb ?b] => destruct b end; cbn [negb]; mred;
      by rewrite Hc.
  - intros texts metadatas. unfold add_texts_batch, new_dict. mred.
    destruct metadatas as [ms|]; mred;
      match goal with |- context [batch_points env ?items [] ?w1] =>
        destruct (batch_points_run env items [] w1) as (pts & w' & -> & _ & Hq & _)
      end; unfold client_upsert; mred; rewrite Hq; cbn [qdrant set_heap];
      by rewrite Hc.
Qed.

End search_props.

(** ** Adding, then searching *)

Section round_trip_props.
Context (env : Env).

Lemma scored_elem sim c i v pl :
  points c !! i = Some (v, pl) →
  {| sp_id := i; score := sim v; sp_payload := pl |} ∈ scored sim c.
Proof.
  intros H. unfold scored. apply list_elem_of_fmap.
  exists (i, (v, pl)). split; [done|]. by apply elem_of_map_to_list.
Qed.

Lemma search_run self query limit w c :
  qdrant w !! collection_name self = Some c →
  search env self query limit w
    = (Returns (take limit
                  (merge_sort nearer
                     (scored (similarity env (model_encode env query)) c))),
       log_call (CSearch (collection_name self) limit) w).
Proof. intros Hc. unfold search, client_search. mred. by rewrite Hc. Qed.

(** X4. After add_text stored a text, a search whose limit exceeds the number of
    points held before returns a hit with the returned id, whose payload
    carries the text and whose score is the similarity of the encoded query
    and the encoded text. *)
Theorem add_text_then_search self text metadata query limit w c :
  qdrant w !! collection_name self = Some c →
  S (size (points c)) ≤ limit →
  ∃ pid w1 hits h,
    add_text env self text metadata w = (Returns pid, w1)
    ∧ (search env self query limit w1).1 = Returns hits
    ∧ h ∈ hits
    ∧ sp_id h = pid
    ∧ sp_payload h !! "text" = Some (VStr text)
    ∧ score h = similarity env (model_encode env query) (model_encode env text).
Proof.
  intros Hc Hlimit.
  destruct (add_text_run env self text metadata w c Hc) as (w1 & Hrun & Hq & _).
  cbn [id] in Hrun.
  set (given := match metadata with Some d => dict_at d w | None => ∅ end) in *.
  set (pl := add_text_payload text (now_isoformat env (clock_reads w)) given) in *.
  set (pid := uuid4 env (uuid_drawn w)) in *.
  set (c1 := store_points [ {| id := pid; vector := model_encode env text; payload := pl |} ] c) in *.
  assert (qdrant w1 !! collection_name self = Some c1) as Hc1
    by (by rewrite Hq, lookup_insert_eq).
  set (sim := similarity env (model_encode env query)).
  set (h := {| sp_id := pid; score := sim (model_encode env text); sp_payload := pl |}).
  exists pid, w1, (take limit (merge_sort nearer (scored sim c1))), h.
  split; [done|]. rewrite (search_run self query limit w1 c1 Hc1). split; [done|].
  split; [|split; [done|split; [apply lookup_insert_eq|done]]].
  rewrite take_ge.
  - rewrite merge_sort_Permutation. apply scored_elem.
    unfold c1, store_points. cbn. apply lookup_insert_eq.
  - rewrite merge_sort_Permutation, scored_length. unfold c1, store_points.
    cbn [points foldl id vector payload].
    destruct (points c !! pid) eqn:Hp.
    + rewrite map_size_insert_Some by (by eexists). lia.
    + rewrite map_size_insert_None by done. lia.
Qed.

(** [add_text] on the caller's own dictionary. *)
Lemma add_text_run_dict self text d w c :
  qdrant w !! collection_name self = Some c →
  let payload := add_text_payload text (now_isoformat env (clock_reads w)) (dict_at d w) in
  let pt := {| id := uuid4 env (uuid_drawn w); vector := model_encode env text;
               payload := payload |} in
  ∃ w',
    add_text env self text (Some d) w = (Returns (id pt), w')
    ∧ dict_at d w' = payload
    ∧ qdrant w' = <[collection_name self := store_points [pt] c]> (qdrant w)
    ∧ calls w' = calls w ++ [CUpsert (collection_name self) [pt]].
Proof.
  intros Hc payload pt. subst pt payload. unfold add_text_payload.
  unfold add_text, uuid4_str, dict_contains, dict_set, dict_snapshot,
    datetime_now_isoformat, client_upsert, dict_at. mred.
  destruct (bool_decide (is_Some (default ∅ (heap w !! d) !! "timestamp")));
    cbn [negb]; mred; rewrite Hc; mred; rewrite ?lookup_insert_eq;
    cbn [default from_option Datatypes.id];
    (eexists; split; [reflexivity|]); mred; rewrite ?lookup_insert_eq;
    cbn [default from_option Datatypes.id]; done.
Qed.

Lemma add_text_payload_stamp text now md :
  add_text_payload text now md !! "timestamp"
  = Some (default (VStr now) (md !! "timestamp")).
Proof.
  unfold add_text_payload. rewrite lookup_insert_ne by done.
  case_bool_decide as Hts.
  - destruct Hts as [v Hv]. by rewrite Hv.
  - rewrite lookup_insert_eq. destruct (md !! "timestamp"); [|done].
    exfalso. apply Hts. by eexists.
Qed.

(** X5. add_text writes 'text' and 'timestamp' into the metadata dictionary the
    caller passed, not into a copy: after the call the caller's dictionary
    equals the stored payload, and a second add_text with the same dictionary
    stores the new text under the first call's timestamp, since the key is
    then present. *)
Theorem add_text_writes_callers_dict self text1 text2 d w c :
  qdrant w !! collection_name self = Some c →
  ∃ id1 id2 w1 w2 payload1 payload2,
    add_text env self text1 (Some d) w = (Returns id1, w1)
    ∧ add_text env self text2 (Some d) w1 = (Returns id2, w2)
    ∧ calls w2 = calls w
        ++ [CUpsert (collection_name self)
              [ {| id := id1; vector := model_encode env text1; payload := payload1 |} ];
            CUpsert (collection_name self)
              [ {| id := id2; vector := model_encode env text2; payload := payload2 |} ]]
    ∧ dict_at d w1 = payload1
    ∧ dict_at d w2 = payload2
    ∧ payload1 !! "text" = Some (VStr text1)
    ∧ payload2 !! "text" = Some (VStr text2)
    ∧ payload1 !! "timestamp"
      = Some (default (VStr (now_isoformat env (clock_reads w)))
                (dict_at d w !! "timestamp"))
    ∧ payload2 !! "timestamp" = payload1 !! "timestamp".
Proof.
  intros Hc.
  destruct (add_text_run_dict self text1 d w c Hc) as (w1 & Hrun1 & Hd1 & Hq1 & Hl1).
  assert (qdrant w1 !! collection_name self = Some
    (store_points [ {| id := uuid4 env (uuid_drawn w); vector := model_encode env text1;
                       payload := add_text_payload text1 (now_isoformat env (clock_reads w))
                                    (dict_at d w) |} ] c)) as Hc1
    by (by rewrite Hq1, lookup_insert_eq).
  destruct (add_text_run_dict self text2 d w1 _ Hc1) as (w2 & Hrun2 & Hd2 & Hq2 & Hl2).
  cbn [id] in *. eexists _, _, w1, w2, _, _.
  split; [exact Hrun1|]. split; [exact Hrun2|].
  split; [by rewrite Hl2, Hl1, <- app_assoc|].
  split; [exact Hd1|]. split; [exact Hd2|].
  split; [apply lookup_insert_eq|]. split; [apply lookup_insert_eq|].
  split; [apply add_text_payload_stamp|].
  rewrite !add_text_payload_stamp, Hd1, add_text_payload_stamp. done.
Qed.

End round_trip_props.

(** ** Batches *)

Section batch_props.
Context (env : Env).

(** X6. add_texts_batch with a metadatas list pairs texts and metadatas with zip:
    it stores and returns min(len(texts), len(metadatas)) points, with ids
    drawn in order, in one upsert; surplus texts are dropped without an error. *)
Theorem add_texts_batch_truncates self texts ms w c :
  qdrant w !! collection_name self = Some c →
  ∃ pts w',
    add_texts_batch env self texts (Some ms) w = (Returns (id <$> pts), w')
    ∧ length pts = length texts `min` length ms
    ∧ id <$> pts = uuid4 env <$> seq (uuid_drawn w) (length texts `min` length ms)
    ∧ calls w' = calls w ++ [CUpsert (collection_name self) pts]
    ∧ qdrant w' = <[collection_name self := store_points pts c]> (qdrant w).
Proof.
  intros Hc. unfold add_texts_batch. mred.
  set (items := zip texts (zip (model_encode env <$> texts) ms)).
  assert (length items = length texts `min` length ms) as Hlen.
  { unfold items. rewrite !length_zip_with, length_fmap. lia. }
  destruct (batch_points_run env items [] w) as (pts & w1 & Hrun & Hids & Hq & _ & _ & Hl).
  rewrite Hrun. cbn [app]. unfold client_upsert. mred. rewrite Hq, Hc.
  exists pts. eexists. split; [done|]. mred. rewrite Hlen in Hids.
  split; [by rewrite <- (length_fmap id), Hids, length_fmap, length_seq|].
  split; [done|]. by rewrite Hl, Hq.
Qed.

Lemma batch_payload_as_add_text text now md :
  <["text" := VStr text]>
    (<["timestamp" := default (VStr now) (md !! "timestamp")]> md)
  = add_text_payload text now md.
Proof.
  unfold add_text_payload. case_bool_decide as Hts.
  - destruct Hts as [v Hv]. rewrite Hv. cbn. by rewrite (insert_id md "timestamp" v).
  - destruct (md !! "timestamp") eqn:Hv; [|done]. exfalso. apply Hts. by eexists.
Qed.

(** A batch over pairwise different dictionaries: each point is built as
    [add_text] would build it at that clock reading. *)
Lemma batch_points_distinct items pts w :
  NoDup (items.*2.*2) →
  ∃ new w',
    batch_points env items pts w = (Returns (pts ++ new), w')
    ∧ length new = length items
    ∧ ∀ i text embedding d p,
        items !! i = Some (text, (embedding, d)) → new !! i = Some p →
        id p = uuid4 env (uuid_drawn w + i)
        ∧ vector p = embedding
        ∧ payload p
          = add_text_payload text (now_isoformat env (clock_reads w + i)) (dict_at d w).
Proof.
  revert pts w. induction items as [|[text [embedding d]] rest IH]; intros pts w Hnd.
  - exists [], w. cbn. rewrite app_nil_r. split; [done|]. split; [done|].
    intros i ????. by rewrite lookup_nil.
  - cbn [fmap list_fmap snd] in Hnd. apply NoDup_cons in Hnd as [Hd Hnd].
    cbn [batch_points]. unfold uuid4_str, datetime_now_isoformat, dict_get, dict_set,
      dict_snapshot. mred.
    match goal with |- context [batch_points env rest (pts ++ [?p0]) ?w1] =>
      destruct (IH (pts ++ [p0]) w1 Hnd) as (new & w' & Hrun & Hlen & Hnew);
      set (pt := p0) in *;
      assert (∀ d', d' ≠ d → dict_at d' w1 = dict_at d' w) as Hother;
      [| assert (uuid_drawn w1 = S (uuid_drawn w)) as Hu by done;
         assert (clock_reads w1 = S (clock_reads w)) as Hk by done ]
    end.
    { intros d' Hne. unfold dict_at. cbn [heap set_heap set_clock_reads set_uuid_drawn].
      by rewrite !lookup_insert_ne. }
    rewrite Hrun. exists (pt :: new), w'. rewrite <- app_assoc. split; [done|].
    split; [cbn; lia|].
    intros i t e d' p Hit Hp. destruct i as [|i].
    + cbn in Hit, Hp. injection Hit as -> -> ->. injection Hp as <-.
      rewrite !Nat.add_0_r. split; [done|]. split; [done|]. unfold pt. cbn [payload].
      unfold dict_at. cbn [heap set_heap set_clock_reads set_uuid_drawn].
      rewrite !lookup_insert_eq. cbn [default from_option Datatypes.id].
      apply batch_payload_as_add_text.
    + cbn in Hit, Hp. destruct (Hnew i t e d' p Hit Hp) as (Hi & Hv & Hpl).
      rewrite Hu in Hi. rewrite Hk in Hpl.
      replace (uuid_drawn w + S i) with (S (uuid_drawn w) + i) by lia.
      replace (clock_reads w + S i) with (S (clock_reads w) + i) by lia.
      split; [done|]. split; [done|]. rewrite Hpl. f_equal. apply Hother.
      intros ->. apply Hd. apply list_elem_of_lookup_2 in Hit.
      apply (list_elem_of_fmap_2 snd) in Hit. by apply (list_elem_of_fmap_2 snd) in Hit.
Qed.

(** X7. add_texts_batch over as many pairwise different metadata dictionaries as
    texts: the i-th point has the i-th drawn id, the encoding of the i-th text
    and the payload add_text would build from the i-th dictionary at the i-th
    clock reading, and all points go out in one upsert. *)
Theorem add_texts_batch_own_metadata self texts ms w c :
  qdrant w !! collection_name self = Some c →
  length ms = length texts →
  NoDup ms →
  ∃ pts w',
    add_texts_batch env self texts (Some ms) w = (Returns (id <$> pts), w')
    ∧ calls w' = calls w ++ [CUpsert (collection_name self) pts]
    ∧ length pts = length texts
    ∧ ∀ i text d, texts !! i = Some text → ms !! i = Some d →
        ∃ p, pts !! i = Some p
          ∧ id p = uuid4 env (uuid_drawn w + i)
          ∧ vector p = model_encode env text
          ∧ payload p
            = add_text_payload text (now_isoformat env (clock_reads w + i))
                (dict_at d w).
Proof.
  intros Hc Hlen Hnd. unfold add_texts_batch. mred.
  set (items := zip texts (zip (model_encode env <$> texts) ms)).
  assert (items.*2.*2 = ms) as Hms.
  { unfold items. rewrite snd_zip by (rewrite length_zip_with, length_fmap; lia).
    rewrite snd_zip by (rewrite length_fmap; lia). done. }
  assert (length items = length texts) as Hitems.
  { unfold items. rewrite !length_zip_with, length_fmap. lia. }
  destruct (batch_points_distinct items [] w) as (pts & w1 & Hrun & Hl & Hpts);
    [by rewrite Hms|].
  destruct (batch_points_run env items [] w) as (pts' & w1' & Hrun' & _ & Hq & _ & _ & Hcalls).
  rewrite Hrun in Hrun'. injection Hrun' as <- <-.
  rewrite Hrun. cbn [app]. unfold client_upsert. mred. rewrite Hq, Hc.
  exists pts. eexists. split; [done|]. mred. split; [by rewrite Hcalls|].
  split; [lia|].
  intros i text d Ht Hd.
  assert (items !! i = Some (text, (model_encode env text, d))) as Hit.
  { unfold items. apply lookup_zip_with_Some. exists text, (model_encode env text, d).
    split; [done|]. split; [done|]. apply lookup_zip_with_Some.
    exists (model_encode env text), d. split; [done|]. split; [|done].
    by rewrite list_lookup_fmap, Ht. }
  destruct (lookup_lt_is_Some_2 pts i) as [p Hp].
  { rewrite Hl. by apply lookup_lt_Some in Hit. }
  exists p. split; [done|]. by apply (Hpts i text _ d p).
Qed.

End batch_props.

(** ** What the handlers keep *)

Section store_growth.
Context (env : Env).

Lemma wgrows_get_stats db : wgrows (get_stats db).
Proof.
  intros w n Hn. unfold get_stats, client_get_collection. mred.
  by destruct (qdrant w !! collection_name db).
Qed.

Lemma wgrows_invoke qa question : wgrows (RetrievalQA_invoke env qa question).
Proof. intros w n Hn. by rewrite RetrievalQA_invoke_store. Qed.

Lemma wgrows_new_dict d : wgrows (new_dict d).
Proof. by intros w n Hn. Qed.

Lemma add_text_missing self text metadata w :
  qdrant w !! collection_name self = None →
  (add_text env self text metadata w).1 = Raises (missing_collection (collection_name self))
  ∧ qdrant (add_text env self text metadata w).2 = qdrant w.
Proof.
  intros Hc. unfold add_text, uuid4_str, new_dict, dict_contains,
    dict_set, dict_snapshot, datetime_now_isoformat, client_upsert. mred.
  destruct metadata as [d|]; mred;
    match goal with |- context [negb ?b] => destruct b end; cbn [negb]; mred;
    by rewrite Hc.
Qed.

Lemma wgrows_add_text self text metadata : wgrows (add_text env self text metadata).
Proof.
  intros w n Hn. destruct (qdrant w !! collection_name self) as [c|] eqn:Hc.
  - destruct (add_text_run env self text metadata w c Hc) as (w' & Hrun & Hq & _).
    rewrite Hrun. cbn [snd]. rewrite Hq. destruct (decide (collection_name self = n)) as [->|Hne].
    + rewrite lookup_insert_eq. eauto.
    + by rewrite lookup_insert_ne.
  - by rewrite (proj2 (add_text_missing self text metadata w Hc)).
Qed.

Lemma wgrows_VectorDatabase_init name : wgrows (VectorDatabase_init env name).
Proof.
  intros w n Hn. unfold VectorDatabase_init, construct.
  destruct (load_fault env CompSentenceTransformer); mred; [done|].
  destruct (load_fault env CompQdrantClient); mred; [done|].
  set (self0 := {| collection_name := name;
                   embedding_dim := sentence_embedding_dimension env |}).
  destruct (qdrant w !! name) as [c|] eqn:Hc.
  - by rewrite (create_if_present self0 w c Hc).
  - rewrite (create_if_absent self0 w Hc). mred.
    destruct (decide (name = n)) as [->|Hne].
    + rewrite lookup_insert_eq. eauto.
    + by rewrite lookup_insert_ne.
Qed.

End store_growth.

Section components_props.

Import api_backend.
Context (env : Env).

Section keeps.
Context {B : Type} (f : backend → B).
Hypothesis f_outside : ∀ w s, f (set_outside w s) = f s.

Lemma keeps_ret {A} (a : A) : keeps f (mret a).
Proof. by intros s. Qed.

Lemma keeps_bind {A C} (m : M backend A) (k : A → M backend C) :
  keeps f m → (∀ a, keeps f (k a)) → keeps f (m ≫= k).
Proof.
  intros Hm Hk s. specialize (Hm s). unfold mbind, M_bind.
  destruct (m s) as [[a|e] s1]; cbn in *; [|done]. by rewrite Hk.
Qed.

Lemma keeps_try {A} (m : M backend A) (h : exn → M backend A) :
  keeps f m → (∀ e, keeps f (h e)) → keeps f (try_except m h).
Proof.
  intros Hm Hh s. specialize (Hm s). unfold try_except.
  destruct (m s) as [[a|e] s1]; cbn in *; [done|]. by rewrite Hh.
Qed.

Lemma keeps_in_world {A} (m : M world A) : keeps f (in_world m).
Proof. intros s. unfold in_world, zoom. destruct (m (outside s)). apply f_outside. Qed.

Lemma keeps_gets {A} (g : backend → A) : keeps f (gets g).
Proof. by intros s. Qed.

Lemma keeps_call_out {A} (o : outcome A) : keeps f (call_out o).
Proof. by intros s. Qed.

Lemma keeps_if {A} (b : bool) (m1 m2 : M backend A) :
  keeps f m1 → keeps f m2 → keeps f (if b then m1 else m2).
Proof. by destruct b. Qed.

Lemma keeps_set_history (g : backend → list turn) :
  (∀ h s, f (set_chat_history h s) = f s) →
  keeps f (modify (λ s, set_chat_history (g s) s)).
Proof. intros Hh s. apply Hh. Qed.

End keeps.

Ltac keeps_steps :=
  repeat first
    [ apply keeps_ret | apply keeps_gets | apply keeps_call_out
    | apply keeps_in_world; intros; reflexivity
    | apply keeps_set_history; intros; reflexivity
    | apply (keeps_set_history _ (λ _, [])); intros; reflexivity
    | apply keeps_bind; [|intros ?] | apply keeps_try; [|intros ?]
    | apply keeps_if
    | match goal with |- keeps _ (match ?x with _ => _ end) => destruct x end ].

Lemma route_keeps_components method path data :
  keeps vector_db (route env method path data)
  ∧ keeps llm (route env method path data)
  ∧ keeps embeddings (route env method path data).
Proof.
  unfold route, health_check, query, capture_full_screen, get_stats, get_history,
    clear_history, clear_database, qa_chain_invoke, capture_and_extract,
    capture_screenshot, extract_text_from_image.
  split; [|split]; keeps_steps.
Qed.

Lemma grows_ret {A} (a : A) : grows (mret a).
Proof. by intros s n. Qed.

Lemma grows_bind {A C} (m : M backend A) (k : A → M backend C) :
  grows m → (∀ a, grows (k a)) → grows (m ≫= k).
Proof.
  intros Hm Hk s n Hn. specialize (Hm s n Hn). unfold mbind, M_bind.
  destruct (m s) as [[a|e] s1]; cbn in *; [|done]. by apply Hk.
Qed.

Lemma grows_try {A} (m : M backend A) (h : exn → M backend A) :
  grows m → (∀ e, grows (h e)) → grows (try_except m h).
Proof.
  intros Hm Hh s n Hn. specialize (Hm s n Hn). unfold try_except.
  destruct (m s) as [[a|e] s1]; cbn in *; [done|]. by apply Hh.
Qed.

Lemma grows_in_world {A} (m : M world A) : wgrows m → grows (in_world m).
Proof.
  intros Hm s n Hn. specialize (Hm (outside s) n Hn).
  unfold in_world, zoom. by destruct (m (outside s)).
Qed.

Lemma grows_gets {A} (g : backend → A) : grows (gets g).
Proof. by intros s n. Qed.

Lemma grows_call_out {A} (o : outcome A) : grows (call_out o).
Proof. by intros s n. Qed.

Lemma grows_if {A} (b : bool) (m1 m2 : M backend A) :
  grows m1 → grows m2 → grows (if b then m1 else m2).
Proof. by destruct b. Qed.

Lemma grows_set_history (g : backend → list turn) :
  grows (modify (λ s, set_chat_history (g s) s)).
Proof. by intros s n. Qed.

Lemma clear_database_run s db :
  vector_db s = Some db →
  clear_database s =
    (Returns (jsonify [("success", JBool true);
                       ("message", JStr "Database cleared")] 200),
     set_outside
       (set_qdrant
          (λ q, <[collection_name db :=
                    {| config := {| size_ := embedding_dim db; distance := COSINE |};
                       points := ∅ |}]> (delete (collection_name db) q))
          (log_call (CCreateCollection (collection_name db)
                       {| size_ := embedding_dim db; distance := COSINE |})
             (log_call CGetCollections
                (log_call (CDeleteCollection (collection_name db)) (outside s)))))
       s).
Proof.
  intros Hdb. unfold clear_database, in_world. mred. rewrite Hdb.
  rewrite delete_collection_run. mred. cbn [outside set_outside].
  rewrite create_if_absent by (mred; apply lookup_delete_eq).
  mred. by destruct s.
Qed.

Lemma grows_clear_database : grows clear_database.
Proof.
  intros s n Hn. destruct (vector_db s) as [db|] eqn:Hdb.
  - rewrite (clear_database_run s db Hdb). cbn.
    destruct (decide (collection_name db = n)) as [->|Hne].
    + rewrite lookup_insert_eq. eauto.
    + by rewrite lookup_insert_ne, lookup_delete_ne.
  - unfold clear_database. mred. by rewrite Hdb.
Qed.

Ltac grows_steps :=
  repeat first
    [ apply grows_ret | apply grows_gets | apply grows_call_out
    | apply grows_clear_database
    | apply grows_set_history | apply (grows_set_history (λ _, []))
    | apply grows_in_world;
        first [ apply wgrows_get_stats | apply (wgrows_invoke env)
              | apply wgrows_new_dict | apply (wgrows_add_text env) ]
    | apply grows_bind; [|intros ?] | apply grows_try; [|intros ?]
    | apply grows_if
    | match goal with |- grows (match ?x with _ => _ end) => destruct x end ].

Lemma route_grows method path data : grows (route env method path data).
Proof.
  unfold route, health_check, query, capture_full_screen, get_stats, get_history,
    clear_history, qa_chain_invoke, capture_and_extract,
    capture_screenshot, extract_text_from_image.
  grows_steps.
Qed.

Lemma serve_components method path data s :
  vector_db (serve env method path data s).2 = vector_db s
  ∧ llm (serve env method path data s).2 = llm s
  ∧ embeddings (serve env method path data s).2 = embeddings s
  ∧ ∀ n, is_Some (qdrant (outside s) !! n) →
         is_Some (qdrant (outside (serve env method path data s).2) !! n).
Proof.
  unfold serve. destruct (route_keeps_components method path data) as (Hv & Hl & He).
  specialize (Hv s). specialize (Hl s). specialize (He s).
  pose proof (route_grows method path data s) as Hg.
  by destruct (route env method path data s) as [[r|e] s'].
Qed.

Lemma initialize_components_components s :
  let s' := (initialize_components env s).2 in
  (vector_db s' = vector_db s
   ∨ vector_db s' = Some (built_db env)
     ∧ is_Some (qdrant (outside s') !! "book_knowledge"))
  ∧ (ready (initialization_status s') = true →
       vector_db s' = Some (built_db env)
       ∧ llm s' = Some "llama3.1:8b"
       ∧ embeddings s' = Some "all-MiniLM-L6-v2"
       ∧ qa_chain s' = Some book_knowledge_chain)
  ∧ (∀ n, is_Some (qdrant (outside s) !! n) → is_Some (qdrant (outside s') !! n))
  ∧ chat_history s' = chat_history s.
Proof.
  unfold initialize_components, initialize_steps, in_world, construct. mred.
  pose proof (wgrows_VectorDatabase_init env "book_knowledge" (outside s)) as Hg.
  destruct (VectorDatabase_init env "book_knowledge" (outside s)) as [[db|e] w1] eqn:Hinit;
    mred; cbn [snd] in Hg.
  - apply VectorDatabase_init_dim in Hinit as (Hname & Hdim & Hsome).
    assert (db = built_db env) as -> by (destruct db; cbn in *; by subst).
    destruct (load_fault env CompOllamaLLM); mred;
      [cbn; split; [by right|]; done|].
    destruct (load_fault env CompHuggingFaceEmbeddings); mred;
      [cbn; split; [by right|]; done|].
    destruct (load_fault env CompQdrantStore); mred;
      [cbn; split; [by right|]; done|].
    destruct (load_fault env CompRetrievalQA); mred;
      cbn; (split; [by right|]); done.
  - cbn. split; [by left|]. done.
Qed.

Lemma launched_components w : components_inv env (launched w).
Proof. split; [done|]. split; [by intros db|done]. Qed.

Lemma step_components e p : components_inv env p → components_inv env (step env e p).
Proof.
  intros Hinv. pose proof Hinv as (Hpend & Hdb & Hready).
  destruct e as [|method path data].
  - cbn [step]. destruct (init_thread_pending p) eqn:Hp; [|exact Hinv].
    specialize (Hpend eq_refl).
    destruct (initialize_components_components (globals p)) as (Hv & Hr & _).
    split; [done|]. cbn [globals]. split; [|exact Hr].
    intros db Hsome. destruct Hv as [Hv|[Hv Hc]].
    + rewrite Hv, Hpend in Hsome. done.
    + rewrite Hv in Hsome. by injection Hsome as <-.
  - destruct (step_request_status env method path data p) as (Hs & Hq & Hp).
    destruct (serve_components method path data (globals p)) as (Hv & Hl & He & Hg).
    unfold components_inv. cbn [step globals init_thread_pending] in *.
    split; [by rewrite Hv|]. split.
    + intros db Hsome. rewrite Hv in Hsome. destruct (Hdb db Hsome) as [-> Hc].
      split; [done|]. by apply Hg.
    + rewrite Hs, Hv, Hl, He, Hq. exact Hready.
Qed.

Lemma after_components es p : components_inv env p → components_inv env (after env es p).
Proof.
  revert p. induction es as [|e es IH]; intros p Hp; [done|].
  cbn. apply IH. by apply step_components.
Qed.

End components_props.

(** ** Handlers on their own *)

Section stats_props.
Context (env : Env).

Lemma get_stats_run self w c :
  qdrant w !! collection_name self = Some c →
  get_stats self w
  = (Returns {| points_count := size (points c); vectors_count := size (points c);
                status := "green" |},
     log_call (CGetCollection (collection_name self)) w).
Proof. intros Hc. unfold get_stats, client_get_collection. mred. by rewrite Hc. Qed.

Lemma get_stats_missing self w :
  qdrant w !! collection_name self = None →
  get_stats self w
  = (Raises (missing_collection (collection_name self)),
     log_call (CGetCollection (collection_name self)) w).
Proof. intros Hc. unfold get_stats, client_get_collection. mred. by rewrite Hc. Qed.

End stats_props.

Section handler_props.

Import api_backend.
Context (env : Env).

(** X13. No GET request, on any path and in any state, changes a component, the
    status, the chat history, the Qdrant store, the heap, or the number of ids
    and clock readings drawn. *)
Theorem get_requests_change_nothing (path : string) (data : request_json)
    (s : backend) :
  let s' := (serve env "GET" path data s).2 in
  vector_db s' = vector_db s
  ∧ llm s' = llm s
  ∧ qa_chain s' = qa_chain s
  ∧ embeddings s' = embeddings s
  ∧ initialization_status s' = initialization_status s
  ∧ chat_history s' = chat_history s
  ∧ qdrant (outside s') = qdrant (outside s)
  ∧ heap (outside s') = heap (outside s)
  ∧ uuid_drawn (outside s') = uuid_drawn (outside s)
  ∧ clock_reads (outside s') = clock_reads (outside s).
Proof.
  cbn zeta. unfold serve, route. repeat case_bool_decide; try done.
  unfold get_stats, in_world. mred. destruct (vector_db s) as [db|] eqn:Hdb; [|done].
  destruct (qdrant (outside s) !! collection_name db) as [c|] eqn:Hc.
  - rewrite (get_stats_run db _ c Hc). cbn. by rewrite Hdb.
  - rewrite (get_stats_missing db _ Hc). cbn. by rewrite Hdb.
Qed.

Lemma serve_capture_eq data s : serve env "POST" "/api/capture/full" data s =
  match capture_full_screen env s with
  | (Returns r, s') => (r, s')
  | (Raises e, s') => (jsonify [] 500, s')
  end.
Proof. reflexivity. Qed.

Lemma serve_stats_eq data s : serve env "GET" "/api/stats" data s =
  match get_stats s with
  | (Returns r, s') => (r, s')
  | (Raises e, s') => (jsonify [] 500, s')
  end.
Proof. reflexivity. Qed.

Lemma serve_clear_eq data s : serve env "DELETE" "/api/database" data s =
  match clear_database s with
  | (Returns r, s') => (r, s')
  | (Raises e, s') => (jsonify [] 500, s')
  end.
Proof. reflexivity. Qed.

Lemma capture_text_kept text :
  10 ≤ len (strip text) →
  bool_decide (text = "") || (len (strip text) <? 10) = false.
Proof.
  intros Hlong. apply orb_false_iff. split.
  - apply bool_decide_eq_false_2. intros ->. vm_compute in Hlong. lia.
  - apply Nat.ltb_ge. lia.
Qed.

(** A capture that reaches the store, on a store holding the collection. *)
Lemma capture_run s db image text c :
  vector_db s = Some db →
  screenshot env None = Returns image →
  image_to_string env image = Returns text →
  10 ≤ len (strip text) →
  qdrant (outside s) !! collection_name db = Some c →
  let pt := {| id := uuid4 env (uuid_drawn (outside s));
               vector := model_encode env text;
               payload := add_text_payload text
                            (now_isoformat env (clock_reads (outside s)))
                            {[ "source" := VStr "screenshot_full" ]} |} in
  ∃ w',
    capture_full_screen env s
    = (Returns (jsonify [("success", JBool true);
                         ("message", JStr ("Captured " +:+ pretty (len text)
                                             +:+ " characters"));
                         ("text_length", JNum (Z.of_nat (len text)))] 200),
       set_outside w' s)
    ∧ qdrant w' = <[collection_name db := store_points [pt] c]> (qdrant (outside s))
    ∧ calls w' = calls (outside s) ++ [CUpsert (collection_name db) [pt]].
Proof.
  intros Hdb Himg Htxt Hlong Hc pt. subst pt.
  unfold capture_full_screen, capture_and_extract, capture_screenshot,
    extract_text_from_image. mred. rewrite Hdb, Himg, Htxt.
  rewrite (capture_text_kept text Hlong).
  unfold in_world, new_dict. mred.
  match goal with |- context [add_text env db text (Some ?l) ?w1] =>
    destruct (add_text_run_dict env db text l w1 c) as (w' & Hrun & _ & Hq & Hl);
      [done|];
    assert (dict_at l w1 = {[ "source" := VStr "screenshot_full" ]}) as Hmd
      by (unfold dict_at; cbn [heap outside set_outside set_heap];
          by rewrite lookup_insert_eq)
  end.
  rewrite Hmd in *. cbn [id qdrant outside set_outside set_heap uuid_drawn clock_reads calls] in *.
  rewrite Hrun. mred. exists w'. by destruct s.
Qed.

(** X12. POST /api/capture/full: without a database it answers 503 and changes
    nothing; when the screenshot or the OCR raises it answers 500 with the
    exception text and changes nothing; when the collection is missing it
    answers 500 with the store's error and the store is unchanged. *)
Theorem capture_failures (data : request_json) (s : backend) :
  let served := serve env "POST" "/api/capture/full" data s in
  (vector_db s = None →
     served = (jsonify [("error", JStr "Vector database not ready")] 503, s))
  ∧ (∀ db e, vector_db s = Some db → screenshot env None = Raises e →
       served = (jsonify [("success", JBool false); ("error", JStr e)] 500, s))
  ∧ (∀ db image e, vector_db s = Some db → screenshot env None = Returns image →
       image_to_string env image = Raises e →
       served = (jsonify [("success", JBool false); ("error", JStr e)] 500, s))
  ∧ (∀ db image text, vector_db s = Some db → screenshot env None = Returns image →
       image_to_string env image = Returns text →
       10 ≤ len (strip text) →
       qdrant (outside s) !! collection_name db = None →
       served.1 = jsonify [("success", JBool false);
                           ("error", JStr (missing_collection (collection_name db)))] 500
       ∧ qdrant (outside served.2) = qdrant (outside s)).
Proof.
  cbn zeta. rewrite serve_capture_eq.
  unfold capture_full_screen, capture_and_extract, capture_screenshot,
    extract_text_from_image. mred.
  split; [by intros ->|]. split; [by intros db e -> ->|].
  split; [by intros db image e -> -> ->|].
  intros db image text -> -> -> Hlong Hc. rewrite (capture_text_kept text Hlong).
  unfold in_world, new_dict. mred.
  match goal with |- context [add_text env db text ?md ?w1] =>
    destruct (add_text_missing env db text md w1 Hc) as [Hr Hq];
    destruct (add_text env db text md w1) as [r w']
  end.
  cbn [fst snd] in *. subst r. mred. cbn. by rewrite Hq.
Qed.

End handler_props.

(** ** Handlers in sequence *)

Section composition_props.

Import api_backend.
Context (env : Env).

(** A 200 answer to a query, in a state the process can reach. *)
Lemma query_answered (w : world) (es : list event) (s : backend)
    (req : request_json) :
  init_inv (after env es (launched w)) →
  initialization_status s = initialization_status (globals (after env es (launched w))) →
  qa_chain s = qa_chain (globals (after env es (launched w))) →
  code (serve env "POST" "/api/query" req s).1 = 200 →
  ∃ q c docs answer,
    qdrant (outside s) !! "book_knowledge" = Some c
    ∧ documents_of book_knowledge_chain
        (take 3 (merge_sort nearer
                   (scored (similarity env (embed_query env q)) c)))
      = Returns docs
    ∧ body (serve env "POST" "/api/query" req s).1
      = JObj [("response", JStr answer);
              ("sources", JArr (json_of_source <$> (source_of <$> take 2 docs)));
              ("success", JBool true)].
Proof.
  intros Hinv Hst Hqa Hcode. rewrite serve_query in *.
  destruct (query_cases env req s)
    as [(Hr & Hq)|[(e & Hr & -> & Hq)|[(e & Hr & -> & Hq)|[(fields & Hr & -> & Ht & Hq)
       |[(fields & e & Hr & -> & Ht & Hstr & Hq)|[(fields & q & e & s1 & Hr & -> & Hv & Hne & Hi & Hq)
       |(fields & q & resp & s1 & Hr & -> & Hv & Hne & Hi & Hq)]]]]]];
    rewrite Hq in *; cbn [fst snd code body jsonify] in *; try done;
    [by destruct e|].
  unfold qa_chain_invoke, in_world in Hi. revert Hi. mred. rewrite Hqa.
  destruct Hinv as [(_ & _ & ->)|[(_ & _ & ->)|(_ & _ & ->)]]; try done.
  destruct (RetrievalQA_invoke env book_knowledge_chain q (outside s))
    as [r w1] eqn:Hrun.
  intros [= -> <-].
  apply RetrievalQA_invoke_returns in Hrun as (c & docs & Hc & Hdocs & Hllm & Hsrc & ->).
  cbn [retriever_collection search_k return_source_documents book_knowledge_chain] in *.
  exists q, c, docs, (result resp). by rewrite sources_of_docs, Hsrc.
Qed.

Lemma merge_sort_nil : merge_sort nearer [] = [].
Proof. reflexivity. Qed.

Lemma merge_sort_one h : merge_sort nearer [h] = [h].
Proof. reflexivity. Qed.

(** X15. DELETE /api/database in a reachable state with a database: the chat
    history and the status are kept, no other collection is touched,
    /api/stats afterwards reports 0 points, and a query answered with 200
    afterwards has an empty sources list. *)
Theorem clear_database_effects (w : world) (es : list event)
    (data : request_json) (db : VectorDatabase) :
  let s := globals (after env es (launched w)) in
  vector_db s = Some db →
  let s1 := (serve env "DELETE" "/api/database" data s).2 in
  chat_history s1 = chat_history s
  ∧ initialization_status s1 = initialization_status s
  ∧ (∀ other, other ≠ "book_knowledge" →
       qdrant (outside s1) !! other = qdrant (outside s) !! other)
  ∧ (serve env "GET" "/api/stats" data s1).1
    = jsonify [("success", JBool true);
               ("stats", JObj [("total_points", JNum 0); ("vectors_count", JNum 0);
                               ("status", JStr "green")])] 200
  ∧ (∀ question,
       code (serve env "POST" "/api/query" question s1).1 = 200 →
       ∃ answer,
         body (serve env "POST" "/api/query" question s1).1
         = JObj [("response", JStr answer); ("sources", JArr []);
                 ("success", JBool true)]).
Proof.
  intros s Hdb s1.
  destruct (after_components env es _ (launched_components env w)) as (_ & Hinv & _).
  destruct (Hinv db Hdb) as [-> _]. fold s in Hdb.
  assert (s1 = (clear_database s).2) as Hs1.
  { unfold s1. rewrite serve_clear_eq. by rewrite (clear_database_run s _ Hdb). }
  rewrite (clear_database_run s _ Hdb) in Hs1. cbn [snd] in Hs1.
  assert (qdrant (outside s1) !! "book_knowledge"
          = Some {| config := {| size_ := sentence_embedding_dimension env;
                                 distance := COSINE |};
                    points := ∅ |}) as Hc.
  { rewrite Hs1. cbn. apply lookup_insert_eq. }
  split; [by rewrite Hs1|]. split; [by rewrite Hs1|].
  split.
  { intros other Hne. rewrite Hs1. cbn.
    by rewrite lookup_insert_ne, lookup_delete_ne. }
  split.
  { rewrite serve_stats_eq. unfold get_stats, in_world. mred.
    assert (vector_db s1 = Some (built_db env)) as -> by (by rewrite Hs1).
    rewrite (get_stats_run (built_db env) _ _ Hc). cbn. by rewrite map_size_empty. }
  intros question Hcode.
  destruct (query_answered w es s1 question)
    as (q & c & docs & answer & Hc' & Hdocs & Hbody);
    [apply after_inv, launched_inv|by rewrite Hs1|by rewrite Hs1|done|].
  rewrite Hc in Hc'. injection Hc' as <-.
  unfold scored in Hdocs. cbn [points] in Hdocs.
  rewrite map_to_list_empty in Hdocs. cbn in Hdocs. injection Hdocs as <-.
  exists answer. exact Hbody.
Qed.

(** X16. After one capture, of a text with at least 10 characters between
    the whitespace at its ends, into an empty collection in a ready state, a
    query answered with 200 cites exactly that capture: one source, whose content
    is exactly the first 150 characters of the captured text (all of it when
    it is shorter) and whose metadata are the point's _id and
    _collection_name. *)
Theorem capture_then_query_cites (w : world) (es : list event)
    (data question : request_json) (c : collection) (image : Image)
    (text : string) (core : list string) :
  let s := globals (after env es (launched w)) in
  ready (initialization_status s) = true →
  qdrant (outside s) !! "book_knowledge" = Some c →
  points c = ∅ →
  screenshot env None = Returns image →
  image_to_string env image = Returns text →
  stripped text core →
  10 ≤ length core →
  let s1 := (serve env "POST" "/api/capture/full" data s).2 in
  code (serve env "POST" "/api/query" question s1).1 = 200 →
  ∃ answer snippet,
    first_chars 150 text snippet
    ∧ body (serve env "POST" "/api/query" question s1).1
      = JObj [("response", JStr answer);
              ("sources",
               JArr [json_of_source
                       {| src_content := snippet;
                          src_metadata :=
                            {[ "_id" := VStr (uuid4 env (uuid_drawn (outside s)));
                               "_collection_name" := VStr "book_knowledge" ]} |}]);
              ("success", JBool true)].
Proof.
  intros s Hready Hc Hempty Himg Htxt Hcore Hlen s1 Hcode.
  assert (10 ≤ len (strip text)) as Hlong by (by rewrite (stripped_len text core)).
  destruct (after_components env es _ (launched_components env w)) as (_ & _ & Hinv).
  destruct (Hinv Hready) as (Hdb & _). fold s in Hdb.
  destruct (capture_run env s (built_db env) image text c Hdb Himg Htxt Hlong Hc)
    as (w' & Hrun & Hq & _).
  assert (s1 = set_outside w' s) as Hs1.
  { unfold s1. rewrite serve_capture_eq. by rewrite Hrun. }
  destruct (query_answered w es s1 question)
    as (q & c1 & docs & answer & Hc1 & Hdocs & Hbody);
    [apply after_inv, launched_inv|by rewrite Hs1|by rewrite Hs1|done|].
  rewrite Hs1 in Hc1. cbn [outside set_outside] in Hc1.
  rewrite Hq in Hc1. cbn [collection_name built_db] in Hc1.
  rewrite lookup_insert_eq in Hc1. injection Hc1 as <-.
  revert Hdocs. unfold scored, store_points. cbn [points foldl id vector payload].
  rewrite Hempty, insert_empty, map_to_list_singleton.
  cbn [fmap list_fmap fst snd]. rewrite merge_sort_one. cbn [take documents_of].
  unfold document_of. cbn [sp_payload content_payload_key book_knowledge_chain].
  unfold add_text_payload. rewrite lookup_insert_eq.
  rewrite lookup_insert_ne by done.
  assert ((if bool_decide
                (is_Some (({[ "source" := VStr "screenshot_full" ]} : gmap string pyval)
                            !! "timestamp"))
           then ({[ "source" := VStr "screenshot_full" ]} : gmap string pyval)
           else <["timestamp" := VStr (now_isoformat env (clock_reads (outside s)))]>
                  {[ "source" := VStr "screenshot_full" ]}) !! "metadata" = None) as ->.
  { case_bool_decide; [by rewrite lookup_singleton_ne|].
    rewrite lookup_insert_ne by done. by rewrite lookup_singleton_ne. }
  cbn [sp_id retriever_collection]. intros [= <-].
  exists answer, (slice_to 150 text). split; [apply slice_to_first_chars|].
  exact Hbody.
Qed.

(** X9. If initialize_components fails with exception e, then after any later
    requests /api/health answers 200 with initialized false and message
    'Error: e', /api/query answers 503 with that message, and the QA chain is
    never set: the failure is final. *)
Theorem failed_initialization_is_reported (w : world) (es : list event)
    (data : request_json) (e : exn) :
  (initialize_steps env (imported w)).1 = Raises e →
  let s := globals (after env (InitThreadRuns :: es) (launched w)) in
  (serve env "GET" "/api/health" data s).1
    = jsonify [("status", JStr "ok"); ("initialized", JBool false);
               ("message", JStr ("Error: " +:+ e))] 200
  ∧ (serve env "POST" "/api/query" data s).1
    = jsonify [("error", JStr "System not ready yet");
               ("message", JStr ("Error: " +:+ e))] 503
  ∧ qa_chain s = None.
Proof.
  intros Hfail s.
  assert (initialization_status s = init_error e ∧ qa_chain s = None) as [Hst Hqa].
  { unfold s. cbn [after foldl]. fold (after env es (step env InitThreadRuns (launched w))).
    set (p1 := step env InitThreadRuns (launched w)).
    assert (init_thread_pending p1 = false) as Hp by done.
    assert (initialization_status (globals p1) = init_error e
            ∧ qa_chain (globals p1) = None) as [H1 H2].
    { unfold p1. cbn [step launched init_thread_pending globals].
      pose proof (initialize_components_outcome env (imported w)) as Hout.
      rewrite Hfail in Hout. exact Hout. }
    assert (init_inv p1) as Hinv1.
    { right; right. rewrite H1, H2. eauto. }
    pose proof (after_settled env es p1 Hp) as Hst.
    split; [by rewrite Hst|].
    destruct (after_inv env es p1 Hinv1) as [(_ & Hc & _)|[(_ & Hc & _)|(_ & _ & Hc)]];
      [|  |done]; rewrite Hst, H1 in Hc; discriminate Hc. }
  split; [|split; [|done]].
  - change (serve env "GET" "/api/health" data s) with (jsonify [("status", JStr "ok");
               ("initialized", JBool (ready (initialization_status s)));
               ("message", JStr (message (initialization_status s)))] 200, s).
    by rewrite Hst.
  - rewrite serve_query, query_not_ready by (by rewrite Hst). by rewrite Hst.
Qed.

Lemma VectorDatabase_init_returns name w :
  load_fault env CompQdrantClient = None →
  load_fault env CompSentenceTransformer = None →
  ∃ w', VectorDatabase_init env name w
        = (Returns {| collection_name := name;
                      embedding_dim := sentence_embedding_dimension env |}, w').
Proof.
  intros Hf1 Hf2. unfold VectorDatabase_init, construct. rewrite Hf1, Hf2. mred.
  set (self0 := {| collection_name := name;
                   embedding_dim := sentence_embedding_dimension env |}).
  destruct (qdrant w !! name) as [c|] eqn:Hc.
  - rewrite (create_if_present self0 w c Hc). by eexists.
  - rewrite (create_if_absent self0 w Hc). by eexists.
Qed.

Lemma after_keeps_database es p :
  vector_db (globals p) = Some (built_db env) →
  vector_db (globals (after env es p)) = Some (built_db env).
Proof.
  revert p. induction es as [|ev es IH]; intros p Hv; [done|].
  cbn. apply IH. destruct ev as [|method path d].
  - cbn [step]. destruct (init_thread_pending p) eqn:Hpp; [|done].
    cbn [globals].
    by destruct (initialize_components_components env (globals p)) as ([->|[-> _]] & _).
  - cbn [step globals]. by rewrite (proj1 (serve_components env method path d (globals p))).
Qed.

(** X10. If Qdrant and the embedding model load but the LLM does not,
    initialization ends in the error status with the database already
    assigned, and after any later requests /api/capture/full, for a text
    with at least 10 characters between the whitespace at its ends, still
    answers 200 with the number of characters of the text and stores the capture:
    the collection gains the point of that text, and nothing else in the
    store changes. *)
Theorem capture_works_after_partial_initialization (w : world) (es : list event)
    (data : request_json) (e : exn) (image : Image) (text : string)
    (core : list string) :
  load_fault env CompQdrantClient = None →
  load_fault env CompSentenceTransformer = None →
  load_fault env CompOllamaLLM = Some e →
  screenshot env None = Returns image →
  image_to_string env image = Returns text →
  stripped text core →
  10 ≤ length core →
  let s := globals (after env (InitThreadRuns :: es) (launched w)) in
  let served := serve env "POST" "/api/capture/full" data s in
  initialization_status s = init_error e
  ∧ vector_db s = Some (built_db env)
  ∧ served.1
    = jsonify [("success", JBool true);
               ("message", JStr ("Captured " +:+ pretty (length (chars text))
                                   +:+ " characters"));
               ("text_length", JNum (Z.of_nat (length (chars text))))] 200
  ∧ ∃ c,
      qdrant (outside s) !! "book_knowledge" = Some c
      ∧ qdrant (outside served.2)
        = <["book_knowledge" :=
              {| config := config c;
                 points := <[uuid4 env (uuid_drawn (outside s)) :=
                               (model_encode env text,
                                add_text_payload text
                                  (now_isoformat env (clock_reads (outside s)))
                                  {[ "source" := VStr "screenshot_full" ]})]>
                             (points c) |}]>
            (qdrant (outside s)).
Proof.
  intros Hf1 Hf2 Hf3 Himg Htxt Hcore Hlen s served.
  assert (10 ≤ len (strip text)) as Hlong by (by rewrite (stripped_len text core)).
  set (p1 := step env InitThreadRuns (launched w)).
  assert (init_thread_pending p1 = false) as Hp by done.
  assert (initialization_status (globals p1) = init_error e
          ∧ vector_db (globals p1) = Some (built_db env)) as [H1 H2].
  { unfold p1. cbn [step launched init_thread_pending globals].
    destruct (VectorDatabase_init_returns "book_knowledge" w Hf1 Hf2) as [w0 Hinit].
    unfold initialize_components, initialize_steps, in_world, construct. mred.
    cbn [outside imported]. rewrite Hinit, Hf3. by mred. }
  assert (vector_db s = Some (built_db env)) as Hdb.
  { unfold s. change (after env (InitThreadRuns :: es) (launched w)) with (after env es p1).
    by apply after_keeps_database. }
  split; [|split; [done|]].
  - unfold s. change (after env (InitThreadRuns :: es) (launched w)) with (after env es p1).
    by rewrite (after_settled env es p1 Hp).
  - destruct (after_components env (InitThreadRuns :: es) _ (launched_components env w))
      as (_ & Hinv & _).
    destruct (Hinv _ Hdb) as [_ [c Hc]]. fold s in Hc.
    unfold served. rewrite serve_capture_eq.
    destruct (capture_run env s (built_db env) image text c Hdb Himg Htxt Hlong Hc)
      as (w' & -> & Hq & _).
    split; [done|]. exists c. split; [done|].
    cbn [snd outside set_outside]. exact Hq.
Qed.

End composition_props.

(** ** The chat UI and its callback *)

Section web_query_props.



End web_query_props.

Section handle_query_props.
Context (env : Env).

Lemma handle_query_cases question app :
  (menubar_app.qa_chain app = None
   ∧ menubar_app.handle_query env question app
     = (Returns "❌ RAG system is not initialized yet. Please wait...", app))
  ∨ (∃ qa e w',
       menubar_app.qa_chain app = Some qa
       ∧ RetrievalQA_invoke env qa question (menubar_app.outside app) = (Raises e, w')
       ∧ menubar_app.handle_query env question app
         = (Returns ("❌ Error processing query: " +:+ e),
            menubar_app.set_outside w' app))
  ∨ (∃ qa resp w' text,
       menubar_app.qa_chain app = Some qa
       ∧ RetrievalQA_invoke env qa question (menubar_app.outside app) = (Returns resp, w')
       ∧ menubar_app.handle_query env question app
         = (Returns text, menubar_app.set_outside w' app)).
Proof.
  unfold menubar_app.handle_query, menubar_app.in_world. mred.
  destruct (menubar_app.qa_chain app) as [qa|] eqn:Hqa; [|by left].
  destruct (RetrievalQA_invoke env qa question (menubar_app.outside app))
    as [[resp|e] w'] eqn:Hrun.
  - right; right. exists qa, resp, w'. eexists. split; [done|]. split; [done|]. done.
  - right; left. exists qa, e, w'. done.
Qed.

(** X19. handle_query always returns a string: the not-initialized notice, with
    nothing changed, when the chain is not set, and the text '❌ Error
    processing query: ' followed by e when the chain raises e. *)
Theorem handle_query_never_raises (question : string)
    (app : menubar_app.SecondBrainApp) :
  (∃ text, (menubar_app.handle_query env question app).1 = Returns text)
  ∧ (menubar_app.qa_chain app = None →
       menubar_app.handle_query env question app
       = (Returns "❌ RAG system is not initialized yet. Please wait...", app))
  ∧ (∀ qa e w', menubar_app.qa_chain app = Some qa →
       RetrievalQA_invoke env qa question (menubar_app.outside app) = (Raises e, w') →
       menubar_app.handle_query env question app
       = (Returns ("❌ Error processing query: " +:+ e),
          menubar_app.set_outside w' app)).
Proof.
  destruct (handle_query_cases question app)
    as [(Hqa & Hrun)|[(qa & e & w' & Hqa & Hinv & Hrun)|(qa & resp & w' & text & Hqa & Hinv & Hrun)]];
    (split; [rewrite Hrun; by eexists|]); (split; [intros; congruence|]);
    intros qa' e' w'' Hqa' Hinv'; congruence.
Qed.


End handle_query_props.

(** ** The chat UI server *)

Section server_props.

Lemma do_call_running c ui log :
  web_ui.is_running ui = true →
  web_ui.do_call c (ui, log)
  = (Returns tt,
     (ui, log ++ match c with
                 | web_ui.CallOpenBrowser => [web_ui.BrowserOpened (ui_url ui)]
                 | web_ui.CallStartServer => []
                 end)).
Proof.
  intros Hr. destruct c; unfold web_ui.do_call, web_ui.open_browser,
    web_ui.start_server, web_ui.do_effect; mred; cbn [fst snd]; rewrite Hr; mred.
  - by rewrite app_nil_r.
  - done.
Qed.

Lemma do_call_stopped c ui log :
  web_ui.is_running ui = false →
  web_ui.do_call c (ui, log)
  = (Returns tt,
     (web_ui.set_is_running true ui,
      log ++ web_ui.ServerThreadStarted (web_ui.port ui)
          :: match c with
             | web_ui.CallOpenBrowser => [web_ui.BrowserOpened (ui_url ui)]
             | web_ui.CallStartServer => []
             end)).
Proof.
  intros Hr. destruct c; unfold web_ui.do_call, web_ui.open_browser,
    web_ui.start_server, web_ui.do_effect; mred; cbn [fst snd]; rewrite Hr; mred;
    cbn [fst snd negb]; rewrite ?Hr; mred; cbn [fst snd].
  - done.
  - by rewrite <- app_assoc.
Qed.

Lemma do_calls_running cs ui log :
  web_ui.is_running ui = true →
  web_ui.do_calls cs (ui, log)
  = (ui, log ++ replicate (length (filter (λ c, c = web_ui.CallOpenBrowser) cs))
                  (web_ui.BrowserOpened (ui_url ui))).
Proof.
  intros Hr. revert log. induction cs as [|c cs IH]; intros log.
  - cbn. by rewrite app_nil_r.
  - cbn [web_ui.do_calls]. rewrite (do_call_running c ui log Hr). cbn [snd].
    rewrite IH. rewrite <- app_assoc. f_equal. destruct c.
    + by rewrite filter_cons_False by done.
    + by rewrite filter_cons_True by done.
Qed.

(** X18. Any non-empty sequence of start_server and open_browser calls on a UI that
    is not running starts exactly one server thread, first, then opens the
    browser at http://127.0.0.1:<port> once per open_browser call, and leaves
    is_running set. *)
Theorem server_started_once (cs : list web_ui.ui_call) (ui : web_ui.WebChatUI)
    (log : list web_ui.effect) :
  web_ui.is_running ui = false →
  cs ≠ [] →
  web_ui.do_calls cs (ui, log)
  = (web_ui.set_is_running true ui,
     log ++ web_ui.ServerThreadStarted (web_ui.port ui)
         :: replicate (length (filter (λ c, c = web_ui.CallOpenBrowser) cs))
              (web_ui.BrowserOpened (ui_url ui))).
Proof.
  intros Hr Hcs. destruct cs as [|c cs]; [done|].
  cbn [web_ui.do_calls]. rewrite (do_call_stopped c ui log Hr). cbn [snd].
  rewrite do_calls_running by done. rewrite <- app_assoc. f_equal. cbn [app].
  f_equal. destruct c.
  + by rewrite filter_cons_False by done.
  + by rewrite filter_cons_True by done.
Qed.

End server_props.

(** ** The menu and the script *)

Section menu_props.

Import menubar_menu.
Context (env : Env).

Lemma menu_capture_stores mb db image text c :
  menubar_app.vector_db (core mb) = Some db →
  screenshot env None = Returns image →
  image_to_string env image = Returns text →
  10 ≤ len (strip text) →
  qdrant (world_of mb) !! collection_name db = Some c →
  ∃ w',
    capture_full_screen env mb
    = (Returns tt,
       set_web_ui
         ((λ ui, (web_ui.add_system_message
                    ("Captured and stored " +:+ pretty (len text)
                       +:+ " characters from screenshot") ui).2) <$> web_ui mb)
         (set_screen
            (screen mb ++ [capturing;
                           notification "Second Brain" "Text Captured! ✅"
                             ("Stored " +:+ pretty (len text)
                                +:+ " characters in knowledge base.")])
            (set_core (menubar_app.set_outside w' (core mb)) mb)))
    ∧ qdrant w'
      = <[collection_name db := store_points [captured_point env (world_of mb) text] c]>
          (qdrant (world_of mb))
    ∧ calls w'
      = calls (world_of mb)
          ++ [CUpsert (collection_name db) [captured_point env (world_of mb) text]].
Proof.
  intros Hdb Himg Htxt Hlong Hc. unfold world_of in *.
  unfold capture_full_screen, capture_and_store, capture_and_extract,
    capture_screenshot, extract_text_from_image, show. mred. rewrite Hdb. mred.
  cbn [core set_screen]. rewrite Himg, Htxt. mred.
  rewrite (capture_text_kept text Hlong).
  unfold in_world, new_dict. mred. cbn [core set_screen set_core menubar_app.outside
    menubar_app.set_outside].
  match goal with |- context [add_text env db text (Some ?l) ?w1] =>
    destruct (add_text_run_dict env db text l w1 c) as (w' & Hrun & _ & Hq & Hl);
      [done|];
    assert (dict_at l w1 = {[ "source" := VStr "screenshot_full" ]}) as Hmd
      by (unfold dict_at; cbn [heap set_heap]; by rewrite lookup_insert_eq)
  end.
  rewrite Hmd in *. cbn [id qdrant set_heap uuid_drawn clock_reads calls] in *.
  rewrite Hrun. mred. exists w'. split; [|by split].
  cbn [core set_core set_screen web_ui screen menubar_app.outside menubar_app.set_outside].
  destruct (web_ui mb) as [ui|] eqn:Hui; mred;
    cbn [fmap option_fmap option_map]; rewrite <- app_assoc;
    destruct mb as [[? ? ?] ? ? ? ? ?]; cbn in *; by subst.
Qed.

Lemma show_settings_run response mb :
  show_settings response mb
  = (Returns tt,
     set_screen
       (screen mb
          ++ [alert "Settings" "Auto-store captured text in database?" "Yes" (Some "No");
              if bool_decide (response = 1%Z)
              then notification "Settings Updated" "Auto-store enabled"
                     "Captured text will be automatically stored."
              else notification "Settings Updated" "Auto-store disabled"
                     "You'll be prompted before storing text."])
       (set_auto_store (bool_decide (response = 1%Z)) mb)).
Proof.
  unfold show_settings, show. mred.
  destruct (bool_decide (response = 1%Z)); mred; cbn; by rewrite <- app_assoc.
Qed.

(** X21. show_settings sets auto_store to whether the first button was pressed, and
    capture_full_screen never reads it: after either answer a capture with
    enough text is stored in the collection, with source 'screenshot_full'. *)
Theorem capture_stores_whatever_the_setting (response : Z) (mb : MenuBar)
    (db : VectorDatabase) (image : Image) (text : string) (c : collection) :
  menubar_app.vector_db (core mb) = Some db →
  screenshot env None = Returns image →
  image_to_string env image = Returns text →
  10 ≤ len (strip text) →
  qdrant (world_of mb) !! collection_name db = Some c →
  let settled := (show_settings response mb).2 in
  let captured := (capture_full_screen env settled).2 in
  auto_store settled = bool_decide (response = 1%Z)
  ∧ auto_store captured = bool_decide (response = 1%Z)
  ∧ calls (world_of captured)
    = calls (world_of mb)
        ++ [CUpsert (collection_name db) [captured_point env (world_of mb) text]]
  ∧ qdrant (world_of captured)
    = <[collection_name db := store_points [captured_point env (world_of mb) text] c]>
        (qdrant (world_of mb)).
Proof.
  intros Hdb Himg Htxt Hlong Hc settled captured.
  subst captured settled. rewrite show_settings_run. cbn [snd].
  set (mb1 := set_screen _ (set_auto_store _ mb)).
  destruct (menu_capture_stores mb1 db image text c Hdb Himg Htxt Hlong Hc)
    as (w' & Hrun & Hq & Hl).
  rewrite Hrun. cbn [snd]. split; [done|]. split; [done|]. split; [exact Hl|exact Hq].
Qed.

(** X22. The menu's capture_full_screen: without a database it only shows the
    not-ready alert; otherwise it shows the capturing notification and then
    exactly one of: 'Capture Failed' with the error (capture raised, or the
    collection is missing, the store and the chat UI unchanged), 'No Text
    Found' (the text without the whitespace at both ends has fewer than 10
    characters, nothing else changes), or 'Text Captured' with the number of
    characters of the text, the point stored and one system message appended
    to the chat UI. *)
Theorem menu_capture_outcomes (mb : MenuBar) :
  let done := (capture_full_screen env mb).2 in
  (menubar_app.vector_db (core mb) = None →
     done = set_screen (screen mb ++ [not_ready_alert]) mb)
  ∧ (∀ db e, menubar_app.vector_db (core mb) = Some db →
       (capture_and_extract env None mb).1 = Raises e →
       done = set_screen
                (screen mb ++ [capturing;
                               notification "Second Brain" "Capture Failed"
                                 ("Error: " +:+ e)]) mb)
  ∧ (∀ db text kept, menubar_app.vector_db (core mb) = Some db →
       (capture_and_extract env None mb).1 = Returns text →
       stripped text kept →
       length kept < 10 →
       done = set_screen
                (screen mb ++ [capturing;
                               notification "Second Brain" "No Text Found"
                                 "Could not extract meaningful text from the screenshot."])
                mb)
  ∧ (∀ db text kept c, menubar_app.vector_db (core mb) = Some db →
       (capture_and_extract env None mb).1 = Returns text →
       stripped text kept →
       10 ≤ length kept →
       qdrant (world_of mb) !! collection_name db = Some c →
       screen done
       = screen mb ++ [capturing;
                       notification "Second Brain" "Text Captured! ✅"
                         ("Stored " +:+ pretty (length (chars text))
                            +:+ " characters in knowledge base.")]
       ∧ qdrant (world_of done)
         = <[collection_name db :=
               store_points [captured_point env (world_of mb) text] c]>
             (qdrant (world_of mb))
       ∧ web_ui.chat_history <$> web_ui done
         = (λ ui, web_ui.chat_history ui
                    ++ [ {| role := "system";
                            content := "Captured and stored "
                                         +:+ pretty (length (chars text))
                                         +:+ " characters from screenshot" |} ])
             <$> web_ui mb)
  ∧ (∀ db text kept, menubar_app.vector_db (core mb) = Some db →
       (capture_and_extract env None mb).1 = Returns text →
       stripped text kept →
       10 ≤ length kept →
       qdrant (world_of mb) !! collection_name db = None →
       screen done
       = screen mb ++ [capturing;
                       notification "Second Brain" "Capture Failed"
                         ("Error: " +:+ missing_collection (collection_name db))]
       ∧ qdrant (world_of done) = qdrant (world_of mb)
       ∧ web_ui done = web_ui mb).
Proof.
  cbn zeta. split; [|split; [|split; [|split]]].
  - intros Hdb. unfold capture_full_screen, show. mred. by rewrite Hdb.
  - intros db e Hdb Hocr. revert Hocr.
    unfold capture_full_screen, capture_and_store, capture_and_extract,
      capture_screenshot, extract_text_from_image, show. mred. rewrite Hdb. mred.
    destruct (screenshot env None) as [image|e']; mred.
    + destruct (image_to_string env image) as [text|e']; mred; [done|].
      intros [= ->]. cbn. by rewrite <- app_assoc.
    + intros [= ->]. cbn. by rewrite <- app_assoc.
  - intros db text chars_left Hdb Hocr Hcore Hshort. revert Hocr.
    unfold capture_full_screen, capture_and_store, capture_and_extract,
      capture_screenshot, extract_text_from_image, show. mred. rewrite Hdb. mred.
    destruct (screenshot env None) as [image|e']; mred; [|done].
    destruct (image_to_string env image) as [text'|e']; mred; [|done].
    intros [= ->]. rewrite (too_short text chars_left Hcore).
    rewrite bool_decide_eq_true_2 by done. mred.
    cbn. by rewrite <- app_assoc.
  - intros db text chars_left c Hdb Hocr Hcore Hlong Hc.
    rewrite <- (stripped_len text chars_left Hcore) in Hlong.
    assert (∃ image, screenshot env None = Returns image
                     ∧ image_to_string env image = Returns text) as (image & Himg & Htxt).
    { revert Hocr. unfold capture_and_extract, capture_screenshot,
        extract_text_from_image. mred.
      destruct (screenshot env None) as [image|e']; mred; [|done].
      destruct (image_to_string env image) as [text'|e'] eqn:Ht; mred; [|done].
      intros [= ->]. eauto. }
    destruct (menu_capture_stores mb db image text c Hdb Himg Htxt Hlong Hc)
      as (w' & Hrun & Hq & Hl).
    rewrite Hrun. cbn [snd]. split; [done|]. split; [exact Hq|].
    cbn [web_ui set_web_ui]. destruct (web_ui mb); [|done]. cbn. done.
  - intros db text chars_left Hdb Hocr Hcore Hlong Hc. revert Hocr.
    rewrite <- (stripped_len text chars_left Hcore) in Hlong.
    unfold capture_full_screen, capture_and_store, capture_and_extract,
      capture_screenshot, extract_text_from_image, show. mred. rewrite Hdb. mred.
    destruct (screenshot env None) as [image|e']; mred; [|done].
    destruct (image_to_string env image) as [text'|e']; mred; [|done].
    intros [= ->]. rewrite (capture_text_kept text Hlong).
    unfold in_world, new_dict. mred.
    match goal with |- context [add_text env db text ?md ?w1] =>
      destruct (add_text_missing env db text md w1 Hc) as [Hr Hq];
      destruct (add_text env db text md w1) as [r w']
    end.
    cbn [fst snd] in *. subst r. mred. cbn. rewrite <- app_assoc. split; [done|].
    split; [|done]. exact Hq.
Qed.

(** X23. The menu's clear_database: without a database it only shows the not-ready
    alert; with any answer other than the first button it shows the
    confirmation and changes nothing else; with the first button it leaves the
    collection empty with the database's dimension, touches no other
    collection and not the chat UI, and shows 'Database Cleared'. *)
Theorem menu_clear_database_asks_first (response : Z) (mb : MenuBar) :
  let done := (clear_database response mb).2 in
  (menubar_app.vector_db (core mb) = None →
     done = set_screen (screen mb ++ [not_ready_alert]) mb)
  ∧ (∀ db, menubar_app.vector_db (core mb) = Some db → response ≠ 1%Z →
       done = set_screen (screen mb ++ [confirm_clear]) mb)
  ∧ (∀ db, menubar_app.vector_db (core mb) = Some db → response = 1%Z →
       screen done
       = screen mb ++ [confirm_clear;
                       notification "Second Brain" "Database Cleared"
                         "All knowledge has been removed."]
       ∧ qdrant (world_of done) !! collection_name db
         = Some {| config := {| size_ := embedding_dim db; distance := COSINE |};
                   points := ∅ |}
       ∧ (∀ other, other ≠ collection_name db →
            qdrant (world_of done) !! other = qdrant (world_of mb) !! other)
       ∧ web_ui done = web_ui mb).
Proof.
  cbn zeta. unfold clear_database, show. mred. split; [|split].
  - by intros ->.
  - intros db -> Hno. mred. by rewrite bool_decide_eq_false_2.
  - intros db -> ->. mred. rewrite bool_decide_eq_true_2 by done.
    unfold in_world. mred. rewrite delete_collection_run. mred.
    cbn [core set_core set_screen menubar_app.outside menubar_app.set_outside].
    rewrite create_if_absent by (mred; apply lookup_delete_eq).
    mred. unfold world_of. cbn. rewrite <- app_assoc. split; [done|].
    split; [apply lookup_insert_eq|]. split; [|done].
    intros other Hne. by rewrite lookup_insert_ne, lookup_delete_ne.
Qed.

End menu_props.

Section script_props.
Context (env : Env).

(** X24. The main_rag script on a Qdrant without the collection, when every
    component loads: it creates the collection, stores the captured text
    whatever its length (there is no 10-character threshold) with source
    'screenshot', and returns the model's answer to the typed question with
    one source line, '1. ' followed by exactly the first 200 characters of
    the text (all of it when it is shorter) and '...'. *)
Theorem main_rag_stores_any_capture (typed : string) (w : world) (image : Image)
    (text answer : string) :
  (∀ c, load_fault env c = None) →
  qdrant w !! "book_knowledge" = None →
  screenshot env None = Returns image →
  image_to_string env image = Returns text →
  let doc := {| page_content := text;
                metadata := {[ "_id" := VStr (uuid4 env (uuid_drawn w));
                               "_collection_name" := VStr "book_knowledge" ]} |} in
  llm_generate env (stuff_prompt env [doc] typed) = Returns answer →
  ∃ w' snippet,
    first_chars 200 text snippet
    ∧ main_rag env typed w
      = (Returns (answer,
                  [String newline "" +:+ "1. " +:+ snippet +:+ "..."]), w')
    ∧ qdrant w' !! "book_knowledge"
      = Some {| config := {| size_ := sentence_embedding_dimension env;
                             distance := COSINE |};
                points := {[ uuid4 env (uuid_drawn w)
                             := (model_encode env text,
                                 add_text_payload text
                                   (now_isoformat env (clock_reads w))
                                   {[ "source" := VStr "screenshot" ]}) ]} |}.
Proof.
  intros Hok Hc Himg Htxt doc Hllm. subst doc. unfold main_rag.
  unfold VectorDatabase_init, construct. rewrite !Hok. mred.
  rewrite create_if_absent by done. mred.
  unfold capture_and_extract, capture_screenshot, extract_text_from_image. mred.
  rewrite Himg, Htxt. mred. unfold new_dict. mred.
  match goal with |- context [add_text env ?db text (Some ?l) ?w1] =>
    destruct (add_text_run_dict env db text l w1
                {| config := {| size_ := sentence_embedding_dimension env;
                                distance := COSINE |}; points := ∅ |})
      as (w' & Hrun & _ & Hq & Hl);
      [cbn; apply lookup_insert_eq|];
    assert (dict_at l w1 = {[ "source" := VStr "screenshot" ]}) as Hmd
      by (unfold dict_at; cbn [heap set_heap]; by rewrite lookup_insert_eq)
  end.
  rewrite Hmd in *.
  cbn [id qdrant set_heap uuid_drawn clock_reads calls collection_name] in *.
  rewrite Hrun. mred.
  assert (qdrant w' !! "book_knowledge"
          = Some {| config := {| size_ := sentence_embedding_dimension env;
                                 distance := COSINE |};
                    points := {[ uuid4 env (uuid_drawn w)
                                 := (model_encode env text,
                                     add_text_payload text
                                       (now_isoformat env (clock_reads w))
                                       {[ "source" := VStr "screenshot" ]}) ]} |}) as Hc'.
  { rewrite Hq, lookup_insert_eq. unfold store_points. cbn. by rewrite insert_empty. }
  unfold RetrievalQA_invoke, get_relevant_documents, client_search, llm_invoke. mred.
  cbn [retriever_collection search_k book_knowledge_chain return_source_documents].
  rewrite Hc'. unfold scored. cbn [points]. rewrite map_to_list_singleton.
  cbn [fmap list_fmap fst snd]. rewrite merge_sort_one. cbn [take documents_of].
  unfold document_of. cbn [sp_payload content_payload_key book_knowledge_chain].
  unfold add_text_payload at 1 2. rewrite lookup_insert_eq.
  rewrite lookup_insert_ne by done.
  assert ((if bool_decide
                (is_Some (({[ "source" := VStr "screenshot" ]} : gmap string pyval)
                            !! "timestamp"))
           then ({[ "source" := VStr "screenshot" ]} : gmap string pyval)
           else <["timestamp" := VStr (now_isoformat env (clock_reads w))]>
                  {[ "source" := VStr "screenshot" ]}) !! "metadata" = None) as ->.
  { case_bool_decide; [by rewrite lookup_singleton_ne|].
    rewrite lookup_insert_ne by done. by rewrite lookup_singleton_ne. }
  cbn [sp_id]. mred. change (retriever_collection book_knowledge_chain) with "book_knowledge".
  rewrite Hllm. mred.
  eexists _, (slice_to 200 text). split; [apply slice_to_first_chars|].
  split; [reflexivity|]. cbn [qdrant]. exact Hc'.
Qed.

End script_props.

(** ** Construction and readiness *)

Section constructor_props.
Context (env : Env).

(** X1. Constructing a VectorDatabase: a failure to load the embedding model
    is raised with nothing changed, whether or not Qdrant can be reached;
    when the model loads and Qdrant cannot be reached, that failure is
    raised, with nothing changed; when the collection already exists the
    constructor only lists the collections and leaves it, with its points,
    as it is; when it is absent the constructor creates it empty with the
    model's dimension and cosine distance; constructing a second time never
    changes the store. *)
Theorem constructor_keeps_existing_collection (name : string) (w : world) :
  let self := {| collection_name := name;
                 embedding_dim := sentence_embedding_dimension env |} in
  (∀ e, load_fault env CompSentenceTransformer = Some e →
        VectorDatabase_init env name w = (Raises e, w))
  ∧ (∀ e, load_fault env CompSentenceTransformer = None →
          load_fault env CompQdrantClient = Some e →
          VectorDatabase_init env name w = (Raises e, w))
  ∧ (load_fault env CompSentenceTransformer = None →
     load_fault env CompQdrantClient = None →
     (∀ c, qdrant w !! name = Some c →
        VectorDatabase_init env name w = (Returns self, log_call CGetCollections w))
     ∧ (qdrant w !! name = None →
        ∃ w', VectorDatabase_init env name w = (Returns self, w')
              ∧ qdrant w' = <[name := {| config := {| size_ := embedding_dim self;
                                                      distance := COSINE |};
                                         points := ∅ |}]> (qdrant w))
     ∧ ∃ w1 w2,
         VectorDatabase_init env name w = (Returns self, w1)
         ∧ VectorDatabase_init env name w1 = (Returns self, w2)
         ∧ qdrant w2 = qdrant w1).
Proof.
  intros self. unfold VectorDatabase_init, construct.
  split; [by intros e ->|]. split; [by intros e -> ->|].
  intros -> ->. mred. fold self. split; [|split].
  - intros c Hc. by rewrite (create_if_present self w c Hc).
  - intros Hc. rewrite (create_if_absent self w Hc). by eexists.
  - destruct (qdrant w !! name) as [c|] eqn:Hc.
    + rewrite (create_if_present self w c Hc). eexists _, _. split; [done|].
      by rewrite (create_if_present self _ c).
    + rewrite (create_if_absent self w Hc). eexists _, _. split; [done|].
      erewrite create_if_present; [done|]. mred. apply lookup_insert_eq.
Qed.

End constructor_props.

Section readiness_props.

Import api_backend.
Context (env : Env).

Lemma advance_served method path req p :
  thread_inv env p → thread_inv env (advance env (Served method path req) p).
Proof.
  destruct (serve_quiet env method path req (shared p)) as [Hs Hq].
  destruct (serve_components env method path req (shared p)) as (Hv & Hl & He & _).
  unfold thread_inv, built_upto. cbn [advance shared thread].
  by rewrite Hs, Hq, Hv, Hl, He.
Qed.

Lemma advance_thread p : thread_inv env p → thread_inv env (advance env ThreadStep p).
Proof.
  intros [(k & Hk & Hthread & Hready & H1 & H2 & H3 & H4)|[[Hready Hthread]|[Hthread Hbuilt]]].
  - destruct p as [s th]. cbn [shared thread] in *. subst th.
    destruct k as [|[|[|[|[|k]]]]]; [..|lia]; cbn [advance thread shared drop assignments].
    + unfold in_world. mred.
      destruct (VectorDatabase_init env "book_knowledge" (outside s)) as [[db|e] w1] eqn:Hinit;
        mred.
      * apply VectorDatabase_init_dim in Hinit as (Hname & Hdim & _).
        assert (db = built_db env) as -> by (destruct db; cbn in *; by subst).
        left. exists 1. cbn. unfold built_upto. cbn.
        repeat split; try done; intros; lia.
      * right; left. cbn. split; [done|]. right. by eexists.
    + unfold construct. mred. destruct (load_fault env CompOllamaLLM) as [e|]; mred.
      * right; left. cbn. split; [done|]. right. by eexists.
      * left. exists 2. cbn. unfold built_upto. cbn.
        repeat split; try done; try (intros; lia). intros _. apply H1. lia.
    + unfold construct. mred.
      destruct (load_fault env CompHuggingFaceEmbeddings) as [e|]; mred.
      * right; left. cbn. split; [done|]. right. by eexists.
      * left. exists 3. cbn. unfold built_upto. cbn.
        repeat split; try done; try (intros; lia); intros _; [apply H1|apply H2]; lia.
    + unfold construct. mred.
      destruct (load_fault env CompQdrantStore) as [e|]; mred;
        [right; left; cbn; split; [done|]; right; by eexists|].
      destruct (load_fault env CompRetrievalQA) as [e|]; mred;
        [right; left; cbn; split; [done|]; right; by eexists|].
      left. exists 4. cbn. unfold built_upto. cbn.
      repeat split; try done; intros _; [apply H1|apply H2|apply H3]; lia.
    + right; right. cbn. split; [done|]. unfold built_upto. cbn.
      repeat split; intros _; [apply H1|apply H2|apply H3|apply H4]; lia.
  - right; left. destruct p as [s th]. cbn [shared thread] in *.
    destruct Hthread as [->|[e ->]]; cbn; [by split; [|left]|].
    split; [done|by left].
  - right; right. destruct p as [s th]. cbn [shared thread] in *. subst th. by cbn.
Qed.

Lemma interleaved_inv ts p : thread_inv env p → thread_inv env (interleaved env ts p).
Proof.
  revert p. induction ts as [|t ts IH]; intros p Hp; [done|].
  cbn. apply IH. destruct t; [by apply advance_thread|by apply advance_served].
Qed.

Lemma started_inv w : thread_inv env (started env w).
Proof.
  left. exists 0. split; [lia|]. split; [done|]. split; [done|].
  unfold built_upto. repeat split; intros; lia.
Qed.

(** With no request in between, the statements of the thread and its
    [except] clause make up [initialize_components]: the step of [step]. *)
Lemma thread_without_requests s :
  interleaved env (replicate 6 ThreadStep) {| shared := s; thread := assignments env |}
  = {| shared := (initialize_components env s).2; thread := [] |}.
Proof.
  unfold initialize_components, initialize_steps, in_world, construct.
  cbn [replicate interleaved foldl advance thread shared assignments].
  unfold in_world, construct. mred.
  destruct (VectorDatabase_init env "book_knowledge" (outside s)) as [[db|e] w1];
    mred; [|done].
  destruct (load_fault env CompOllamaLLM); mred; [done|].
  destruct (load_fault env CompHuggingFaceEmbeddings); mred; [done|].
  destruct (load_fault env CompQdrantStore); mred; [done|].
  destruct (load_fault env CompRetrievalQA); mred; done.
Qed.

(** X8. Whatever requests are served between the statements of the
    initialization thread, in every state the API process reaches: if the
    status is ready then the database, the LLM, the embeddings and the QA
    chain are all set, to the objects [initialize_components] builds.  (The
    thread writes the ready status last, and no handler writes a component
    or the status.) *)
Theorem ready_means_components_built (w : world) (ts : list tick) :
  let s := shared (interleaved env ts (started env w)) in
  ready (initialization_status s) = true →
  vector_db s = Some (built_db env)
  ∧ llm s = Some "llama3.1:8b"
  ∧ embeddings s = Some "all-MiniLM-L6-v2"
  ∧ qa_chain s = Some book_knowledge_chain.
Proof.
  intros s Hr.
  destruct (interleaved_inv ts _ (started_inv w))
    as [(k & _ & _ & Hn & _)|[[Hn _]|[_ (H1 & H2 & H3 & H4)]]].
  - fold s in Hn. congruence.
  - fold s in Hn. congruence.
  - fold s in H1, H2, H3, H4. split; [apply H1; lia|]. split; [apply H2; lia|].
    split; [apply H3; lia|apply H4; lia].
Qed.

End readiness_props.

(** ** Further runs on the concrete environment *)

Lemma search_top_k_witness :
  ∃ c hits,
    qdrant demo_store !! "book_knowledge" = Some c
    ∧ search demo_env demo_db "xx" 2 demo_store
      = (Returns hits, log_call (CSearch "book_knowledge" 2) demo_store)
    ∧ length hits = 2
    ∧ StronglySorted nearer hits.
Proof.
  assert (∃ c, qdrant demo_store !! "book_knowledge" = Some c ∧ size (points c) = 3)
    as (c & Hc & Hsize) by (eexists; split; vm_compute; reflexivity).
  destruct (search_top_k demo_env demo_db "xx" 2 demo_store c Hc)
    as (hits & Hrun & Hlen & Hsorted & _).
  exists c, hits. rewrite Hsize in Hlen.
  split; [exact Hc|]. split; [exact Hrun|]. split; [exact Hlen|exact Hsorted].
Defined.

Lemma store_operations_need_collection_witness :
  (search demo_env demo_db "xx" 2 empty_world).1
    = Raises (missing_collection "book_knowledge")
  ∧ (get_stats demo_db empty_world).1 = Raises (missing_collection "book_knowledge")
  ∧ (add_text demo_env demo_db "a" None empty_world).1
    = Raises (missing_collection "book_knowledge")
  ∧ qdrant (add_texts_batch demo_env demo_db ["a"; "b"] None empty_world).2 = ∅.
Proof.
  assert (qdrant empty_world !! collection_name demo_db = None) as Hc
    by (vm_compute; reflexivity).
  destruct (store_operations_need_collection demo_env demo_db empty_world Hc)
    as (Hsearch & Hstats & Hadd & Hbatch).
  split; [apply Hsearch|]. split; [apply Hstats|]. split; [apply Hadd|].
  apply (Hbatch ["a"; "b"] None).
Defined.

Lemma add_text_then_search_witness :
  ∃ pid w1 hits h,
    add_text demo_env demo_db "hello" None demo_world = (Returns pid, w1)
    ∧ (search demo_env demo_db "hi" 1 w1).1 = Returns hits
    ∧ h ∈ hits
    ∧ sp_id h = pid
    ∧ sp_payload h !! "text" = Some (VStr "hello")
    ∧ score h = similarity demo_env (model_encode demo_env "hi")
                  (model_encode demo_env "hello").
Proof.
  apply (add_text_then_search demo_env demo_db "hello" None "hi" 1 demo_world
           {| config := {| size_ := 1; distance := COSINE |}; points := ∅ |}).
  - vm_compute; reflexivity.
  - vm_compute; lia.
Defined.

Lemma add_text_writes_callers_dict_witness :
  ∃ id1 id2 w1 w2,
    add_text demo_env demo_db "a" (Some 0) demo_dicts = (Returns id1, w1)
    ∧ add_text demo_env demo_db "b" (Some 0) w1 = (Returns id2, w2)
    ∧ dict_at 0 w2 !! "text" = Some (VStr "b")
    ∧ dict_at 0 w2 !! "timestamp" = Some (VStr "T0").
Proof.
  destruct (add_text_writes_callers_dict demo_env demo_db "a" "b" 0 demo_dicts
              {| config := {| size_ := 1; distance := COSINE |}; points := ∅ |})
    as (id1 & id2 & w1 & w2 & p1 & p2 & H1 & H2 & _ & _ & Hd & _ & Ht & Hs1 & Hs2);
    [vm_compute; reflexivity|].
  exists id1, id2, w1, w2. rewrite Hd. split; [exact H1|]. split; [exact H2|].
  split; [exact Ht|]. rewrite Hs2, Hs1. vm_compute; reflexivity.
Defined.

Lemma add_texts_batch_truncates_witness :
  ∃ pts w',
    add_texts_batch demo_env demo_db ["a"; "b"; "c"] (Some [0]) demo_dicts
      = (Returns (id <$> pts), w')
    ∧ length pts = 1
    ∧ id <$> pts = ["0"].
Proof.
  destruct (add_texts_batch_truncates demo_env demo_db ["a"; "b"; "c"] [0] demo_dicts
              {| config := {| size_ := 1; distance := COSINE |}; points := ∅ |})
    as (pts & w' & Hrun & Hlen & Hids & _); [vm_compute; reflexivity|].
  exists pts, w'. split; [exact Hrun|]. split; [exact Hlen|].
  rewrite Hids. vm_compute; reflexivity.
Defined.

Lemma add_texts_batch_own_metadata_witness :
  ∃ pts w' p,
    add_texts_batch demo_env demo_db ["a"; "b"] (Some [0; 1]) demo_dicts
      = (Returns (id <$> pts), w')
    ∧ length pts = 2
    ∧ pts !! 1 = Some p
    ∧ id p = "1"
    ∧ payload p = {[ "source" := VStr "book"; "text" := VStr "b";
                     "timestamp" := VStr "T1" ]}.
Proof.
  destruct (add_texts_batch_own_metadata demo_env demo_db ["a"; "b"] [0; 1] demo_dicts
              {| config := {| size_ := 1; distance := COSINE |}; points := ∅ |})
    as (pts & w' & Hrun & _ & Hlen & Hpts).
  - vm_compute; reflexivity.
  - reflexivity.
  - apply NoDup_cons_2; [|apply NoDup_singleton].
    intros ?%list_elem_of_singleton; discriminate.
  - destruct (Hpts 1 "b" 1 eq_refl eq_refl) as (p & Hp & Hid & _ & Hpay).
    exists pts, w', p. split; [exact Hrun|]. split; [exact Hlen|].
    split; [exact Hp|]. split; [exact Hid|].
    rewrite Hpay. vm_compute; reflexivity.
Defined.

Lemma constructor_keeps_existing_collection_witness :
  VectorDatabase_init (with_faults no_model_no_qdrant demo_env) "book_knowledge"
    empty_world
    = (Raises "model not found", empty_world)
  ∧ VectorDatabase_init (with_faults no_qdrant demo_env) "book_knowledge" empty_world
    = (Raises "connection refused", empty_world)
  ∧ VectorDatabase_init demo_env "book_knowledge" demo_store
    = (Returns demo_db, log_call CGetCollections demo_store)
  ∧ (∃ w', VectorDatabase_init demo_env "book_knowledge" empty_world
             = (Returns demo_db, w')
           ∧ qdrant w'
             = {[ "book_knowledge"
                  := {| config := {| size_ := 1; distance := COSINE |};
                        points := ∅ |} ]}).
Proof.
  split; [|split; [|split]].
  - apply (proj1 (constructor_keeps_existing_collection
                    (with_faults no_model_no_qdrant demo_env) "book_knowledge"
                    empty_world)).
    reflexivity.
  - apply (proj1 (proj2 (constructor_keeps_existing_collection
                    (with_faults no_qdrant demo_env) "book_knowledge" empty_world)));
      reflexivity.
  - destruct (proj2 (proj2 (constructor_keeps_existing_collection demo_env
                              "book_knowledge" demo_store)) eq_refl eq_refl)
      as (Hthere & _).
    assert (∃ c, qdrant demo_store !! "book_knowledge" = Some c) as [c Hc]
      by (eexists; vm_compute; reflexivity).
    exact (Hthere c Hc).
  - destruct (proj2 (proj2 (constructor_keeps_existing_collection demo_env
                              "book_knowledge" empty_world)) eq_refl eq_refl)
      as (_ & Habsent & _).
    destruct Habsent as (w' & Hrun & Hq); [vm_compute; reflexivity|].
    exists w'. split; [exact Hrun|]. rewrite Hq. vm_compute; reflexivity.
Defined.

Lemma ready_means_components_built_witness :
  let s := api_backend.shared
             (api_backend.interleaved demo_env
                [api_backend.ThreadStep;
                 api_backend.Served "POST" "/api/capture/full" (form ∅);
                 api_backend.ThreadStep; api_backend.ThreadStep;
                 api_backend.Served "GET" "/api/health" (form ∅);
                 api_backend.ThreadStep; api_backend.ThreadStep]
                (api_backend.started demo_env empty_world)) in
  api_backend.vector_db s = Some (built_db demo_env)
  ∧ api_backend.llm s = Some "llama3.1:8b"
  ∧ api_backend.embeddings s = Some "all-MiniLM-L6-v2"
  ∧ api_backend.qa_chain s = Some book_knowledge_chain.
Proof.
  apply (ready_means_components_built demo_env empty_world).
  vm_compute; reflexivity.
Defined.

Lemma capture_failures_witness :
  api_backend.serve demo_env "POST" "/api/capture/full" (form ∅)
    (api_backend.imported empty_world)
    = (jsonify [("error", JStr "Vector database not ready")] 503,
       api_backend.imported empty_world)
  ∧ api_backend.serve (with_screenshot (Raises "no display") demo_env)
      "POST" "/api/capture/full" (form ∅) demo_ready
    = (jsonify [("success", JBool false); ("error", JStr "no display")] 500, demo_ready)
  ∧ api_backend.serve (with_ocr (Raises "tesseract is not installed") demo_env)
      "POST" "/api/capture/full" (form ∅) demo_ready
    = (jsonify [("success", JBool false);
                ("error", JStr "tesseract is not installed")] 500, demo_ready)
  ∧ (api_backend.serve demo_env "POST" "/api/capture/full" (form ∅)
       (api_backend.set_outside empty_world demo_ready)).1
    = jsonify [("success", JBool false);
               ("error", JStr (missing_collection "book_knowledge"))] 500.
Proof.
  split; [|split; [|split]].
  - apply (proj1 (capture_failures demo_env (form ∅) (api_backend.imported empty_world))).
    reflexivity.
  - apply (proj1 (proj2 (capture_failures
                           (with_screenshot (Raises "no display") demo_env)
                           (form ∅) demo_ready)) demo_db).
    + vm_compute; reflexivity.
    + reflexivity.
  - apply (proj1 (proj2 (proj2 (capture_failures
                                  (with_ocr (Raises "tesseract is not installed") demo_env)
                                  (form ∅) demo_ready))) demo_db (Raster 0 0 [])).
    + vm_compute; reflexivity.
    + reflexivity.
    + reflexivity.
  - apply (proj2 (proj2 (proj2 (capture_failures demo_env (form ∅)
                                  (api_backend.set_outside empty_world demo_ready))))
             demo_db (Raster 0 0 []) "The mitochondria is the powerhouse of the cell.").
    + vm_compute; reflexivity.
    + reflexivity.
    + reflexivity.
    + vm_compute; lia.
    + vm_compute; reflexivity.
Defined.

Lemma clear_database_effects_witness :
  let s := api_backend.globals
             (api_backend.after demo_env demo_events (api_backend.launched empty_world)) in
  let s1 := (api_backend.serve demo_env "DELETE" "/api/database" (form ∅) s).2 in
  (api_backend.serve demo_env "GET" "/api/stats" (form ∅) s1).1
    = jsonify [("success", JBool true);
               ("stats", JObj [("total_points", JNum 0); ("vectors_count", JNum 0);
                               ("status", JStr "green")])] 200
  ∧ api_backend.chat_history s1 = api_backend.chat_history s
  ∧ ∃ answer,
      body (api_backend.serve demo_env "POST" "/api/query" (form {[ "query" := "hi" ]}) s1).1
      = JObj [("response", JStr answer); ("sources", JArr []);
              ("success", JBool true)].
Proof.
  intros s s1.
  destruct (clear_database_effects demo_env empty_world demo_events (form ∅) demo_db)
    as (Hhistory & _ & _ & Hstats & Hquery); [vm_compute; reflexivity|].
  split; [exact Hstats|]. split; [exact Hhistory|].
  apply (Hquery (form {[ "query" := "hi" ]})). vm_compute; reflexivity.
Defined.

Lemma capture_then_query_cites_witness :
  let env := with_ocr (Returns (dashes 80)) demo_env in
  let s1 := (api_backend.serve env "POST" "/api/capture/full" (form ∅) demo_ready).2 in
  ∃ answer,
    body (api_backend.serve env "POST" "/api/query"
            (form {[ "query" := "What is the powerhouse of the cell?" ]}) s1).1
    = JObj [("response", JStr answer);
            ("sources",
             JArr [json_of_source
                     {| src_content := dashes 80;
                        src_metadata := {[ "_id" := VStr "0";
                                           "_collection_name" := VStr "book_knowledge" ]} |}]);
            ("success", JBool true)].
Proof.
  intros env s1.
  destruct (capture_then_query_cites env empty_world [api_backend.InitThreadRuns]
              (form ∅) (form {[ "query" := "What is the powerhouse of the cell?" ]})
              {| config := {| size_ := 1; distance := COSINE |}; points := ∅ |}
              (Raster 0 0 []) (dashes 80) (chars (strip (dashes 80))))
    as (answer & snippet & Hsnippet & Hbody).
  - vm_compute; reflexivity.
  - vm_compute; reflexivity.
  - reflexivity.
  - reflexivity.
  - reflexivity.
  - apply strip_stripped.
  - vm_compute; lia.
  - vm_compute; reflexivity.
  - exists answer. apply first_chars_slice_to in Hsnippet. subst snippet.
    etrans; [exact Hbody|]. do 4 f_equal.
Defined.

Lemma failed_initialization_is_reported_witness :
  let s := api_backend.globals
             (api_backend.after (with_faults no_qdrant demo_env)
                [api_backend.InitThreadRuns;
                 api_backend.Request "POST" "/api/capture/full" (form ∅)]
                (api_backend.launched empty_world)) in
  (api_backend.serve (with_faults no_qdrant demo_env) "GET" "/api/health" (form ∅) s).1
    = jsonify [("status", JStr "ok"); ("initialized", JBool false);
               ("message", JStr "Error: connection refused")] 200
  ∧ (api_backend.serve (with_faults no_qdrant demo_env) "POST" "/api/query"
       (form {[ "query" := "hi" ]}) s).1
    = jsonify [("error", JStr "System not ready yet");
               ("message", JStr "Error: connection refused")] 503
  ∧ api_backend.qa_chain s = None.
Proof.
  intros s.
  split; [|split].
  - apply (proj1 (failed_initialization_is_reported (with_faults no_qdrant demo_env)
                    empty_world [api_backend.Request "POST" "/api/capture/full" (form ∅)]
                    (form ∅) "connection refused" eq_refl)).
  - apply (proj1 (proj2 (failed_initialization_is_reported
                    (with_faults no_qdrant demo_env)
                    empty_world [api_backend.Request "POST" "/api/capture/full" (form ∅)]
                    (form {[ "query" := "hi" ]}) "connection refused" eq_refl))).
  - apply (proj2 (proj2 (failed_initialization_is_reported
                    (with_faults no_qdrant demo_env)
                    empty_world [api_backend.Request "POST" "/api/capture/full" (form ∅)]
                    (form ∅) "connection refused" eq_refl))).
Defined.

Lemma capture_works_after_partial_initialization_witness :
  let env := with_ocr (Returns " “It’s”—okay") (with_faults no_llm demo_env) in
  let s := api_backend.globals
             (api_backend.after env [api_backend.InitThreadRuns]
                (api_backend.launched empty_world)) in
  let served := api_backend.serve env "POST" "/api/capture/full" (form ∅) s in
  api_backend.initialization_status s = init_error "ollama is not running"
  ∧ api_backend.vector_db s = Some demo_db
  ∧ served.1
    = jsonify [("success", JBool true);
               ("message", JStr "Captured 12 characters");
               ("text_length", JNum 12)] 200
  ∧ stored_payload (api_backend.outside served.2) "book_knowledge" "0"
    = Some {[ "source" := VStr "screenshot_full"; "text" := VStr " “It’s”—okay";
              "timestamp" := VStr "T0" ]}.
Proof.
  intros env s served.
  destruct (capture_works_after_partial_initialization env
              empty_world [] (form ∅) "ollama is not running" (Raster 0 0 [])
              " “It’s”—okay" _ eq_refl eq_refl eq_refl eq_refl eq_refl
              stripped_longer_quote)
    as (Hstatus & Hdb & Hcapture & c & Hc & Hstore); [vm_compute; lia|].
  split; [exact Hstatus|]. split; [exact Hdb|]. split.
  - etrans; [exact Hcapture|]. vm_compute; reflexivity.
  - unfold stored_payload.
    etrans; [exact (f_equal (λ q, match q !! "book_knowledge" with
                                  | Some c => snd <$> points c !! "0"
                                  | None => None
                                  end) Hstore)|].
    cbn beta. rewrite lookup_insert_eq. cbn [points].
    etrans; [apply (f_equal (fmap snd)), lookup_insert_eq|].
    vm_compute; reflexivity.
Defined.


Lemma handle_query_never_raises_witness :
  menubar_app.handle_query demo_env "hi"
    (menubar_menu.core (menu_over None empty_world))
    = (Returns "❌ RAG system is not initialized yet. Please wait...",
       menubar_menu.core (menu_over None empty_world))
  ∧ (menubar_app.handle_query (with_llm (λ _, Raises "connection refused") demo_env)
       "hi" demo_app).1
    = Returns "❌ Error processing query: connection refused"
  ∧ ∃ text, (menubar_app.handle_query demo_env "hi" demo_app).1 = Returns text.
Proof.
  split; [|split].
  - apply (proj1 (proj2 (handle_query_never_raises demo_env "hi"
                           (menubar_menu.core (menu_over None empty_world))))).
    reflexivity.
  - rewrite (proj2 (proj2 (handle_query_never_raises
                             (with_llm (λ _, Raises "connection refused") demo_env)
                             "hi" demo_app))
               book_knowledge_chain "connection refused"
               (RetrievalQA_invoke (with_llm (λ _, Raises "connection refused") demo_env)
                  book_knowledge_chain "hi" (menubar_app.outside demo_app)).2).
    + reflexivity.
    + reflexivity.
    + vm_compute; reflexivity.
  - apply (proj1 (handle_query_never_raises demo_env "hi" demo_app)).
Defined.


Lemma server_started_once_witness :
  web_ui.do_calls [web_ui.CallOpenBrowser; web_ui.CallStartServer; web_ui.CallOpenBrowser]
    (demo_ui, [])
  = (web_ui.set_is_running true demo_ui,
     [web_ui.ServerThreadStarted 5555;
      web_ui.BrowserOpened "http://127.0.0.1:5555";
      web_ui.BrowserOpened "http://127.0.0.1:5555"]).
Proof.
  etrans.
  - apply (server_started_once
             [web_ui.CallOpenBrowser; web_ui.CallStartServer; web_ui.CallOpenBrowser]
             demo_ui []); [reflexivity|discriminate].
  - vm_compute; reflexivity.
Defined.

Lemma capture_stores_whatever_the_setting_witness :
  let settled := (menubar_menu.show_settings 0 demo_menu).2 in
  let captured := (menubar_menu.capture_full_screen demo_env settled).2 in
  menubar_menu.auto_store captured = false
  ∧ calls (world_of captured)
    = calls demo_world
        ++ [CUpsert "book_knowledge"
              [captured_point demo_env demo_world
                 "The mitochondria is the powerhouse of the cell."]].
Proof.
  intros settled captured.
  destruct (capture_stores_whatever_the_setting demo_env 0 demo_menu demo_db
              (Raster 0 0 []) "The mitochondria is the powerhouse of the cell."
              {| config := {| size_ := 1; distance := COSINE |}; points := ∅ |})
    as (_ & Hauto & Hcalls & _).
  - reflexivity.
  - reflexivity.
  - reflexivity.
  - vm_compute; lia.
  - vm_compute; reflexivity.
  - split; [exact Hauto|exact Hcalls].
Defined.

Lemma menu_capture_outcomes_witness :
  (menubar_menu.capture_full_screen demo_env (menu_over None empty_world)).2
    = menubar_menu.set_screen [menubar_menu.not_ready_alert] (menu_over None empty_world)
  ∧ (menubar_menu.capture_full_screen
       (with_screenshot (Raises "no display") demo_env) demo_menu).2
    = menubar_menu.set_screen
        [capturing;
         menubar_menu.notification "Second Brain" "Capture Failed" "Error: no display"]
        demo_menu
  ∧ (menubar_menu.capture_full_screen
       (with_ocr (Returns "  “It’s”—ok  ") demo_env) demo_menu).2
    = menubar_menu.set_screen
        [capturing;
         menubar_menu.notification "Second Brain" "No Text Found"
           "Could not extract meaningful text from the screenshot."]
        demo_menu
  ∧ (let done := (menubar_menu.capture_full_screen
                    (with_ocr (Returns " “It’s”—okay") demo_env) demo_menu).2 in
     menubar_menu.screen done
       = [capturing;
          menubar_menu.notification "Second Brain" "Text Captured! ✅"
            "Stored 12 characters in knowledge base."]
     ∧ web_ui.chat_history <$> menubar_menu.web_ui done
       = Some [ {| role := "system";
                   content := "Captured and stored 12 characters from screenshot" |} ])
  ∧ (let done := (menubar_menu.capture_full_screen demo_env
                    (menu_over (Some demo_db) empty_world)).2 in
     menubar_menu.screen done
       = [capturing;
          menubar_menu.notification "Second Brain" "Capture Failed"
            ("Error: " +:+ missing_collection "book_knowledge")]
     ∧ qdrant (world_of done) = ∅
     ∧ menubar_menu.web_ui done = Some demo_ui).
Proof.
  split; [|split; [|split; [|split]]].
  - apply (proj1 (menu_capture_outcomes demo_env (menu_over None empty_world))).
    reflexivity.
  - apply (proj1 (proj2 (menu_capture_outcomes
                           (with_screenshot (Raises "no display") demo_env) demo_menu))
             demo_db "no display"); reflexivity.
  - apply (proj1 (proj2 (proj2 (menu_capture_outcomes
                                  (with_ocr (Returns "  “It’s”—ok  ") demo_env)
                                  demo_menu)))
             demo_db "  “It’s”—ok  " _ eq_refl eq_refl stripped_quote).
    vm_compute; lia.
  - intros done.
    destruct (proj1 (proj2 (proj2 (proj2
                (menu_capture_outcomes (with_ocr (Returns " “It’s”—okay") demo_env)
                   demo_menu))))
                demo_db " “It’s”—okay" _
                {| config := {| size_ := 1; distance := COSINE |}; points := ∅ |}
                eq_refl eq_refl stripped_longer_quote)
      as (Hscreen & _ & Hui).
    + vm_compute; lia.
    + vm_compute; reflexivity.
    + split.
      * etrans; [exact Hscreen|]. vm_compute; reflexivity.
      * etrans; [exact Hui|]. vm_compute; reflexivity.
  - intros done.
    destruct (proj2 (proj2 (proj2 (proj2 (menu_capture_outcomes demo_env
                                            (menu_over (Some demo_db) empty_world)))))
                demo_db "The mitochondria is the powerhouse of the cell." _
                eq_refl eq_refl
                (strip_stripped "The mitochondria is the powerhouse of the cell."))
      as (Hscreen & Hq & Hui).
    + vm_compute; lia.
    + vm_compute; reflexivity.
    + split; [exact Hscreen|]. split; [exact Hq|exact Hui].
Defined.

Lemma menu_clear_database_asks_first_witness :
  (menubar_menu.clear_database 1 (menu_over None empty_world)).2
    = menubar_menu.set_screen [menubar_menu.not_ready_alert] (menu_over None empty_world)
  ∧ (menubar_menu.clear_database 0 (menu_over (Some demo_db) demo_store)).2
    = menubar_menu.set_screen [confirm_clear] (menu_over (Some demo_db) demo_store)
  ∧ (let done := (menubar_menu.clear_database 1 (menu_over (Some demo_db) demo_store)).2 in
     menubar_menu.screen done
       = [confirm_clear;
          menubar_menu.notification "Second Brain" "Database Cleared"
            "All knowledge has been removed."]
     ∧ qdrant (world_of done) !! "book_knowledge"
       = Some {| config := {| size_ := 1; distance := COSINE |}; points := ∅ |}).
Proof.
  split; [|split].
  - apply (proj1 (menu_clear_database_asks_first 1 (menu_over None empty_world))).
    reflexivity.
  - apply (proj1 (proj2 (menu_clear_database_asks_first 0
                           (menu_over (Some demo_db) demo_store))) demo_db).
    + reflexivity.
    + discriminate.
  - intros done.
    destruct (proj2 (proj2 (menu_clear_database_asks_first 1
                              (menu_over (Some demo_db) demo_store)))
                demo_db eq_refl eq_refl) as (Hscreen & Hq & _).
    split; [exact Hscreen|exact Hq].
Defined.

Lemma main_rag_stores_any_capture_witness :
  ∃ w',
    main_rag (with_ocr (Returns (dashes 201)) demo_env) "What is this?" empty_world
    = (Returns ("Answer: " +:+ dashes 201 +:+ " | What is this?",
                [String newline "" +:+ "1. " +:+ dashes 200 +:+ "..."]), w')
    ∧ stored_payload w' "book_knowledge" "0"
      = Some {[ "source" := VStr "screenshot"; "text" := VStr (dashes 201);
                "timestamp" := VStr "T0" ]}.
Proof.
  destruct (main_rag_stores_any_capture (with_ocr (Returns (dashes 201)) demo_env)
              "What is this?" empty_world (Raster 0 0 []) (dashes 201)
              ("Answer: " +:+ dashes 201 +:+ " | What is this?"))
    as (w' & snippet & Hsnippet & Hrun & Hstore).
  - reflexivity.
  - vm_compute; reflexivity.
  - reflexivity.
  - reflexivity.
  - vm_compute; reflexivity.
  - exists w'. apply first_chars_slice_to in Hsnippet. subst snippet. split.
    + etrans; [exact Hrun|]. vm_compute; reflexivity.
    + unfold stored_payload. rewrite Hstore. cbn [points].
      rewrite lookup_singleton_eq. vm_compute; reflexivity.
Defined.

